(** * Social-media tracker: the SQLite store, the collection orchestrator,
      the report helpers, the command line and web front ends and the
      configuration cache, embedded from [src/core/database.py],
      [src/core/collectors.py], [src/core/report.py], [src/api.py],
      [src/web/app.py], [src/cli/main.py], [src/core/api_config.py] and
      [src/core/supabase_db.py].

    Conventions of the embedding.
    - A table is the list of its rows in insertion order.  A row is the
      dataclass value that the getters rebuild from it, so a stored row
      always carries [Some rowid] in its [id].
    - [Optional[int]] ids are [option Z]; Python [None] bound to a SQL
      parameter is SQL NULL, and a comparison with NULL is never true.
    - The fields are held at the types the dataclasses declare.  The two
      fields through which a value of the collaborator can reach a NOT NULL
      column as [None] ([Post.post_id] and the foreign keys that carry
      [account.id] / [post.id]) are kept optional.
    - [datetime.now().isoformat()] is a reading of the clock of the world;
      the store methods take the reading as their first argument.
    - A Python exception is an [Outcome] of the form [Raise e]; what was
      committed before it stays committed. *)

From Stdlib Require Import ZArith List String Bool Lia.
From Stdlib Require Import Permutation Sorted OrderedTypeEx SpecFloat.
Import ListNotations.

Local Open Scope Z_scope.

Set Implicit Arguments.

(** ** Exceptions and outcomes *)

Inductive Exn : Type :=
| TypeError                       (* [None[0]] after an empty [fetchone()] *)
| IntegrityError                  (* sqlite3.IntegrityError: NOT NULL failed *)
| ZeroDivisionError               (* int / int with a zero divisor *)
| OverflowError                   (* int / int too large for a float *)
| CollaboratorError (msg : string) (* anything a platform adapter raises *).

Inductive Outcome (A : Type) : Type :=
| Ok (a : A)
| Raise (e : Exn).

Arguments Ok {A} a.
Arguments Raise {A} e.

(** ** SQL comparisons on nullable values *)

Definition sql_eq_int (a b : option Z) : bool :=
  match a, b with
  | Some x, Some y => x =? y
  | _, _ => false
  end.

Definition sql_eq_text (a b : option string) : bool :=
  match a, b with
  | Some x, Some y => String.eqb x y
  | _, _ => false
  end.

Definition is_null {A : Type} (a : option A) : bool :=
  match a with
  | Some _ => false
  | None => true
  end.

(** ** The dataclasses of [database.py] *)

Module Account.
Record t : Type := mk {
  id : option Z;
  platform : string;
  username : string;
  display_name : string;
  account_id : string;
  follower_count : Z;
  following_count : Z;
  post_count : Z;
  bio : string;
  created_at : string;
  updated_at : string
}.
End Account.

Module Post.
Record t : Type := mk {
  id : option Z;
  account_id : option Z;
  platform : string;
  post_id : option string;
  post_type : string;
  caption : string;
  published_at : string;
  url : string;
  thumbnail_url : string;
  created_at : string
}.

Definition set_id (i : option Z) (p : t) : t :=
  mk i (account_id p) (platform p) (post_id p) (post_type p) (caption p)
     (published_at p) (url p) (thumbnail_url p) (created_at p).
End Post.

Module PostMetrics.
Record t : Type := mk {
  id : option Z;
  post_id : option Z;
  collected_at : string;
  views : Z;
  likes : Z;
  comments : Z;
  shares : Z;
  saves : Z;
  plays : Z;
  reach : Z;
  impressions : Z
}.

Definition set_id (i : option Z) (m : t) : t :=
  mk i (post_id m) (collected_at m) (views m) (likes m) (comments m)
     (shares m) (saves m) (plays m) (reach m) (impressions m).
End PostMetrics.

Module AccountMetrics.
Record t : Type := mk {
  id : option Z;
  account_id : option Z;
  collected_at : string;
  follower_count : Z;
  following_count : Z;
  post_count : Z;
  total_likes : Z;
  total_comments : Z;
  total_views : Z
}.

Definition set_id (i : option Z) (m : t) : t :=
  mk i (account_id m) (collected_at m) (follower_count m)
     (following_count m) (post_count m) (total_likes m)
     (total_comments m) (total_views m).
End AccountMetrics.

(** ** AUTOINCREMENT row ids

    [INTEGER PRIMARY KEY AUTOINCREMENT]: the new rowid is one more than the
    largest rowid the table has ever held, which SQLite keeps in
    [sqlite_sequence]. *)

Definition max_rowid {A : Type} (rid : A -> option Z) (rows : list A) : Z :=
  fold_right (fun r m => match rid r with
                         | Some i => Z.max i m
                         | None => m
                         end) 0 rows.

Definition next_rowid {A : Type} (rid : A -> option Z) (seq : Z)
    (rows : list A) : Z :=
  Z.max seq (max_rowid rid rows) + 1.

(** ** class Database *)

Module Database.

(** The four tables of [_init_db] and their [sqlite_sequence] entries. *)
Record t : Type := mk {
  accounts : list Account.t;
  posts : list Post.t;
  post_metrics : list PostMetrics.t;
  account_metrics : list AccountMetrics.t;
  seq_accounts : Z;
  seq_posts : Z;
  seq_post_metrics : Z;
  seq_account_metrics : Z
}.

Definition empty : t := mk [] [] [] [] 0 0 0 0.

Definition set_accounts (rows : list Account.t) (seq : Z) (db : t) : t :=
  mk rows (posts db) (post_metrics db) (account_metrics db)
     seq (seq_posts db) (seq_post_metrics db) (seq_account_metrics db).

Definition set_posts (rows : list Post.t) (seq : Z) (db : t) : t :=
  mk (accounts db) rows (post_metrics db) (account_metrics db)
     (seq_accounts db) seq (seq_post_metrics db) (seq_account_metrics db).

Definition set_post_metrics (rows : list PostMetrics.t) (seq : Z)
    (db : t) : t :=
  mk (accounts db) (posts db) rows (account_metrics db)
     (seq_accounts db) (seq_posts db) seq (seq_account_metrics db).

Definition set_account_metrics (rows : list AccountMetrics.t) (seq : Z)
    (db : t) : t :=
  mk (accounts db) (posts db) (post_metrics db) rows
     (seq_accounts db) (seq_posts db) (seq_post_metrics db) seq.

(** *** Accounts *)

(** [WHERE platform = ? AND username = ?], also the UNIQUE key. *)
Definition account_key (platform username : string) (r : Account.t)
    : bool :=
  String.eqb (Account.platform r) platform
  && String.eqb (Account.username r) username.

(** [add_account]: [INSERT OR REPLACE INTO accounts (...)].  The id is not
    among the inserted columns: a row that holds the UNIQUE key is deleted
    and the values are inserted as a new row with a new rowid, which
    [cursor.lastrowid] reports. *)
Definition add_account (now : string) (account : Account.t) (db : t)
    : Z * t :=
  let rowid := next_rowid Account.id (seq_accounts db) (accounts db) in
  let row :=
    Account.mk (Some rowid) (Account.platform account)
      (Account.username account) (Account.display_name account)
      (Account.account_id account) (Account.follower_count account)
      (Account.following_count account) (Account.post_count account)
      (Account.bio account) now now in
  let kept :=
    filter (fun r => negb (account_key (Account.platform account)
                             (Account.username account) r))
           (accounts db) in
  (rowid, set_accounts (kept ++ [row]) rowid db).

(** [get_account]: [fetchone()] of the rows with the key. *)
Definition get_account (platform username : string) (db : t)
    : option Account.t :=
  find (account_key platform username) (accounts db).

Definition get_account_by_id (account_id : Z) (db : t)
    : option Account.t :=
  find (fun r => sql_eq_int (Account.id r) (Some account_id))
       (accounts db).

(** [get_all_accounts]: [if platform:] is false for [None] and for the
    empty string. *)
Definition get_all_accounts (platform : option string) (db : t)
    : list Account.t :=
  match platform with
  | None => accounts db
  | Some p =>
      if String.eqb p EmptyString then accounts db
      else filter (fun r => String.eqb (Account.platform r) p)
                  (accounts db)
  end.

(** [update_account]: [UPDATE accounts SET ... WHERE id = ?]. *)
Definition update_account (now : string) (account : Account.t) (db : t)
    : t :=
  let upd (r : Account.t) :=
    if sql_eq_int (Account.id r) (Account.id account) then
      Account.mk (Account.id r) (Account.platform r) (Account.username r)
        (Account.display_name account) (Account.account_id r)
        (Account.follower_count account)
        (Account.following_count account) (Account.post_count account)
        (Account.bio account) (Account.created_at r) now
    else r in
  set_accounts (map upd (accounts db)) (seq_accounts db) db.

(** [delete_account]: four DELETE statements, in the order of the source;
    the sub-select of the first one reads [posts] before the second one
    empties it.  The method has no [raise] and no [return]: it ends
    normally, with Python's [None]. *)
Definition delete_account (account_id : Z) (db : t) : Outcome unit * t :=
  let owned (p : Post.t) := sql_eq_int (Post.account_id p) (Some account_id) in
  let post_ids := map Post.id (filter owned (posts db)) in
  let db1 :=
    set_post_metrics
      (filter (fun m => negb (existsb (sql_eq_int (PostMetrics.post_id m))
                                      post_ids))
              (post_metrics db))
      (seq_post_metrics db) db in
  let db2 :=
    set_posts (filter (fun p => negb (owned p)) (posts db1))
              (seq_posts db1) db1 in
  let db3 :=
    set_account_metrics
      (filter (fun m => negb (sql_eq_int (AccountMetrics.account_id m)
                                         (Some account_id)))
              (account_metrics db2))
      (seq_account_metrics db2) db2 in
  (Ok tt,
   set_accounts
     (filter (fun r => negb (sql_eq_int (Account.id r) (Some account_id)))
             (accounts db3))
     (seq_accounts db3) db3).

(** *** Posts *)

(** [WHERE platform = ? AND post_id = ?], also the UNIQUE key; a NULL
    [post_id] equals nothing. *)
Definition post_key (platform : string) (post_id : option string)
    (r : Post.t) : bool :=
  String.eqb (Post.platform r) platform
  && sql_eq_text (Post.post_id r) post_id.

(** [INSERT OR IGNORE INTO posts (...)] on the fresh connection of
    [_get_conn].  The row is skipped when a NOT NULL column would hold
    NULL or the UNIQUE key is taken.  The second component is
    [cursor.lastrowid]: the new rowid, or 0, the last insert rowid of a
    connection that has inserted nothing. *)
Definition insert_or_ignore_post (now : string) (post : Post.t) (db : t)
    : t * Z :=
  if is_null (Post.account_id post) || is_null (Post.post_id post)
     || existsb (post_key (Post.platform post) (Post.post_id post))
                (posts db)
  then (db, 0)
  else
    let rowid := next_rowid Post.id (seq_posts db) (posts db) in
    let row :=
      Post.mk (Some rowid) (Post.account_id post) (Post.platform post)
        (Post.post_id post) (Post.post_type post) (Post.caption post)
        (Post.published_at post) (Post.url post)
        (Post.thumbnail_url post) now in
    (set_posts (posts db ++ [row]) rowid db, rowid).

(** [add_post]: when [lastrowid == 0] the id is read back with
    [fetchone()[0]], which raises TypeError on an empty result. *)
Definition add_post (now : string) (post : Post.t) (db : t)
    : Outcome Z * t :=
  let (db', lastrowid) := insert_or_ignore_post now post db in
  if lastrowid =? 0 then
    match find (post_key (Post.platform post) (Post.post_id post))
               (posts db') with
    | Some r =>
        match Post.id r with
        | Some i => (Ok i, db')
        | None => (Raise TypeError, db')
        end
    | None => (Raise TypeError, db')
    end
  else (Ok lastrowid, db').

Definition get_post_by_id (post_id : Z) (db : t) : option Post.t :=
  find (fun r => sql_eq_int (Post.id r) (Some post_id)) (posts db).

(** *** Snapshots *)

(** [add_post_metrics]: a plain INSERT.  [post_id] is NOT NULL.  The
    schema declares [FOREIGN KEY (post_id) REFERENCES posts(id)], but
    [_get_conn] never issues [PRAGMA foreign_keys = ON], and SQLite does
    not check foreign keys on a connection that has not asked for it. *)
Definition add_post_metrics (metrics : PostMetrics.t) (db : t)
    : Outcome Z * t :=
  if is_null (PostMetrics.post_id metrics) then (Raise IntegrityError, db)
  else
    let rowid :=
      next_rowid PostMetrics.id (seq_post_metrics db) (post_metrics db) in
    (Ok rowid,
     set_post_metrics
       (post_metrics db ++ [PostMetrics.set_id (Some rowid) metrics])
       rowid db).

(** [add_account_metrics]: the same for [account_metrics]. *)
Definition add_account_metrics (metrics : AccountMetrics.t) (db : t)
    : Outcome Z * t :=
  if is_null (AccountMetrics.account_id metrics)
  then (Raise IntegrityError, db)
  else
    let rowid :=
      next_rowid AccountMetrics.id (seq_account_metrics db)
                 (account_metrics db) in
    (Ok rowid,
     set_account_metrics
       (account_metrics db
          ++ [AccountMetrics.set_id (Some rowid) metrics])
       rowid db).

End Database.

(** ** The read queries of the latest-snapshot resolver

    TEXT values compare bytewise (the BINARY collation), which is
    [String.compare].  SQL leaves the order of rows with equal sort keys
    open, so [ORDER BY ... DESC] is a parameter of the queries: any function
    that returns its input permuted and sorted ([sorter_ok]).
    [sort_by_desc] is one such function. *)

Definition Sorter : Type :=
  forall A : Type, (A -> string) -> list A -> list A.

Definition desc {A : Type} (key : A -> string) (x y : A) : Prop :=
  String.leb (key y) (key x) = true.

Definition sorter_ok (order_by_desc : Sorter) : Prop :=
  forall (A : Type) (key : A -> string) (l : list A),
    Permutation (order_by_desc A key l) l
    /\ StronglySorted (desc key) (order_by_desc A key l).

Fixpoint insert_desc {A : Type} (key : A -> string) (x : A) (l : list A)
    : list A :=
  match l with
  | [] => [x]
  | y :: l' =>
      if String.leb (key y) (key x) then x :: y :: l'
      else y :: insert_desc key x l'
  end.

Definition sort_by_desc : Sorter :=
  fun A key l => fold_right (insert_desc key) [] l.

(** [LIMIT ?]: a negative limit is no limit. *)
Definition sql_limit {A : Type} (limit : Z) (l : list A) : list A :=
  if limit <? 0 then l else firstn (Z.to_nat limit) l.

(** [MAX(text)] over the rows of a group; NULL for no row. *)
Definition text_max (a b : string) : string :=
  if String.leb a b then b else a.

Definition max_text (l : list string) : option string :=
  match l with
  | [] => None
  | x :: l' => Some (fold_left text_max l' x)
  end.

(** [A LEFT JOIN B ON on]: every match of a left row, or the left row with
    NULLs when it has none. *)
Definition left_join {A B : Type} (on : A -> B -> bool) (l : list A)
    (r : list B) : list (A * option B) :=
  flat_map (fun a => match filter (on a) r with
                     | [] => [(a, None)]
                     | ms => map (fun b => (a, Some b)) ms
                     end) l.

Definition option_Z_eq_dec (a b : option Z) : {a = b} + {a <> b}.
Proof. decide equality. apply Z.eq_dec. Defined.

(** A row of [get_posts_with_latest_metrics]: [p.*], the selected columns
    of [pm] and of [a]. *)
Module LatestRow.
Record t : Type := mk {
  post : Post.t;
  views : option Z;
  likes : option Z;
  comments : option Z;
  shares : option Z;
  saves : option Z;
  plays : option Z;
  reach : option Z;
  impressions : option Z;
  metrics_collected_at : option string;
  username : option string;
  account_display_name : option string
}.

Definition of_join (p : Post.t) (pm : option PostMetrics.t)
    (a : option Account.t) : t :=
  mk p (option_map PostMetrics.views pm) (option_map PostMetrics.likes pm)
     (option_map PostMetrics.comments pm)
     (option_map PostMetrics.shares pm) (option_map PostMetrics.saves pm)
     (option_map PostMetrics.plays pm) (option_map PostMetrics.reach pm)
     (option_map PostMetrics.impressions pm)
     (option_map PostMetrics.collected_at pm)
     (option_map Account.username a)
     (option_map Account.display_name a).

(** The metric columns of the row are those of snapshot [m]. *)
Definition shows (m : PostMetrics.t) (r : t) : Prop :=
  views r = Some (PostMetrics.views m)
  /\ likes r = Some (PostMetrics.likes m)
  /\ comments r = Some (PostMetrics.comments m)
  /\ shares r = Some (PostMetrics.shares m)
  /\ saves r = Some (PostMetrics.saves m)
  /\ plays r = Some (PostMetrics.plays m)
  /\ reach r = Some (PostMetrics.reach m)
  /\ impressions r = Some (PostMetrics.impressions m)
  /\ metrics_collected_at r = Some (PostMetrics.collected_at m).
End LatestRow.

Module Resolver.

Definition snapshots_of (post_id : Z) (d : Database.t)
    : list PostMetrics.t :=
  filter (fun m => sql_eq_int (PostMetrics.post_id m) (Some post_id))
         (Database.post_metrics d).

(** [get_latest_post_metrics]:
    [SELECT * FROM post_metrics WHERE post_id = ?
     ORDER BY collected_at DESC LIMIT 1], then [fetchone()]. *)
Definition get_latest_post_metrics (order_by_desc : Sorter) (post_id : Z)
    (d : Database.t) : option PostMetrics.t :=
  hd_error
    (sql_limit 1
       (order_by_desc _ PostMetrics.collected_at (snapshots_of post_id d))).

(** [SELECT post_id, MAX(collected_at) as max_collected
     FROM post_metrics GROUP BY post_id] *)
Definition latest (d : Database.t) : list (option Z * option string) :=
  map (fun g =>
         (g, max_text
               (map PostMetrics.collected_at
                  (filter (fun m =>
                             if option_Z_eq_dec (PostMetrics.post_id m) g
                             then true else false)
                          (Database.post_metrics d)))))
      (nodup option_Z_eq_dec
         (map PostMetrics.post_id (Database.post_metrics d))).

Definition on_latest (p : Post.t) (l : option Z * option string) : bool :=
  sql_eq_int (Post.id p) (fst l).

Definition on_pm (pl : Post.t * option (option Z * option string))
    (pm : PostMetrics.t) : bool :=
  sql_eq_int (Post.id (fst pl)) (PostMetrics.post_id pm)
  && match snd pl with
     | Some (_, Some max_collected) =>
         String.eqb (PostMetrics.collected_at pm) max_collected
     | _ => false
     end.

Definition on_account
    (plm : Post.t * option (option Z * option string)
           * option PostMetrics.t)
    (a : Account.t) : bool :=
  sql_eq_int (Post.account_id (fst (fst plm))) (Account.id a).

(** [WHERE 1=1 [AND p.account_id = ?] [AND p.platform = ?]];
    [if account_id:] is false for [None] and for 0, [if platform:] for
    [None] and for the empty string. *)
Definition where_clause (account_id : option Z) (platform : option string)
    (p : Post.t) : bool :=
  match account_id with
  | None => true
  | Some a =>
      if a =? 0 then true else sql_eq_int (Post.account_id p) (Some a)
  end
  && match platform with
     | None => true
     | Some s =>
         if String.eqb s EmptyString then true
         else String.eqb (Post.platform p) s
     end.

(** The joined rows, before ORDER BY and LIMIT, for the rows [ps] of
    [posts]. *)
Definition joined_rows (account_id : option Z) (platform : option string)
    (d : Database.t) (ps : list Post.t) : list LatestRow.t :=
  map (fun j => LatestRow.of_join (fst (fst (fst j))) (snd (fst j))
                  (snd j))
      (filter (fun j => where_clause account_id platform
                          (fst (fst (fst j))))
         (left_join on_account
            (left_join on_pm
               (left_join on_latest ps (latest d))
               (Database.post_metrics d))
            (Database.accounts d))).

Definition joined (account_id : option Z) (platform : option string)
    (d : Database.t) : list LatestRow.t :=
  joined_rows account_id platform d (Database.posts d).

Definition get_posts_with_latest_metrics (order_by_desc : Sorter)
    (account_id : option Z) (platform : option string) (limit : Z)
    (d : Database.t) : list LatestRow.t :=
  sql_limit limit
    (order_by_desc _ (fun r => Post.published_at (LatestRow.post r))
       (joined account_id platform d)).

(** The rows of a result that belong to the post with the given id. *)
Definition rows_of (post_id : Z) (rows : list LatestRow.t)
    : list LatestRow.t :=
  filter (fun r => sql_eq_int (Post.id (LatestRow.post r)) (Some post_id))
         rows.

End Resolver.

(** ** The records of the collaborator

    A platform adapter answers with dictionaries.  A key that is absent is
    [None] here, and [get_or] is [dict.get(key, default)].  The value under
    ['post_id'] may itself be Python [None]. *)

Definition get_or {A : Type} (v : option A) (default : A) : A :=
  match v with
  | Some x => x
  | None => default
  end.

Module AccountData.
Record t : Type := mk {
  account_id : option string;
  display_name : option string;
  follower_count : option Z;
  following_count : option Z;
  post_count : option Z;
  bio : option string
}.

(** The dictionary with no key, which [not account_data] takes for a
    missing answer. *)
Definition is_empty (d : t) : bool :=
  is_null (account_id d) && is_null (display_name d)
  && is_null (follower_count d) && is_null (following_count d)
  && is_null (post_count d) && is_null (bio d).
End AccountData.

Module PostData.
Record t : Type := mk {
  post_id : option (option string);
  post_type : option string;
  caption : option string;
  published_at : option string;
  url : option string;
  thumbnail_url : option string;
  views : option Z;
  likes : option Z;
  comments : option Z;
  shares : option Z;
  saves : option Z;
  plays : option Z;
  reach : option Z;
  impressions : option Z
}.
End PostData.

(** ** The world of a collection attempt *)

Inductive Call : Type :=
| FetchAccountInfo (platform username : string)
| FetchAccountPosts (platform username : string) (limit : Z).

Record World : Type := mkWorld {
  db : Database.t;
  time : nat -> string;      (* the successive readings of the clock *)
  ticks : nat;               (* how many readings were made *)
  calls : list Call          (* the requests made to the collaborator *)
}.

Definition set_db (d : Database.t) (w : World) : World :=
  mkWorld d (time w) (ticks w) (calls w).

(** Computations that read and write the world and may raise. *)
Definition M (A : Type) : Type := World -> Outcome A * World.

Definition ret {A : Type} (a : A) : M A := fun w => (Ok a, w).

Definition bind {A B : Type} (m : M A) (f : A -> M B) : M B :=
  fun w =>
    match m w with
    | (Ok a, w') => f a w'
    | (Raise e, w') => (Raise e, w')
    end.

Declare Scope world_scope.
Delimit Scope world_scope with world.
Notation "x <- m ;; k" := (bind m (fun x => k))
  (at level 61, m at next level, right associativity) : world_scope.
Notation "m ;; k" := (bind m (fun _ => k))
  (at level 61, right associativity) : world_scope.
Local Open Scope world_scope.

(** [datetime.now().isoformat()] *)
Definition datetime_now : M string :=
  fun w => (Ok (time w (ticks w)),
            mkWorld (db w) (time w) (S (ticks w)) (calls w)).

Definition log_call (c : Call) : M unit :=
  fun w => (Ok tt, mkWorld (db w) (time w) (ticks w) (calls w ++ [c])).

Definition lift_outcome {A : Type} (o : Outcome A) : M A := fun w => (o, w).

(** The methods of the module-level [db], each on its own connection. *)
Module Db.
Definition get_account (platform username : string)
    : M (option Account.t) :=
  fun w => (Ok (Database.get_account platform username (db w)), w).

Definition add_account (account : Account.t) : M Z :=
  now <- datetime_now ;;
  fun w => let (i, d) := Database.add_account now account (db w) in
           (Ok i, set_db d w).

Definition update_account (account : Account.t) : M unit :=
  now <- datetime_now ;;
  fun w => (Ok tt, set_db (Database.update_account now account (db w)) w).

Definition add_account_metrics (metrics : AccountMetrics.t) : M Z :=
  fun w => let (o, d) := Database.add_account_metrics metrics (db w) in
           (o, set_db d w).

Definition add_post (post : Post.t) : M Z :=
  now <- datetime_now ;;
  fun w => let (o, d) := Database.add_post now post (db w) in
           (o, set_db d w).

Definition add_post_metrics (metrics : PostMetrics.t) : M Z :=
  fun w => let (o, d) := Database.add_post_metrics metrics (db w) in
           (o, set_db d w).
End Db.

(** ** class BaseCollector *)

Inductive Message : Type :=
| MsgNoAccountInfo (username : string)          (* no account info for username *)
| MsgCollected (username : string) (n : nat)    (* collected username, n posts *)
| MsgFailed (e : Exn)                           (* collection failed: str(e) *)
| MsgNone.                                      (* the initial empty message *)

Module CollectResult.
Record t : Type := mk {
  account : option Account.t;
  posts : list Post.t;
  success : bool;
  message : Message
}.
End CollectResult.

Module BaseCollector.

(** The abstract methods: what a platform adapter answers. *)
Record t : Type := mk {
  platform : string;
  fetch_account_info : string -> Outcome (option AccountData.t);
  fetch_account_posts : string -> Z -> Outcome (list PostData.t)
}.

Definition call_fetch_account_info (self : t) (username : string)
    : M (option AccountData.t) :=
  log_call (FetchAccountInfo (platform self) username) ;;
  lift_outcome (fetch_account_info self username).

Definition call_fetch_account_posts (self : t) (username : string)
    (limit : Z) : M (list PostData.t) :=
  log_call (FetchAccountPosts (platform self) username limit) ;;
  lift_outcome (fetch_account_posts self username limit).

(** [not account_data] *)
Definition no_account_data (account_data : option AccountData.t) : bool :=
  match account_data with
  | None => true
  | Some d => AccountData.is_empty d
  end.

Definition collect_account (self : t) (username : string)
    : M (option Account.t) :=
  account_data <- call_fetch_account_info self username ;;
  match account_data with
  | None => ret None
  | Some data =>
    if AccountData.is_empty data then ret None
    else
      existing <- Db.get_account (platform self) username ;;
      account <-
        match existing with
        | Some existing =>
            let existing :=
              Account.mk (Account.id existing)
                (Account.platform existing) (Account.username existing)
                (get_or (AccountData.display_name data)
                        (Account.display_name existing))
                (Account.account_id existing)
                (get_or (AccountData.follower_count data)
                        (Account.follower_count existing))
                (get_or (AccountData.following_count data)
                        (Account.following_count existing))
                (get_or (AccountData.post_count data)
                        (Account.post_count existing))
                (get_or (AccountData.bio data) (Account.bio existing))
                (Account.created_at existing)
                (Account.updated_at existing) in
            Db.update_account existing ;;
            ret existing
        | None =>
            let account :=
              Account.mk None (platform self) username
                (get_or (AccountData.display_name data) username)
                (get_or (AccountData.account_id data) EmptyString)
                (get_or (AccountData.follower_count data) 0)
                (get_or (AccountData.following_count data) 0)
                (get_or (AccountData.post_count data) 0)
                (get_or (AccountData.bio data) EmptyString)
                EmptyString EmptyString in
            i <- Db.add_account account ;;
            ret (Account.mk (Some i) (Account.platform account)
                   (Account.username account)
                   (Account.display_name account)
                   (Account.account_id account)
                   (Account.follower_count account)
                   (Account.following_count account)
                   (Account.post_count account) (Account.bio account)
                   (Account.created_at account)
                   (Account.updated_at account))
        end ;;
      now <- datetime_now ;;
      Db.add_account_metrics
        (AccountMetrics.mk None (Account.id account) now
           (Account.follower_count account)
           (Account.following_count account)
           (Account.post_count account) 0 0 0) ;;
      ret (Some account)
  end.

(** The body of [for post_data in posts_data]; [posts] is the list the
    loop appends to. *)
Fixpoint collect_posts_loop (self : t) (account : Account.t)
    (now : string) (posts_data : list PostData.t) (posts : list Post.t)
    : M (list Post.t) :=
  match posts_data with
  | [] => ret posts
  | post_data :: rest =>
      let post :=
        Post.mk None (Account.id account) (platform self)
          (get_or (PostData.post_id post_data) (Some EmptyString))
          (get_or (PostData.post_type post_data) "video"%string)
          (get_or (PostData.caption post_data) EmptyString)
          (get_or (PostData.published_at post_data) EmptyString)
          (get_or (PostData.url post_data) EmptyString)
          (get_or (PostData.thumbnail_url post_data) EmptyString)
          EmptyString in
      i <- Db.add_post post ;;
      let post := Post.set_id (Some i) post in
      let posts := posts ++ [post] in
      Db.add_post_metrics
        (PostMetrics.mk None (Post.id post) now
           (get_or (PostData.views post_data) 0)
           (get_or (PostData.likes post_data) 0)
           (get_or (PostData.comments post_data) 0)
           (get_or (PostData.shares post_data) 0)
           (get_or (PostData.saves post_data) 0)
           (get_or (PostData.plays post_data) 0)
           (get_or (PostData.reach post_data) 0)
           (get_or (PostData.impressions post_data) 0)) ;;
      collect_posts_loop self account now rest posts
  end.

Definition collect_posts (self : t) (username : string) (limit : Z)
    : M (list Post.t) :=
  account <- Db.get_account (platform self) username ;;
  match account with
  | None => ret []
  | Some account =>
      posts_data <- call_fetch_account_posts self username limit ;;
      match posts_data with
      | [] => ret []
      | _ :: _ =>
          now <- datetime_now ;;
          collect_posts_loop self account now posts_data []
      end
  end.

(** [collect_all]: the [try] ... [except Exception] around both steps. *)
Definition collect_all (self : t) (username : string) (post_limit : Z)
    (w : World) : CollectResult.t * World :=
  match collect_account self username w with
  | (Raise e, w1) => (CollectResult.mk None [] false (MsgFailed e), w1)
  | (Ok None, w1) =>
      (CollectResult.mk None [] false (MsgNoAccountInfo username), w1)
  | (Ok (Some account), w1) =>
      match collect_posts self username post_limit w1 with
      | (Raise e, w2) =>
          (CollectResult.mk (Some account) [] false (MsgFailed e), w2)
      | (Ok posts, w2) =>
          (CollectResult.mk (Some account) posts true
             (MsgCollected username (List.length posts)), w2)
      end
  end.

End BaseCollector.

(** ** [run_collection] of [api.py]: the status of an attempt *)

Inductive Status : Type := running | completed | failed.

Module TaskStatus.
Record t : Type := mk {
  status : Status;
  message : Message;
  posts_collected : option nat
}.
End TaskStatus.

(** The entry that [run_collection] leaves in [collection_status] for a
    collector that [get_collector] has built; [started_at] and
    [completed_at] are two more readings of the clock. *)
Definition run_collection (collector : BaseCollector.t) (username : string)
    (post_limit : Z) (w : World) : TaskStatus.t * World :=
  let (_, w0) := datetime_now w in
  let (result, w1) :=
    BaseCollector.collect_all collector username post_limit w0 in
  let (_, w2) := datetime_now w1 in
  if CollectResult.success result then
    (TaskStatus.mk completed (CollectResult.message result)
       (Some (List.length (CollectResult.posts result))), w2)
  else
    (TaskStatus.mk failed (CollectResult.message result) None, w2).

(** ** [api_delete_account] of [web/app.py] *)

Inductive HttpResponse : Type :=
| Http404                                   (* the error body, status 404 *)
| Http500 (e : Exn)                         (* an exception of the handler *)
| HttpDeleted (platform username : string). (* the success body *)

Definition api_delete_account (account_id : Z) (d : Database.t)
    : HttpResponse * Database.t :=
  match Database.get_account_by_id account_id d with
  | None => (Http404, d)
  | Some account =>
      match Database.delete_account account_id d with
      | (Ok _, d') =>
          (HttpDeleted (Account.platform account)
             (Account.username account), d')
      | (Raise e, d') => (Http500 e, d')
      end
  end.

(** ** [ReportGenerator._calc_engagement_rate] of [report.py]

    A Python [float] is an IEEE 754 binary64 number: [spec_float] with a
    precision of 53 bits.  [int / int] is the correctly rounded quotient of
    the two integers, [x * 100] the correctly rounded product, and
    [round(x, 2)] the double nearest to the decimal with two places that is
    nearest to the exact value of [x], an exact tie going to the even last
    digit. *)

Module PyFloat.

Definition prec : Z := 53.
Definition emax : Z := 1024.

Definition t : Type := spec_float.

(** The integer [z] itself, as mantissa with exponent 0. *)
Definition of_int_exact (z : Z) : t :=
  match z with
  | Z0 => S754_zero false
  | Zpos p => S754_finite false p 0
  | Zneg p => S754_finite true p 0
  end.

(** [float(z)] *)
Definition of_int (z : Z) : t := binary_normalize prec emax z 0 false.

(** [a / b] on two [int]s. *)
Definition int_true_div (a b : Z) : Outcome t :=
  if b =? 0 then Raise ZeroDivisionError
  else
    match SFdiv prec emax (of_int_exact a) (of_int_exact b) with
    | S754_infinity _ => Raise OverflowError
    | q => Ok q
    end.

Definition mul (x y : t) : t := SFmul prec emax x y.

(** The integer nearest to [a / b] for [0 < b], ties to even. *)
Definition round_half_even_div (a b : Z) : Z :=
  let q := a / b in
  let r := a mod b in
  match 2 * r ?= b with
  | Lt => q
  | Gt => q + 1
  | Eq => if Z.even q then q else q + 1
  end.

(** The number of hundredths nearest to [m * 2^e]. *)
Definition hundredths (m : positive) (e : Z) : Z :=
  match e with
  | Zneg p => round_half_even_div (Zpos m * 100) (Z.pow_pos 2 p)
  | _ => Zpos m * 100 * 2 ^ e
  end.

(** [round(x, 2)] *)
Definition round2 (x : t) : t :=
  match x with
  | S754_finite s m e =>
      let k := hundredths m e in
      if k =? 0 then S754_zero s
      else SFdiv prec emax (S754_finite s (Z.to_pos k) 0)
                 (of_int_exact 100)
  | _ => x
  end.

End PyFloat.

Module ReportGenerator.

Definition _calc_engagement_rate (likes comments followers : Z)
    : Outcome PyFloat.t :=
  if followers =? 0 then Ok (S754_zero false)
  else
    match PyFloat.int_true_div (likes + comments) followers with
    | Ok q => Ok (PyFloat.round2 (PyFloat.mul q (PyFloat.of_int 100)))
    | Raise e => Raise e
    end.

End ReportGenerator.

(** ** Vocabulary of the statements *)

(** Snapshot [m] references a post that account [account_id] owns. *)
Definition references_post_of (account_id : Z) (d : Database.t)
    (m : PostMetrics.t) : Prop :=
  exists p i, In p (Database.posts d)
              /\ Post.account_id p = Some account_id
              /\ Post.id p = Some i
              /\ PostMetrics.post_id m = Some i.

(** ** Sample data: two accounts, a post each, two snapshots of the first
    post and one of the second, built with the methods of the store. *)

Definition sample_account (username : string) : Account.t :=
  Account.mk None "instagram" username username EmptyString 100 10 1
    EmptyString EmptyString EmptyString.

Definition sample_post (account_id : Z) (post_id : string) : Post.t :=
  Post.mk None (Some account_id) "instagram" (Some post_id) "image"
    EmptyString "2024-01-01T08:00:00" EmptyString EmptyString EmptyString.

Definition sample_metrics (post_id : Z) (collected_at : string) (views : Z)
    : PostMetrics.t :=
  PostMetrics.mk None (Some post_id) collected_at views 0 0 0 0 0 0 0.

Definition sample_db : Database.t :=
  let d := snd (Database.add_account "2024-01-01T09:00:00"
                  (sample_account "alice") Database.empty) in
  let d := snd (Database.add_account "2024-01-01T09:00:01"
                  (sample_account "bob") d) in
  let d := snd (Database.add_post "2024-01-01T09:00:02"
                  (sample_post 1 "p1") d) in
  let d := snd (Database.add_post "2024-01-01T09:00:03"
                  (sample_post 2 "p2") d) in
  let d := snd (Database.add_post_metrics
                  (sample_metrics 1 "2024-01-01T10:00:00" 10) d) in
  let d := snd (Database.add_post_metrics
                  (sample_metrics 1 "2024-01-02T10:00:00" 50) d) in
  let d := snd (Database.add_post_metrics
                  (sample_metrics 2 "2024-01-01T10:00:00" 7) d) in
  snd (Database.add_account_metrics
         (AccountMetrics.mk None (Some 2) "2024-01-01T10:00:00" 100 10 1
            0 0 0) d).

(** The UNIQUE(platform, post_id) constraint of [posts], and every stored
    post has its rowid. *)
Definition posts_wf (d : Database.t) : Prop :=
  (forall r, In r (Database.posts d) -> exists i, Post.id r = Some i)
  /\ (forall platform post_id,
        (List.length (filter (Database.post_key platform post_id)
                        (Database.posts d)) <= 1)%nat).



(** The same adapter, answering [posts_data] to every post fetch. *)
Definition with_posts (self : BaseCollector.t) (posts_data : list PostData.t)
    : BaseCollector.t :=
  BaseCollector.mk (BaseCollector.platform self)
    (BaseCollector.fetch_account_info self)
    (fun _ _ => Ok posts_data).

(** The foreign key of [posts]: the owner of every stored post is a stored
    account. *)
Definition fk_posts (d : Database.t) : Prop :=
  forall p, In p (Database.posts d) ->
            exists a, In a (Database.accounts d)
                      /\ Post.account_id p = Account.id a.

(** Snapshot [m] references a stored post whose owner is a stored
    account. *)
Definition snapshot_owned (d : Database.t) (m : PostMetrics.t) : Prop :=
  exists p a i, In p (Database.posts d)
                /\ Post.id p = Some i
                /\ PostMetrics.post_id m = Some i
                /\ In a (Database.accounts d)
                /\ Post.account_id p = Account.id a.

(** ** Sample collaborators and worlds *)

Definition sample_account_data : AccountData.t :=
  AccountData.mk (Some "17841400000"%string) (Some "Bob"%string) (Some 1000)
    (Some 10) (Some 10) (Some "bio"%string).

Definition sample_post_data (post_id : option string) (views : Z)
    : PostData.t :=
  PostData.mk (Some post_id) (Some "image"%string) (Some "caption"%string)
    (Some "2024-01-01T08:00:00"%string) None None (Some views) (Some 5)
    (Some 1) None None None None None.

(** Ten fetched posts; the third and the seventh carry no post id. *)
Definition ten_posts : list PostData.t :=
  [ sample_post_data (Some "q1"%string) 100;
    sample_post_data (Some "q2"%string) 200;
    sample_post_data None 300;
    sample_post_data (Some "q4"%string) 400;
    sample_post_data (Some "q5"%string) 500;
    sample_post_data (Some "q6"%string) 600;
    sample_post_data None 700;
    sample_post_data (Some "q8"%string) 800;
    sample_post_data (Some "q9"%string) 900;
    sample_post_data (Some "q10"%string) 1000 ].

Definition sample_collector : BaseCollector.t :=
  BaseCollector.mk "instagram" (fun _ => Ok (Some sample_account_data))
    (fun _ _ => Ok ten_posts).

(** An adapter whose account-info request returns nothing. *)
Definition silent_collector : BaseCollector.t :=
  BaseCollector.mk "instagram" (fun _ => Ok None) (fun _ _ => Ok ten_posts).

Definition sample_world : World :=
  mkWorld sample_db (fun _ => "2024-03-01T12:00:00"%string) 0 [].

(** Snapshot [m] is the only snapshot of post [post_id] whose
    [collected_at] is at least its own: the maximum, attained once. *)
Definition unique_latest (post_id : Z) (d : Database.t) (m : PostMetrics.t)
    : Prop :=
  filter (fun m' => String.leb (PostMetrics.collected_at m)
                               (PostMetrics.collected_at m'))
         (Resolver.snapshots_of post_id d) = [m].

(** A batch in which the collaborator lists the post "q1" twice. *)
Definition twice_listed : list PostData.t :=
  [ sample_post_data (Some "q1"%string) 10;
    sample_post_data (Some "q1"%string) 50 ].

Definition tied_db : Database.t :=
  db (snd (BaseCollector.collect_all (with_posts sample_collector twice_listed)
             "bob" 20 sample_world)).

(** ** The engagement rate in the words of the specification

    [(likes + comments) / follower_count * 100], rounded to 2 decimal
    places, in exact arithmetic: the number of hundredths nearest to the
    rate (an exact tie going to the even one, as Python's [round] documents
    it), and the double nearest to that decimal; 0.0 for no follower. *)




(** A series of attempts of [collect_account] for one username, each with
    its own adapter, that is, its own answers of the collaborator. *)
Fixpoint collect_account_many (attempts : list BaseCollector.t)
    (username : string) (w : World) : World :=
  match attempts with
  | [] => w
  | self :: rest =>
      collect_account_many rest username
        (snd (BaseCollector.collect_account self username w))
  end.

(** ** The other read methods of class Database

    [get_posts_by_account], [get_post_metrics_history] and
    [get_account_metrics_history] are three statements of one shape:
    [SELECT * FROM t WHERE fk = ? ORDER BY key DESC LIMIT ?]. *)

Module Reads.

Definition posts_of (account_id : Z) (d : Database.t) : list Post.t :=
  filter (fun p => sql_eq_int (Post.account_id p) (Some account_id))
         (Database.posts d).

Definition account_snapshots_of (account_id : Z) (d : Database.t)
    : list AccountMetrics.t :=
  filter (fun m => sql_eq_int (AccountMetrics.account_id m) (Some account_id))
         (Database.account_metrics d).

Definition get_posts_by_account (order_by_desc : Sorter) (account_id : Z)
    (limit : Z) (d : Database.t) : list Post.t :=
  sql_limit limit
    (order_by_desc _ Post.published_at (posts_of account_id d)).

Definition get_post_metrics_history (order_by_desc : Sorter) (post_id : Z)
    (limit : Z) (d : Database.t) : list PostMetrics.t :=
  sql_limit limit
    (order_by_desc _ PostMetrics.collected_at
       (Resolver.snapshots_of post_id d)).

Definition get_account_metrics_history (order_by_desc : Sorter)
    (account_id : Z) (limit : Z) (d : Database.t) : list AccountMetrics.t :=
  sql_limit limit
    (order_by_desc _ AccountMetrics.collected_at
       (account_snapshots_of account_id d)).

(** [SELECT key, COUNT( * ) FROM t GROUP BY key], as the dictionary the
    comprehension builds from its rows. *)
Definition group_count (keys : list string) : list (string * Z) :=
  map (fun k => (k, Z.of_nat (count_occ string_dec keys k)))
      (nodup string_dec keys).

Record Summary : Type := mkSummary {
  accounts_by_platform : list (string * Z);
  posts_by_platform : list (string * Z);
  last_collected : option string;
  collection_count : Z
}.

(** [get_collection_summary] *)
Definition get_collection_summary (d : Database.t) : Summary :=
  mkSummary
    (group_count (map Account.platform (Database.accounts d)))
    (group_count (map Post.platform (Database.posts d)))
    (max_text (map PostMetrics.collected_at (Database.post_metrics d)))
    (Z.of_nat
       (List.length
          (nodup string_dec
             (map PostMetrics.collected_at (Database.post_metrics d))))).

End Reads.

(** [dict.get(key)] on a dictionary held as the list of its items. *)
Fixpoint dict_get {V : Type} (key : string) (items : list (string * V))
    : option V :=
  match items with
  | [] => None
  | (k, v) :: rest => if String.eqb k key then Some v else dict_get key rest
  end.

(** The sum of the values of a dictionary. *)
Definition sum_values (items : list (string * Z)) : Z :=
  fold_right (fun kv acc => snd kv + acc) 0 items.

(** [_get_last_collection_time] of [web/app.py]:
    [SELECT MAX(collected_at) FROM post_metrics]; the aggregate always
    yields its one row, whose column is NULL for an empty table. *)
Definition _get_last_collection_time (d : Database.t) : option string :=
  max_text (map PostMetrics.collected_at (Database.post_metrics d)).

(** ** The constraints of the schema as predicates on a store *)

(** INTEGER PRIMARY KEY: every row has its rowid and no two rows share one. *)
Definition pk {A : Type} (rid : A -> option Z) (rows : list A) : Prop :=
  NoDup (map rid rows) /\ forall r, In r rows -> exists i, rid r = Some i.

(** UNIQUE(platform, username) *)
Definition accounts_unique (d : Database.t) : Prop :=
  forall platform username,
    (List.length (filter (Database.account_key platform username)
                    (Database.accounts d)) <= 1)%nat.

Definition store_ok (d : Database.t) : Prop :=
  pk Account.id (Database.accounts d)
  /\ pk Post.id (Database.posts d)
  /\ pk PostMetrics.id (Database.post_metrics d)
  /\ pk AccountMetrics.id (Database.account_metrics d)
  /\ accounts_unique d
  /\ posts_wf d.

(** The declared foreign keys of the two snapshot tables. *)
Definition fk_post_metrics (d : Database.t) : Prop :=
  forall m, In m (Database.post_metrics d) ->
            exists p i, In p (Database.posts d)
                        /\ Post.id p = Some i
                        /\ PostMetrics.post_id m = Some i.

Definition fk_account_metrics (d : Database.t) : Prop :=
  forall m, In m (Database.account_metrics d) ->
            exists a i, In a (Database.accounts d)
                        /\ Account.id a = Some i
                        /\ AccountMetrics.account_id m = Some i.

(** No row references a parent that is not stored. *)
Definition refs_ok (d : Database.t) : Prop :=
  fk_posts d /\ fk_post_metrics d /\ fk_account_metrics d.


(** ** What a collection attempt may do to the store *)

(** What identifies a stored account: its rowid, its key, the id the
    platform gave it and its creation time. *)
Definition account_identity (a : Account.t)
    : option Z * string * string * string * string :=
  (Account.id a, Account.platform a, Account.username a,
   Account.account_id a, Account.created_at a).

(** [d'] holds the accounts of [d] in their places, with their identity,
    and the posts and snapshots of [d] as they were; what is new comes
    after them. *)
Definition grows (d d' : Database.t) : Prop :=
  (exists l, map account_identity (Database.accounts d')
             = map account_identity (Database.accounts d) ++ l)
  /\ (exists l, Database.posts d' = Database.posts d ++ l)
  /\ (exists l, Database.post_metrics d'
                = Database.post_metrics d ++ l)
  /\ (exists l, Database.account_metrics d'
                = Database.account_metrics d ++ l).


(** ** The rows of a batch of [collect_posts] *)

(** The post object that [collect_posts] returns for a fetched record. *)
Definition post_of_record (self : BaseCollector.t) (account : Account.t)
    (p : Post.t) (post_data : PostData.t) : Prop :=
  (exists i, Post.id p = Some i)
  /\ Post.account_id p = Account.id account
  /\ Post.platform p = BaseCollector.platform self
  /\ Post.post_id p = get_or (PostData.post_id post_data) (Some EmptyString).

(** The snapshot that [collect_posts] stores for a fetched record at the
    time [now]: the eight counters of the record, 0 for an absent one. *)
Definition snapshot_of_record (now : string) (m : PostMetrics.t)
    (post_data : PostData.t) : Prop :=
  PostMetrics.collected_at m = now
  /\ PostMetrics.views m = get_or (PostData.views post_data) 0
  /\ PostMetrics.likes m = get_or (PostData.likes post_data) 0
  /\ PostMetrics.comments m = get_or (PostData.comments post_data) 0
  /\ PostMetrics.shares m = get_or (PostData.shares post_data) 0
  /\ PostMetrics.saves m = get_or (PostData.saves post_data) 0
  /\ PostMetrics.plays m = get_or (PostData.plays post_data) 0
  /\ PostMetrics.reach m = get_or (PostData.reach post_data) 0
  /\ PostMetrics.impressions m = get_or (PostData.impressions post_data) 0.


(** ** [get_collector] and [collect_all_accounts] of [collectors.py] *)

(** A collector class: what its two requests answer. *)
Record CollectorClass : Type := mkCollectorClass {
  class_fetch_account_info : string -> Outcome (option AccountData.t);
  class_fetch_account_posts : string -> Z -> Outcome (list PostData.t)
}.

(** The four classes of the dictionary of [get_collector]. *)
Record Collectors : Type := mkCollectors {
  InstagramCollector : CollectorClass;
  TikTokCollector : CollectorClass;
  YouTubeCollector : CollectorClass;
  TwitterCollector : CollectorClass
}.

(** The constructor of a class sets [self.platform]. *)
Definition new_collector (platform : string) (c : CollectorClass)
    : BaseCollector.t :=
  BaseCollector.mk platform (class_fetch_account_info c)
    (class_fetch_account_posts c).

(** The exception of [get_collector]; no [try] of [collect_all] is around
    it. *)
Inductive ValueError : Type :=
| UnsupportedPlatform (platform : string).

Definition get_collector (collectors : Collectors) (platform : string)
    : ValueError + BaseCollector.t :=
  if String.eqb platform "instagram" then
    inr (new_collector "instagram" (InstagramCollector collectors))
  else if String.eqb platform "tiktok" then
    inr (new_collector "tiktok" (TikTokCollector collectors))
  else if String.eqb platform "youtube" then
    inr (new_collector "youtube" (YouTubeCollector collectors))
  else if String.eqb platform "twitter" then
    inr (new_collector "twitter" (TwitterCollector collectors))
  else inl (UnsupportedPlatform platform).

(** An entry of the list of [collect_all_accounts]: the keys ['platform']
    and ['username'] and those of the result of [collect_all]. *)
Module AccountResult.
Record t : Type := mk {
  platform : string;
  username : string;
  result : CollectResult.t
}.
End AccountResult.

(** [for account in accounts]; [results] is the list the loop appends
    to. *)
Fixpoint collect_accounts_loop (collectors : Collectors) (post_limit : Z)
    (accounts : list Account.t) (results : list AccountResult.t)
    (w : World) : (ValueError + list AccountResult.t) * World :=
  match accounts with
  | [] => (inr results, w)
  | account :: rest =>
      match get_collector collectors (Account.platform account) with
      | inl e => (inl e, w)
      | inr collector =>
          let (result, w1) :=
            BaseCollector.collect_all collector (Account.username account)
              post_limit w in
          collect_accounts_loop collectors post_limit rest
            (results ++ [AccountResult.mk (Account.platform account)
                           (Account.username account) result])
            w1
      end
  end.

Definition collect_all_accounts (collectors : Collectors)
    (platform : option string) (post_limit : Z) (w : World)
    : (ValueError + list AccountResult.t) * World :=
  match Database.get_all_accounts platform (db w) with
  | [] => (inr [], w)
  | accounts => collect_accounts_loop collectors post_limit accounts [] w
  end.

(** ** [cmd_add] and [cmd_remove] of [cli/main.py], [api_add_account] of
    [web/app.py] *)

Definition SUPPORTED_PLATFORMS : list string :=
  ["instagram"; "tiktok"; "youtube"; "twitter"]%string.

(** [platform in SUPPORTED_PLATFORMS] *)
Definition supported (platform : string) : bool :=
  existsb (String.eqb platform) SUPPORTED_PLATFORMS.

(** [value or default] on an optional string. *)
Definition str_or (value : option string) (default : string) : string :=
  match value with
  | Some s => if String.eqb s EmptyString then default else s
  | None => default
  end.

(** What can leave a command or a handler uncaught. *)
Inductive Uncaught : Type :=
| UncaughtValueError (e : ValueError)
| UncaughtException (e : Exn).

(** [cmd_add]: the exit code, or the exception that leaves the command.
    [lower] is [str.lower]. *)
Definition cmd_add (lower : string -> string) (collectors : Collectors)
    (arg_platform arg_username : string) (arg_display_name : option string)
    (arg_collect : bool) (w : World) : (Uncaught + Z) * World :=
  let platform := lower arg_platform in
  let username := arg_username in
  if negb (supported platform) then (inr 1, w)
  else
    match Database.get_account platform username (db w) with
    | Some _ => (inr 0, w)
    | None =>
        let account :=
          Account.mk None platform username
            (str_or arg_display_name username) EmptyString 0 0 0
            EmptyString EmptyString EmptyString in
        match Db.add_account account w with
        | (Raise e, w1) => (inl (UncaughtException e), w1)
        | (Ok _, w1) =>
            if arg_collect then
              match get_collector collectors platform with
              | inl e => (inl (UncaughtValueError e), w1)
              | inr collector =>
                  let (_, w2) :=
                    BaseCollector.collect_all collector username 20 w1 in
                  (inr 0, w2)
              end
            else (inr 0, w1)
        end
    end.

(** [cmd_remove]: [answer] is what [input] reads when [--force] is not
    given. *)
Definition cmd_remove (lower : string -> string)
    (arg_platform arg_username : string) (arg_force : bool)
    (answer : string) (d : Database.t) : Z * Database.t :=
  let platform := lower arg_platform in
  let username := arg_username in
  match Database.get_account platform username d with
  | None => (1, d)
  | Some account =>
      if negb arg_force && negb (String.eqb (lower answer) "y") then (0, d)
      else
        match Account.id account with
        | Some i => (0, snd (Database.delete_account i d))
        | None => (0, d)    (* [WHERE id = NULL] selects no row *)
        end
  end.

(** The answers of [api_add_account]. *)
Inductive AddAccountResponse : Type :=
| AddUnsupported (platform : string)              (* status 400 *)
| AddExists (platform username : string)          (* status 400 *)
| AddDone (id : Z) (platform username : string)   (* the success body *)
| AddError (e : Exn).                             (* an exception: 500 *)

(** [api_add_account]: the answer, the store, and the background task that
    was scheduled, if any.  [clean] is [str.strip().lstrip('@')]. *)
Definition api_add_account (lower clean : string -> string)
    (req_platform req_username : string) (collect_now : bool) (w : World)
    : AddAccountResponse * option (string * string) * World :=
  let platform := lower req_platform in
  let username := clean req_username in
  if negb (supported platform) then (AddUnsupported platform, None, w)
  else
    match Database.get_account platform username (db w) with
    | Some _ => (AddExists platform username, None, w)
    | None =>
        let account :=
          Account.mk None platform username username EmptyString 0 0 0
            EmptyString EmptyString EmptyString in
        match Db.add_account account w with
        | (Ok account_id, w1) =>
            (AddDone account_id platform username,
             if collect_now then Some (platform, username) else None, w1)
        | (Raise e, w1) => (AddError e, None, w1)
        end
    end.

(** [_collect_account_data], the background task: every exception is
    caught and printed. *)
Definition _collect_account_data (collectors : Collectors)
    (platform username : string) (w : World) : World :=
  match get_collector collectors platform with
  | inl _ => w
  | inr collector => snd (BaseCollector.collect_all collector username 20 w)
  end.

(** Four classes that answer as the sample adapter does, with the batch
    that lists a post twice. *)
Definition sample_collectors : Collectors :=
  let c := mkCollectorClass (fun _ => Ok (Some sample_account_data))
             (fun _ _ => Ok twice_listed) in
  mkCollectors c c c c.


(** ** The per-platform statistics of [get_dashboard_data], [dashboard]
    and [api_get_stats]

    A Python dictionary keeps its keys in the order of their first
    insertion: it is the list of its items, and an assignment to a key
    that is present replaces the value in place. *)

Fixpoint dict_set {V : Type} (key : string) (v : V)
    (items : list (string * V)) : list (string * V) :=
  match items with
  | [] => [(key, v)]
  | (k, x) :: rest =>
      if String.eqb k key then (k, v) :: rest
      else (k, x) :: dict_set key v rest
  end.

Module PlatformStat.
Record t : Type := mk {
  count : Z;
  followers : Z;
  posts : Z
}.
End PlatformStat.

(** The body of [for account in accounts]. *)
Definition platform_stats_step (stats : list (string * PlatformStat.t))
    (account : Account.t) : list (string * PlatformStat.t) :=
  let platform := Account.platform account in
  let stats :=
    match dict_get platform stats with
    | None => dict_set platform (PlatformStat.mk 0 0 0) stats
    | Some _ => stats
    end in
  match dict_get platform stats with
  | Some s =>
      dict_set platform
        (PlatformStat.mk (PlatformStat.count s + 1)
           (PlatformStat.followers s + Account.follower_count account)
           (PlatformStat.posts s + Account.post_count account))
        stats
  | None => stats
  end.

Definition platform_stats (accounts : list Account.t)
    : list (string * PlatformStat.t) :=
  fold_left platform_stats_step accounts [].

(** [api_get_stats] of [web/app.py] *)
Module Stats.
Record t : Type := mk {
  total_accounts : Z;
  platform_stats : list (string * PlatformStat.t);
  last_collected : option string
}.
End Stats.

Definition api_get_stats (d : Database.t) : Stats.t :=
  let accounts := Database.get_all_accounts None d in
  Stats.mk (Z.of_nat (List.length accounts)) (platform_stats accounts)
    (_get_last_collection_time d).

(** The accounts of one platform. *)
Definition accounts_on (platform : string) (accounts : list Account.t)
    : list Account.t :=
  filter (fun a => String.eqb (Account.platform a) platform) accounts.

(** [sum(...)] over a list of integers. *)
Definition py_sum (l : list Z) : Z := fold_left Z.add l 0.


(** ** [generate_weekly_report] and [get_dashboard_data] of [report.py] *)

(** [sum(p.get(col, 0) or 0 for p in rows)]: a NULL column counts 0. *)
Definition column_sum (col : LatestRow.t -> option Z)
    (rows : list LatestRow.t) : Z :=
  py_sum (map (fun p => get_or (col p) 0) rows).

Module WeeklyRow.
Record t : Type := mk {
  platform : string;
  username : string;
  display_name : string;
  follower_count : Z;
  follower_change : Z;
  post_count : Z;
  total_views : Z;
  total_likes : Z;
  total_comments : Z;
  total_shares : Z;
  avg_views : Z;
  avg_likes : Z;
  engagement_rate : PyFloat.t
}.
End WeeklyRow.

(** The entry that the loop of [generate_weekly_report] appends for one
    account.  [x // n] is the floor of the quotient, [Z.div] for the
    positive [n] it is used with. *)
Definition weekly_report_row (order_by_desc : Sorter) (account : Account.t)
    (d : Database.t) : Outcome WeeklyRow.t :=
  let account_metrics :=
    match Account.id account with
    | Some i => Reads.get_account_metrics_history order_by_desc i 2 d
    | None => []       (* [WHERE account_id = NULL] selects no row *)
    end in
  let posts_with_metrics :=
    Resolver.get_posts_with_latest_metrics order_by_desc
      (Account.id account) None 50 d in
  let total_views := column_sum LatestRow.views posts_with_metrics in
  let total_likes := column_sum LatestRow.likes posts_with_metrics in
  let total_comments := column_sum LatestRow.comments posts_with_metrics in
  let total_shares := column_sum LatestRow.shares posts_with_metrics in
  let follower_change :=
    match account_metrics with
    | m0 :: m1 :: _ =>
        AccountMetrics.follower_count m0 - AccountMetrics.follower_count m1
    | _ => 0
    end in
  let n := Z.of_nat (List.length posts_with_metrics) in
  let avg_views := if n =? 0 then 0 else total_views / n in
  let avg_likes := if n =? 0 then 0 else total_likes / n in
  match ReportGenerator._calc_engagement_rate total_likes total_comments
          (Account.follower_count account) with
  | Raise e => Raise e
  | Ok rate =>
      Ok (WeeklyRow.mk (Account.platform account)
            (Account.username account) (Account.display_name account)
            (Account.follower_count account) follower_change n
            total_views total_likes total_comments total_shares
            avg_views avg_likes rate)
  end.

(** [for account in accounts: ... report_data.append(...)] *)
Fixpoint weekly_report_loop (order_by_desc : Sorter)
    (accounts : list Account.t) (d : Database.t)
    (report_data : list WeeklyRow.t) : Outcome (list WeeklyRow.t) :=
  match accounts with
  | [] => Ok report_data
  | account :: rest =>
      match weekly_report_row order_by_desc account d with
      | Raise e => Raise e
      | Ok row =>
          weekly_report_loop order_by_desc rest d (report_data ++ [row])
      end
  end.

(** The rows that [generate_weekly_report] hands to [_write_csv]. *)
Definition weekly_report_data (order_by_desc : Sorter)
    (platform : option string) (d : Database.t)
    : Outcome (list WeeklyRow.t) :=
  weekly_report_loop order_by_desc
    (Database.get_all_accounts platform d) d [].

(** [sorted(l, key=key, reverse=True)]: descending, and stable, rows with
    equal keys keeping their order. *)
Fixpoint insert_reverse {A : Type} (key : A -> Z) (x : A) (l : list A)
    : list A :=
  match l with
  | [] => [x]
  | y :: l' =>
      if key y <=? key x then x :: y :: l'
      else y :: insert_reverse key x l'
  end.

Definition sorted_reverse {A : Type} (key : A -> Z) (l : list A) : list A :=
  fold_right (insert_reverse key) [] l.

(** [lambda x: x.get('views', 0) or 0] *)
Definition views_or_0 (x : LatestRow.t) : Z := get_or (LatestRow.views x) 0.

(** The dictionary of [get_dashboard_data]; the entries of
    ['platform_stats'] are those of [platform_stats], under the keys
    ['accounts'], ['total_followers'] and ['total_posts']. *)
Module Dashboard.
Record t : Type := mk {
  summary : Reads.Summary;
  platform_stats : list (string * PlatformStat.t);
  recent_posts : list LatestRow.t;
  top_posts_by_views : list LatestRow.t;
  total_accounts : Z
}.
End Dashboard.

Definition get_dashboard_data (order_by_desc : Sorter) (d : Database.t)
    : Dashboard.t :=
  let summary := Reads.get_collection_summary d in
  let accounts := Database.get_all_accounts None d in
  let recent_posts :=
    Resolver.get_posts_with_latest_metrics order_by_desc None None 10 d in
  let all_posts :=
    Resolver.get_posts_with_latest_metrics order_by_desc None None 1000 d in
  let top_posts := firstn 5 (sorted_reverse views_or_0 all_posts) in
  Dashboard.mk summary (platform_stats accounts) recent_posts top_posts
    (Z.of_nat (List.length accounts)).

(** The row of "alice" in the sample store. *)
Definition alice : Account.t :=
  Account.mk (Some 1) "instagram" "alice" "alice" EmptyString 100 10 1
    EmptyString "2024-01-01T09:00:00" "2024-01-01T09:00:00".


(** ** [_get_top_posts] of [web/app.py]

    The pages take as the latest snapshot of a post the one with the
    largest rowid: [pm.id IN (SELECT MAX(id) FROM post_metrics GROUP BY
    post_id)].  The condition is NULL on a post without snapshot, whose
    row the WHERE drops. *)

(** [ORDER BY k1 DESC, k2 DESC] on two integer columns; as for [Sorter],
    the order of rows with equal keys is left to the engine. *)
Definition Sorter2 : Type :=
  forall A : Type, (A -> Z * Z) -> list A -> list A.

Definition desc2 {A : Type} (key : A -> Z * Z) (x y : A) : Prop :=
  fst (key y) < fst (key x)
  \/ (fst (key y) = fst (key x) /\ snd (key y) <= snd (key x)).

Definition sorter2_ok (order_by_desc2 : Sorter2) : Prop :=
  forall (A : Type) (key : A -> Z * Z) (l : list A),
    Permutation (order_by_desc2 A key l) l
    /\ StronglySorted (desc2 key) (order_by_desc2 A key l).

Definition leb2 (a b : Z * Z) : bool :=
  (fst a <? fst b) || ((fst a =? fst b) && (snd a <=? snd b)).

Fixpoint insert_desc2 {A : Type} (key : A -> Z * Z) (x : A) (l : list A)
    : list A :=
  match l with
  | [] => [x]
  | y :: l' =>
      if leb2 (key y) (key x) then x :: y :: l'
      else y :: insert_desc2 key x l'
  end.

Definition sort_by_desc2 : Sorter2 :=
  fun A key l => fold_right (insert_desc2 key) [] l.

Module Web.

(** [MAX(id)] over the rows of a group; NULL when no row has an id. *)
Definition option_max (a b : option Z) : option Z :=
  match a, b with
  | Some x, Some y => Some (Z.max x y)
  | Some x, None => Some x
  | None, _ => b
  end.

Definition max_int (l : list (option Z)) : option Z :=
  fold_right option_max None l.

(** [SELECT MAX(id) FROM post_metrics GROUP BY post_id] *)
Definition max_ids (d : Database.t) : list (option Z) :=
  map (fun g =>
         max_int
           (map PostMetrics.id
              (filter (fun m =>
                         if option_Z_eq_dec (PostMetrics.post_id m) g
                         then true else false)
                      (Database.post_metrics d))))
      (nodup option_Z_eq_dec
         (map PostMetrics.post_id (Database.post_metrics d))).

Definition on_post (p : Post.t) (pm : PostMetrics.t) : bool :=
  sql_eq_int (Post.id p) (PostMetrics.post_id pm).

Definition on_owner (j : Post.t * option PostMetrics.t) (a : Account.t)
    : bool :=
  sql_eq_int (Post.account_id (fst j)) (Account.id a).

(** [pm.id IN (SELECT MAX(id) ...)] *)
Definition is_latest (d : Database.t) (pm : PostMetrics.t) : bool :=
  existsb (sql_eq_int (PostMetrics.id pm)) (max_ids d).

(** The rows of the two LEFT JOINs that the WHERE keeps, for the rows
    [ps] of [posts]: those with a snapshot whose id is one of
    [max_ids]. *)
Definition latest_joined_rows (d : Database.t) (ps : list Post.t)
    : list (Post.t * PostMetrics.t * option Account.t) :=
  flat_map (fun j =>
              match snd (fst j) with
              | Some pm =>
                  if is_latest d pm then [(fst (fst j), pm, snd j)] else []
              | None => []
              end)
    (left_join on_owner
       (left_join on_post ps (Database.post_metrics d))
       (Database.accounts d)).

Definition latest_joined (d : Database.t)
    : list (Post.t * PostMetrics.t * option Account.t) :=
  latest_joined_rows d (Database.posts d).

Module TopPost.
Record t : Type := mk {
  id : option Z;
  account_id : option Z;
  platform : string;
  post_id : option string;
  post_type : string;
  caption : string;
  published_at : string;
  url : string;
  views : Z;
  likes : Z;
  comments : Z;
  shares : Z;
  saves : Z;
  username : option string;
  display_name : option string
}.
End TopPost.

(** The dictionary built from a row.  [py_len] is [len] and [py_first100]
    the slice [[:100]] of a Python string, which count characters;
    [x or 0] is [x] on an integer. *)
Definition top_post_of (py_len : string -> Z)
    (py_first100 : string -> string)
    (row : Post.t * PostMetrics.t * option Account.t) : TopPost.t :=
  let p := fst (fst row) in
  let pm := snd (fst row) in
  let a := snd row in
  TopPost.mk (Post.id p) (Post.account_id p) (Post.platform p)
    (Post.post_id p) (Post.post_type p)
    (if negb (String.eqb (Post.caption p) EmptyString)
        && (100 <? py_len (Post.caption p))
     then py_first100 (Post.caption p) ++ "..."
     else Post.caption p)
    (Post.published_at p) (Post.url p)
    (PostMetrics.views pm) (PostMetrics.likes pm) (PostMetrics.comments pm)
    (PostMetrics.shares pm) (PostMetrics.saves pm)
    (option_map Account.username a) (option_map Account.display_name a).

Definition _get_top_posts (order_by_desc2 : Sorter2)
    (py_len : string -> Z) (py_first100 : string -> string) (limit : Z)
    (d : Database.t) : list TopPost.t :=
  map (top_post_of py_len py_first100)
    (sql_limit limit
       (order_by_desc2 _
          (fun row => (PostMetrics.views (snd (fst row)),
                       PostMetrics.likes (snd (fst row))))
          (latest_joined d))).

End Web.


(** ** [run_collection] of [api.py] as a background task

    The task builds its collector and records its state in the dictionary
    [collection_status]; its one [try] ... [except Exception] covers
    [get_collector] too. *)

Inductive TaskMessage : Type :=
| TaskCollecting                    (* the text of the running state *)
| TaskResult (m : Message)          (* result['message'] *)
| TaskException (e : ValueError).   (* collection failed: str(e) *)

Module TaskEntry.
Record t : Type := mk {
  status : Status;
  platform : string;
  username : string;
  started_at : option string;
  completed_at : option string;
  message : TaskMessage;
  posts_collected : option nat
}.
End TaskEntry.

Definition run_collection_task (collectors : Collectors)
    (platform username : string) (post_limit : Z) (task_id : string)
    (collection_status : list (string * TaskEntry.t)) (w : World)
    : list (string * TaskEntry.t) * World :=
  let started_now := time w (ticks w) in
  let w0 := mkWorld (db w) (time w) (S (ticks w)) (calls w) in
  let collection_status :=
    dict_set task_id
      (TaskEntry.mk running platform username (Some started_now) None
         TaskCollecting None) collection_status in
  match get_collector collectors platform with
  | inl e =>
      let completed_now := time w0 (ticks w0) in
      (dict_set task_id
         (TaskEntry.mk failed platform username None (Some completed_now)
            (TaskException e) None) collection_status,
       mkWorld (db w0) (time w0) (S (ticks w0)) (calls w0))
  | inr collector =>
      let (result, w1) :=
        BaseCollector.collect_all collector username post_limit w0 in
      let completed_now := time w1 (ticks w1) in
      let w2 := mkWorld (db w1) (time w1) (S (ticks w1)) (calls w1) in
      if CollectResult.success result then
        (dict_set task_id
           (TaskEntry.mk completed platform username None (Some completed_now)
              (TaskResult (CollectResult.message result))
              (Some (List.length (CollectResult.posts result))))
           collection_status, w2)
      else
        (dict_set task_id
           (TaskEntry.mk failed platform username None (Some completed_now)
              (TaskResult (CollectResult.message result)) None)
           collection_status, w2)
  end.


(** ** [api_config.py]: the configuration of a platform and its cache

    A time is the number of microseconds of a [datetime]; the difference
    of two of them is their [timedelta].  What the Supabase query and the
    process environment answer are inputs of [get_api_config]: they can
    change from one call to the next. *)

Module ApiConfig.

Inductive Source : Type := database | env.

(** A configuration dictionary.  A column of the database can be NULL. *)
Record Config : Type := mkConfig {
  api_key : option string;
  api_host : option string;
  enabled : option bool;
  notes : option string;
  source : Source
}.

(** The row of [api_configs] for a platform. *)
Record Row : Type := mkRow {
  row_api_key : option string;
  row_api_host : option string;
  row_enabled : option bool;
  row_notes : option string
}.

Record Sources : Type := mkSources {
  (** the [result.data] of the query, when a client exists, the query
      raises nothing and the data is not empty *)
  select_row : string -> option Row;
  (** [os.environ.get] *)
  environ : string -> option string
}.

(** The module-level dictionaries [_cache] and [_cache_time], and the
    clock. *)
Record State : Type := mkState {
  _cache : list (string * Config);
  _cache_time : list (string * Z);
  now : nat -> Z;
  reads : nat
}.

(** [timedelta(minutes=5)] *)
Definition CACHE_TTL : Z := 5 * 60 * 1000000.

Definition read_clock (st : State) : Z * State :=
  (now st (reads st),
   mkState (_cache st) (_cache_time st) (now st) (S (reads st))).

Definition _is_cache_valid (platform : string) (st : State)
    : bool * State :=
  match dict_get platform (_cache_time st) with
  | None => (false, st)
  | Some t =>
      let (n, st') := read_clock st in (n - t <? CACHE_TTL, st')
  end.

Definition env_key_map (platform : string) : option string :=
  if String.eqb platform "instagram" then Some "INSTAGRAM_API_KEY"%string
  else if String.eqb platform "tiktok" then Some "TIKTOK_API_KEY"%string
  else if String.eqb platform "youtube" then Some "YOUTUBE_API_KEY"%string
  else if String.eqb platform "twitter" then Some "TWITTER_API_KEY"%string
  else None.

Definition env_host_map (platform : string) : option string :=
  if String.eqb platform "instagram"
  then Some "instagram120.p.rapidapi.com"%string
  else if String.eqb platform "tiktok"
  then Some "tiktok-api23.p.rapidapi.com"%string
  else if String.eqb platform "twitter"
  then Some "twitter-api45.p.rapidapi.com"%string
  else None.

(** [_cache[platform] = config; _cache_time[platform] = datetime.now()] *)
Definition store (platform : string) (config : Config) (st : State)
    : State :=
  let cache := dict_set platform config (_cache st) in
  let (n, st') := read_clock st in
  mkState cache (dict_set platform n (_cache_time st')) (now st')
    (reads st').

(** The part of [get_api_config] below the cache check: the database,
    then the environment. *)
Definition load_config (sources : Sources) (platform : string)
    (st : State) : option Config * State :=
  match select_row sources platform with
  | Some row =>
      let config :=
        mkConfig (row_api_key row) (row_api_host row) (row_enabled row)
          (row_notes row) database in
      (Some config, store platform config st)
  | None =>
      match env_key_map platform with
      | None => (None, st)
      | Some env_var =>
          match environ sources env_var with
          | None => (None, st)
          | Some key =>
              if String.eqb key EmptyString then (None, st)
              else
                let config :=
                  mkConfig (Some key) (env_host_map platform) (Some true)
                    (Some "From environment variable"%string) env in
                (Some config, store platform config st)
          end
      end
  end.

Definition get_api_config (sources : Sources) (platform : string)
    (st : State) : option Config * State :=
  let (valid, st) := _is_cache_valid platform st in
  if valid then (dict_get platform (_cache st), st)
  else load_config sources platform st.

(** [get_api_key]: the empty string without configuration. *)
Definition get_api_key (sources : Sources) (platform : string) (st : State)
    : option string * State :=
  let (config, st) := get_api_config sources platform st in
  (match config with
   | Some c => api_key c
   | None => Some EmptyString
   end, st).

(** [dict.pop(key, None)] *)
Fixpoint dict_pop {V : Type} (key : string) (items : list (string * V))
    : list (string * V) :=
  match items with
  | [] => []
  | (k, v) :: rest =>
      if String.eqb k key then rest else (k, v) :: dict_pop key rest
  end.

(** [clear_cache]: [if platform:] is false for [None] and for the empty
    string. *)
Definition clear_cache (platform : option string) (st : State) : State :=
  match platform with
  | Some p =>
      if String.eqb p EmptyString then mkState [] [] (now st) (reads st)
      else mkState (dict_pop p (_cache st)) (dict_pop p (_cache_time st))
             (now st) (reads st)
  | None => mkState [] [] (now st) (reads st)
  end.

(** The two lists are dictionaries, and every key of [_cache_time] is a
    key of [_cache]. *)
Definition cache_ok (st : State) : Prop :=
  NoDup (map fst (_cache st)) /\ NoDup (map fst (_cache_time st))
  /\ forall platform t,
       dict_get platform (_cache_time st) = Some t ->
       exists c, dict_get platform (_cache st) = Some c.

End ApiConfig.

(** An environment that holds a key for Instagram only, no database, and
    a clock that advances by a second at each reading. *)
Definition sample_sources : ApiConfig.Sources :=
  ApiConfig.mkSources (fun _ => None)
    (fun v => if String.eqb v "INSTAGRAM_API_KEY"
              then Some "key-0123456789"%string else None).

Definition initial_state : ApiConfig.State :=
  ApiConfig.mkState [] [] (fun n => Z.of_nat n * 1000000) 0.


(** ** class SupabaseDatabase of [supabase_db.py]

    The same interface on a Supabase project.  A table is the list of its
    rows; a row holds the columns that the class writes and reads, and the
    id (a UUID) that the server gives it on insertion: the next of the
    server's sequence [uuids].  [result.data] of a select is the list of
    the matching rows, and [result.data[0]] its first one. *)

Module Supabase.

Module Account.
Record t : Type := mk {
  id : option string;
  platform : string;
  username : string;
  display_name : string;
  account_id : string;
  follower_count : Z;
  following_count : Z;
  post_count : Z;
  bio : string;
  created_at : string;
  updated_at : string
}.
End Account.

Module PostMetrics.
Record t : Type := mk {
  id : option string;
  post_id : string;
  collected_at : string;
  views : Z;
  likes : Z;
  comments : Z;
  shares : Z;
  saves : Z;
  plays : Z;
  reach : Z;
  impressions : Z
}.
End PostMetrics.

(** A row of the table [accounts]. *)
Module AccountRow.
Record t : Type := mk {
  id : string;
  platform : string;
  username : string;
  display_name : string;
  account_id : string;
  follower_count : Z;
  following_count : Z;
  post_count : Z;
  bio : string;
  created_at : string;
  updated_at : string
}.
End AccountRow.

(** The columns of [post_metrics] that [add_post_metrics] writes. *)
Module PostMetricsRow.
Record t : Type := mk {
  id : string;
  post_id : string;
  collected_at : string;
  views : Z;
  likes : Z;
  comments : Z;
  shares : Z;
  saves : Z
}.
End PostMetricsRow.

Record t : Type := mkDb {
  accounts : list AccountRow.t;
  post_metrics : list PostMetricsRow.t;
  uuids : nat -> string;
  issued : nat
}.

(** [_row_to_account] *)
Definition _row_to_account (row : AccountRow.t) : Account.t :=
  Account.mk (Some (AccountRow.id row)) (AccountRow.platform row)
    (AccountRow.username row) (AccountRow.display_name row)
    (AccountRow.account_id row) (AccountRow.follower_count row)
    (AccountRow.following_count row) (AccountRow.post_count row)
    (AccountRow.bio row) (AccountRow.created_at row)
    (AccountRow.updated_at row).

(** [_row_to_post_metrics]: [plays] is read from the column [views], and
    [reach] and [impressions] are 0. *)
Definition _row_to_post_metrics (row : PostMetricsRow.t) : PostMetrics.t :=
  PostMetrics.mk (Some (PostMetricsRow.id row)) (PostMetricsRow.post_id row)
    (PostMetricsRow.collected_at row) (PostMetricsRow.views row)
    (PostMetricsRow.likes row) (PostMetricsRow.comments row)
    (PostMetricsRow.shares row) (PostMetricsRow.saves row)
    (PostMetricsRow.views row) 0 0.

Definition account_key (platform username : string) (r : AccountRow.t)
    : bool :=
  String.eqb (AccountRow.platform r) platform
  && String.eqb (AccountRow.username r) username.

Definition get_account (platform username : string) (db : t)
    : option Account.t :=
  match filter (account_key platform username) (accounts db) with
  | [] => None
  | row :: _ => Some (_row_to_account row)
  end.

(** [add_account]: an update of the row that [get_account] finds, or an
    insertion. *)
Definition add_account (now : string) (account : Account.t) (db : t)
    : option string * t :=
  match get_account (Account.platform account) (Account.username account)
          db with
  | Some existing =>
      let upd (r : AccountRow.t) :=
        if match Account.id existing with
           | Some i => String.eqb (AccountRow.id r) i
           | None => false
           end
        then
          AccountRow.mk (AccountRow.id r) (Account.platform account)
            (Account.username account) (Account.display_name account)
            (Account.account_id account) (Account.follower_count account)
            (Account.following_count account) (Account.post_count account)
            (Account.bio account) (AccountRow.created_at r) now
        else r in
      (Account.id existing,
       mkDb (map upd (accounts db)) (post_metrics db) (uuids db)
         (issued db))
  | None =>
      let i := uuids db (issued db) in
      let row :=
        AccountRow.mk i (Account.platform account)
          (Account.username account) (Account.display_name account)
          (Account.account_id account) (Account.follower_count account)
          (Account.following_count account) (Account.post_count account)
          (Account.bio account) now now in
      (Some i,
       mkDb (accounts db ++ [row]) (post_metrics db) (uuids db)
         (S (issued db)))
  end.

(** [add_post_metrics]: the columns [plays], [reach] and [impressions] of
    the snapshot are not among the inserted ones. *)
Definition add_post_metrics (metrics : PostMetrics.t) (db : t)
    : string * t :=
  let i := uuids db (issued db) in
  let row :=
    PostMetricsRow.mk i (PostMetrics.post_id metrics)
      (PostMetrics.collected_at metrics) (PostMetrics.views metrics)
      (PostMetrics.likes metrics) (PostMetrics.comments metrics)
      (PostMetrics.shares metrics) (PostMetrics.saves metrics) in
  (i, mkDb (accounts db) (post_metrics db ++ [row]) (uuids db)
        (S (issued db))).

(** [.eq('post_id', post_id).order('collected_at', desc=True)
    .limit(limit)], for a limit that is not negative. *)
Definition select_post_metrics (order_by_desc : Sorter) (post_id : string)
    (limit : Z) (db : t) : list PostMetricsRow.t :=
  firstn (Z.to_nat limit)
    (order_by_desc _ PostMetricsRow.collected_at
       (filter (fun r => String.eqb (PostMetricsRow.post_id r) post_id)
               (post_metrics db))).

Definition get_post_metrics_history (order_by_desc : Sorter)
    (post_id : string) (limit : Z) (db : t) : list PostMetrics.t :=
  map _row_to_post_metrics (select_post_metrics order_by_desc post_id limit db).

Definition get_latest_post_metrics (order_by_desc : Sorter)
    (post_id : string) (db : t) : option PostMetrics.t :=
  match select_post_metrics order_by_desc post_id 1 db with
  | [] => None
  | row :: _ => Some (_row_to_post_metrics row)
  end.

End Supabase.

(** A project with one account, and a server that issues the ids
    "uuid-0", "uuid-1", ... *)
Definition sample_uuids (n : nat) : string :=
  String.append "uuid-" (String (Ascii.ascii_of_nat (48 + n)) EmptyString).

Definition supabase_sample : Supabase.t :=
  snd (Supabase.add_account "2024-01-01T09:00:00"
         (Supabase.Account.mk None "instagram" "bob" "Bob" EmptyString 10 2
            3 EmptyString EmptyString EmptyString)
         (Supabase.mkDb [] [] sample_uuids 0)).

(* ===================================================================== *)
(** * Properties *)
(* ===================================================================== *)

(** ** Basic facts *)

Lemma sql_eq_int_true (a b : option Z) :
  sql_eq_int a b = true <-> exists x, a = Some x /\ b = Some x.
Proof.
  destruct a as [x|], b as [y|]; simpl; split; intro H;
    try discriminate; try (destruct H as (z & H1 & H2); discriminate).
  - apply Z.eqb_eq in H. subst. eauto.
  - destruct H as (z & H1 & H2). inversion H1. inversion H2. subst.
    apply Z.eqb_refl.
Qed.

Lemma sql_eq_int_some (a : option Z) (y : Z) :
  sql_eq_int a (Some y) = true <-> a = Some y.
Proof.
  rewrite sql_eq_int_true. split.
  - intros (x & -> & H). inversion H. reflexivity.
  - intros ->. eauto.
Qed.

Lemma sql_eq_int_some_false (a : option Z) (y : Z) :
  sql_eq_int a (Some y) = false <-> a <> Some y.
Proof.
  rewrite <- sql_eq_int_some. destruct (sql_eq_int a (Some y)); split;
    congruence.
Qed.

Lemma sql_eq_text_true (a b : option string) :
  sql_eq_text a b = true <-> exists x, a = Some x /\ b = Some x.
Proof.
  destruct a as [x|], b as [y|]; simpl; split; intro H;
    try discriminate; try (destruct H as (z & H1 & H2); discriminate).
  - apply String.eqb_eq in H. subst. eauto.
  - destruct H as (z & H1 & H2). inversion H1. inversion H2. subst.
    apply String.eqb_refl.
Qed.

Lemma max_rowid_nonneg {A : Type} (rid : A -> option Z) (rows : list A) :
  0 <= max_rowid rid rows.
Proof.
  induction rows as [|r rows IH]; simpl; [lia|].
  destruct (rid r); lia.
Qed.

Lemma max_rowid_bound {A : Type} (rid : A -> option Z) (rows : list A)
    (r : A) (i : Z) :
  In r rows -> rid r = Some i -> i <= max_rowid rid rows.
Proof.
  induction rows as [|r' rows IH]; simpl; [tauto|].
  intros [->|Hin] Hid.
  - rewrite Hid. lia.
  - specialize (IH Hin Hid). destruct (rid r'); lia.
Qed.

Lemma next_rowid_fresh {A : Type} (rid : A -> option Z) (seq : Z)
    (rows : list A) (r : A) (i : Z) :
  In r rows -> rid r = Some i -> i < next_rowid rid seq rows.
Proof.
  intros Hin Hid. unfold next_rowid.
  pose proof (max_rowid_bound rid rows r Hin Hid). lia.
Qed.

Lemma next_rowid_pos {A : Type} (rid : A -> option Z) (seq : Z)
    (rows : list A) :
  0 < next_rowid rid seq rows.
Proof.
  unfold next_rowid. pose proof (max_rowid_nonneg rid rows). lia.
Qed.

Lemma find_app_none {A : Type} (f : A -> bool) (l1 l2 : list A) :
  find f l1 = None -> find f (l1 ++ l2) = find f l2.
Proof.
  induction l1 as [|x l1 IH]; simpl; [reflexivity|].
  destruct (f x); [discriminate|exact IH].
Qed.

Lemma find_app_some {A : Type} (f : A -> bool) (l1 l2 : list A) (x : A) :
  find f l1 = Some x -> find f (l1 ++ l2) = Some x.
Proof.
  induction l1 as [|y l1 IH]; simpl; [discriminate|].
  destruct (f y); [trivial|exact IH].
Qed.

Lemma find_none_iff {A : Type} (f : A -> bool) (l : list A) :
  find f l = None <-> existsb f l = false.
Proof.
  induction l as [|x l IH]; simpl; [tauto|].
  destruct (f x); simpl; [split; discriminate|exact IH].
Qed.

Lemma find_filter_negb {A : Type} (f : A -> bool) (l : list A) :
  find f (filter (fun x => negb (f x)) l) = None.
Proof.
  induction l as [|x l IH]; simpl; [reflexivity|].
  destruct (f x) eqn:E; simpl; [exact IH|]. rewrite E. exact IH.
Qed.

(** ** Account identity *)

Section AccountIdentity.

Variables (platform username now : string).

(** What [INSERT OR REPLACE] does to the id of an account that exists:
    the row that [get_account] returns afterwards carries the new rowid,
    which is larger than the one the account had. *)
Lemma add_account_new_id (account existing : Account.t) (i : Z)
    (d : Database.t) :
  Account.platform account = platform ->
  Account.username account = username ->
  Database.get_account platform username d = Some existing ->
  Account.id existing = Some i ->
  exists row,
    Database.get_account platform username
      (snd (Database.add_account now account d)) = Some row
    /\ Account.id row = Some (fst (Database.add_account now account d))
    /\ i < fst (Database.add_account now account d).
Proof.
  intros Hp Hu Hget Hid. unfold Database.get_account in *. simpl.
  rewrite Hp, Hu. eexists. split; [|split].
  - rewrite find_app_none by apply find_filter_negb. simpl.
    unfold Database.account_key. simpl.
    rewrite !String.eqb_refl. reflexivity.
  - reflexivity.
  - apply find_some in Hget. destruct Hget as [Hin _].
    eapply next_rowid_fresh; eauto.
Qed.

(** [UPDATE accounts ... WHERE id = ?] keeps the row that [get_account]
    finds, with the id it had. *)
Lemma update_account_keeps_id (account : Account.t) (d : Database.t) :
  option_map Account.id
    (Database.get_account platform username
       (Database.update_account now account d))
  = option_map Account.id (Database.get_account platform username d).
Proof.
  unfold Database.get_account, Database.update_account. simpl.
  induction (Database.accounts d) as [|r rows IH]; simpl; [reflexivity|].
  destruct (sql_eq_int (Account.id r) (Account.id account));
    unfold Database.account_key at 1 3; simpl;
    destruct (String.eqb (Account.platform r) platform
              && String.eqb (Account.username r) username);
    simpl; auto.
Qed.

End AccountIdentity.

Lemma add_account_metrics_accounts (m : AccountMetrics.t) (d : Database.t) :
  Database.accounts (snd (Database.add_account_metrics m d))
  = Database.accounts d.
Proof.
  unfold Database.add_account_metrics.
  destruct (is_null (AccountMetrics.account_id m)); reflexivity.
Qed.

(** The resolve-or-create path of [collect_account] (lines 62-88) keeps the
    id of an account that exists, whatever the collaborator answers and
    however the attempt ends. *)
Lemma collect_account_keeps_id (self : BaseCollector.t) (username : string)
    (w : World) (existing : Account.t) :
  Database.get_account (BaseCollector.platform self) username (db w)
    = Some existing ->
  option_map Account.id
    (Database.get_account (BaseCollector.platform self) username
       (db (snd (BaseCollector.collect_account self username w))))
  = Some (Account.id existing).
Proof.
  intros Hget. unfold BaseCollector.collect_account,
    BaseCollector.call_fetch_account_info, bind, log_call, lift_outcome.
  cbn [fst snd db].
  destruct (BaseCollector.fetch_account_info self username)
    as [[data|]|e]; cbn [ret snd db]; try (rewrite Hget; reflexivity).
  destruct (AccountData.is_empty data); cbn [ret snd db];
    try (rewrite Hget; reflexivity).
  unfold Db.get_account. cbn [db]. rewrite Hget.
  unfold Db.update_account, Db.add_account_metrics, datetime_now, bind,
    ret, set_db. cbn [db time ticks calls].
  match goal with
  | |- context [Database.add_account_metrics ?m ?d] =>
      pose proof (add_account_metrics_accounts m d) as Hacc;
      destruct (Database.add_account_metrics m d) as [o d'] eqn:E
  end.
  cbn [snd] in Hacc.
  assert (Hres : option_map Account.id
                   (Database.get_account (BaseCollector.platform self)
                      username d') = Some (Account.id existing)).
  { unfold Database.get_account. rewrite Hacc.
    match goal with
    | |- context [Database.update_account ?t ?a ?d] =>
        pose proof (update_account_keeps_id (BaseCollector.platform self)
                      username t a d) as K
    end.
    unfold Database.get_account in K at 1. rewrite K, Hget. reflexivity. }
  destruct o; cbn [snd db]; exact Hres.
Qed.

(** Any number of later attempts, each with its own answers of the
    collaborator, leave the id as it is. *)
Lemma collect_account_many_keeps_id (platform username : string)
    (attempts : list BaseCollector.t) :
  Forall (fun self => BaseCollector.platform self = platform) attempts ->
  forall (w : World) (existing : Account.t),
    Database.get_account platform username (db w) = Some existing ->
    option_map Account.id
      (Database.get_account platform username
         (db (collect_account_many attempts username w)))
    = Some (Account.id existing).
Proof.
  induction 1 as [|self rest Hp _ IH]; intros w existing Hget; simpl.
  - rewrite Hget. reflexivity.
  - subst platform.
    pose proof (collect_account_keeps_id self username w Hget) as K.
    destruct (Database.get_account (BaseCollector.platform self) username
                (db (snd (BaseCollector.collect_account self username w))))
      as [a|] eqn:E; [|discriminate].
    rewrite (IH _ a E). simpl in K. congruence.
Qed.

(** C1 (identity stability), evaluated on the store: [Database.add_account]
    called twice for ("instagram", "bob") on the empty store returns the ids
    1 and 2, and [get_account] returns the id 1 after the first call and the
    id 2 after the second one; the row of the first call is gone. *)
Theorem add_account_twice_changes_id :
  let bob :=
    Account.mk None "instagram" "bob" "Bob" EmptyString 10 2 3 EmptyString
      EmptyString EmptyString in
  let r1 := Database.add_account "2024-01-01T10:00:00" bob Database.empty in
  let r2 := Database.add_account "2024-01-02T10:00:00" bob (snd r1) in
  fst r1 = 1
  /\ option_map Account.id
       (Database.get_account "instagram" "bob" (snd r1)) = Some (Some 1)
  /\ fst r2 = 2
  /\ option_map Account.id
       (Database.get_account "instagram" "bob" (snd r2)) = Some (Some 2)
  /\ Database.get_account_by_id 1 (snd r2) = None.
Proof. vm_compute. repeat split. Qed.

(** ** Snapshots and foreign keys *)

(** C7 (snapshot referential integrity), evaluated on the store:
    [add_post_metrics] with [post_id = 999] on the empty store, where no
    post exists, returns the snapshot id 1 and stores the row. *)
Theorem add_post_metrics_orphan_is_stored :
  let m := PostMetrics.mk None (Some 999) "2024-01-01T10:00:00"
             10 5 1 0 0 10 0 0 in
  Database.get_post_by_id 999 Database.empty = None
  /\ fst (Database.add_post_metrics m Database.empty) = Ok 1
  /\ Database.post_metrics (snd (Database.add_post_metrics m Database.empty))
     = [PostMetrics.set_id (Some 1) m].
Proof. vm_compute. repeat split. Qed.

(** [add_post_metrics] never looks at [posts]: it stores the snapshot for
    every non-NULL [post_id]. *)
Lemma add_post_metrics_ignores_posts (m : PostMetrics.t) (d : Database.t)
    (post_id : Z) :
  PostMetrics.post_id m = Some post_id ->
  exists i,
    Database.add_post_metrics m d
    = (Ok i,
       Database.set_post_metrics
         (Database.post_metrics d ++ [PostMetrics.set_id (Some i) m]) i d).
Proof.
  intros H. unfold Database.add_post_metrics. rewrite H. simpl. eauto.
Qed.

(** ** Deleting an account *)

(** C8, as the claim states it, fails: [delete_account] on an id that the
    store does not hold ends normally; on the empty store it returns and
    leaves the store as it is. *)
Lemma delete_account_missing_id_is_silent :
  ~ (forall (account_id : Z) (d : Database.t),
       Database.get_account_by_id account_id d = None ->
       exists e, fst (Database.delete_account account_id d) = Raise e).
Proof.
  intros H. destruct (H 7 Database.empty eq_refl) as [e K]. discriminate K.
Qed.

Lemma find_none_filter_negb {A : Type} (f : A -> bool) (l : list A) :
  find f l = None -> filter (fun x => negb (f x)) l = l.
Proof.
  induction l as [|x l IH]; simpl; [reflexivity|].
  destruct (f x); [discriminate|]. intros H. simpl. f_equal. auto.
Qed.

(** C8, amended: on an id that the store does not hold, [delete_account]
    ends normally and removes no account row; the not-found answer is the
    one of the HTTP handler [api_delete_account], which looks the id up
    first, answers 404 and leaves the store as it is. *)
Theorem delete_account_missing_id (account_id : Z) (d : Database.t) :
  Database.get_account_by_id account_id d = None ->
  fst (Database.delete_account account_id d) = Ok tt
  /\ Database.accounts (snd (Database.delete_account account_id d))
     = Database.accounts d
  /\ api_delete_account account_id d = (Http404, d).
Proof.
  intros H. split; [reflexivity|]. split.
  - simpl. apply find_none_filter_negb. exact H.
  - unfold api_delete_account. rewrite H. reflexivity.
Qed.

Lemma delete_account_missing_id_witness :
  Database.get_account_by_id 7 Database.empty = None
  /\ fst (Database.delete_account 7 Database.empty) = Ok tt
  /\ api_delete_account 7 Database.empty = (Http404, Database.empty).
Proof.
  split; [reflexivity|].
  destruct (delete_account_missing_id 7 Database.empty eq_refl)
    as (H1 & _ & H3).
  split; assumption.
Defined.

Lemma filter_filter_comm {A : Type} (f g : A -> bool) (l : list A) :
  filter f (filter g l) = filter g (filter f l).
Proof.
  induction l as [|x l IH]; simpl; [reflexivity|].
  destruct (f x) eqn:F, (g x) eqn:G; simpl; rewrite ?F, ?G, IH; reflexivity.
Qed.

Lemma filter_filter_absorb {A : Type} (f g : A -> bool) (l : list A) :
  (forall x, In x l -> f x = true -> g x = true) ->
  filter f (filter g l) = filter f l.
Proof.
  induction l as [|x l IH]; simpl; intros H; [reflexivity|].
  destruct (g x) eqn:G; simpl.
  - destruct (f x); rewrite IH; auto.
  - destruct (f x) eqn:F.
    + rewrite (H x (or_introl eq_refl) F) in G. discriminate.
    + apply IH. auto.
Qed.

Lemma NoDup_map_inj {A B : Type} (f : A -> B) (l : list A) (x y : A) :
  NoDup (map f l) -> In x l -> In y l -> f x = f y -> x = y.
Proof.
  induction l as [|a l IH]; simpl; [tauto|].
  intros Hnd Hx Hy E. inversion Hnd as [|? ? Hn Hnd']; subst.
  destruct Hx as [->|Hx], Hy as [->|Hy]; auto.
  - exfalso. apply Hn. rewrite E. apply in_map. exact Hy.
  - exfalso. apply Hn. rewrite <- E. apply in_map. exact Hx.
Qed.

Lemma existsb_post_ids (account_id : Z) (d : Database.t) (m : PostMetrics.t) :
  existsb (sql_eq_int (PostMetrics.post_id m))
    (map Post.id
       (filter (fun p => sql_eq_int (Post.account_id p) (Some account_id))
          (Database.posts d))) = true
  <-> references_post_of account_id d m.
Proof.
  rewrite existsb_exists. split.
  - intros (x & Hin & Heq). apply in_map_iff in Hin.
    destruct Hin as (p & <- & Hp). apply filter_In in Hp.
    destruct Hp as [Hp Ho]. apply sql_eq_int_some in Ho.
    apply sql_eq_int_true in Heq. destruct Heq as (i & Hm & Hi).
    exists p, i. auto.
  - intros (p & i & Hin & Ho & Hi & Hm). exists (Some i). split.
    + rewrite <- Hi. apply in_map. apply filter_In. split; [exact Hin|].
      apply sql_eq_int_some. exact Ho.
    + rewrite Hm. simpl. apply Z.eqb_refl.
Qed.

(** C6 (cascade delete with frame condition): [delete_account A] removes
    the account row of [A], the posts whose [account_id] is [A], the
    snapshots that reference one of those posts and the account snapshots
    of [A]; a row stays exactly when it is none of these, and for every
    other account [B] the account row, the posts, the account snapshots and
    (post ids being unique) the snapshots of each of its posts are the
    lists they were. *)
Theorem delete_account_cascade_frame (A : Z) (d : Database.t) :
  let d' := snd (Database.delete_account A d) in
  fst (Database.delete_account A d) = Ok tt
  /\ Database.get_account_by_id A d' = None
  /\ (forall r, In r (Database.accounts d')
                <-> In r (Database.accounts d) /\ Account.id r <> Some A)
  /\ (forall p, In p (Database.posts d')
                <-> In p (Database.posts d) /\ Post.account_id p <> Some A)
  /\ (forall m, In m (Database.post_metrics d')
                <-> In m (Database.post_metrics d)
                    /\ ~ references_post_of A d m)
  /\ (forall m, In m (Database.account_metrics d')
                <-> In m (Database.account_metrics d)
                    /\ AccountMetrics.account_id m <> Some A)
  /\ (forall B, B <> A ->
        Database.get_account_by_id B d' = Database.get_account_by_id B d
        /\ filter (fun p => sql_eq_int (Post.account_id p) (Some B))
                  (Database.posts d')
           = filter (fun p => sql_eq_int (Post.account_id p) (Some B))
                    (Database.posts d)
        /\ filter (fun m => sql_eq_int (AccountMetrics.account_id m) (Some B))
                  (Database.account_metrics d')
           = filter (fun m => sql_eq_int (AccountMetrics.account_id m)
                                         (Some B))
                    (Database.account_metrics d)
        /\ (NoDup (map Post.id (Database.posts d)) ->
            forall p i, In p (Database.posts d) ->
                        Post.account_id p = Some B -> Post.id p = Some i ->
                        Resolver.snapshots_of i d' = Resolver.snapshots_of i d)).
Proof.
  cbn zeta. split; [reflexivity|]. simpl.
  split; [apply find_filter_negb|].
  split; [|split; [|split; [|split]]].
  - intros r. rewrite filter_In, negb_true_iff, sql_eq_int_some_false.
    tauto.
  - intros p. rewrite filter_In, negb_true_iff, sql_eq_int_some_false.
    tauto.
  - intros m. rewrite filter_In, negb_true_iff.
    rewrite <- (existsb_post_ids A d m).
    destruct (existsb _ _); split; intros [? ?]; split; auto; congruence.
  - intros m. rewrite filter_In, negb_true_iff, sql_eq_int_some_false.
    tauto.
  - intros B HB. split; [|split; [|split]].
    + unfold Database.get_account_by_id. simpl.
      induction (Database.accounts d) as [|r rows IH]; simpl; [reflexivity|].
      destruct (sql_eq_int (Account.id r) (Some A)) eqn:EA; simpl.
      * apply sql_eq_int_some in EA.
        destruct (sql_eq_int (Account.id r) (Some B)) eqn:EB; [|exact IH].
        apply sql_eq_int_some in EB. congruence.
      * destruct (sql_eq_int (Account.id r) (Some B)); [reflexivity|exact IH].
    + apply filter_filter_absorb. intros p _ Hp. apply sql_eq_int_some in Hp.
      apply negb_true_iff, sql_eq_int_some_false. congruence.
    + apply filter_filter_absorb. intros m _ Hm. apply sql_eq_int_some in Hm.
      apply negb_true_iff, sql_eq_int_some_false. congruence.
    + intros Hnd p i Hin Hacc Hid. unfold Resolver.snapshots_of. simpl.
      apply filter_filter_absorb. intros m _ Hm.
      apply sql_eq_int_some in Hm. apply negb_true_iff.
      destruct (existsb _ _) eqn:E; [|reflexivity]. exfalso.
      apply existsb_post_ids in E.
      destruct E as (q & j & Hq & Hqa & Hqi & Hmj).
      assert (j = i) by congruence. subst j.
      assert (p = q)
        by (eapply NoDup_map_inj; eauto; congruence).
      subst q. congruence.
Qed.

Lemma delete_account_cascade_frame_witness :
  Database.get_account_by_id 1 (snd (Database.delete_account 1 sample_db))
    = None
  /\ Database.get_account_by_id 2 (snd (Database.delete_account 1 sample_db))
     = Database.get_account_by_id 2 sample_db
  /\ Resolver.snapshots_of 2 (snd (Database.delete_account 1 sample_db))
     = Resolver.snapshots_of 2 sample_db.
Proof.
  destruct (delete_account_cascade_frame 1 sample_db)
    as (_ & H1 & _ & _ & _ & _ & H).
  split; [exact H1|].
  destruct (H 2) as (K1 & _ & _ & K4); [lia|].
  split; [exact K1|].
  apply (K4 ltac:(vm_compute; repeat constructor; simpl; intuition congruence)
            (Post.set_id (Some 2)
               (Post.mk None (Some 2) "instagram" (Some "p2"%string) "image"
                  EmptyString "2024-01-01T08:00:00" EmptyString EmptyString
                  "2024-01-01T09:00:03")) 2).
  - vm_compute. auto.
  - reflexivity.
  - reflexivity.
Defined.

(** ** Upserting a post *)


Lemma existsb_false_filter {A : Type} (f : A -> bool) (l : list A) :
  existsb f l = false -> filter f l = [].
Proof.
  induction l as [|y l IH]; simpl; [reflexivity|].
  destruct (f y); simpl; [discriminate|exact IH].
Qed.

Lemma post_key_true (platform : string) (post_id : option string)
    (r : Post.t) :
  Database.post_key platform post_id r = true
  <-> Post.platform r = platform
      /\ exists s, Post.post_id r = Some s /\ post_id = Some s.
Proof.
  unfold Database.post_key.
  rewrite andb_true_iff, String.eqb_eq, sql_eq_text_true. tauto.
Qed.

Lemma posts_wf_empty : posts_wf Database.empty.
Proof.
  split; simpl; [tauto|]. intros. lia.
Qed.



Lemma add_post_db (now : string) (post : Post.t) (d : Database.t) :
  snd (Database.add_post now post d)
  = fst (Database.insert_or_ignore_post now post d).
Proof.
  unfold Database.add_post.
  destruct (Database.insert_or_ignore_post now post d) as [d' l].
  destruct (l =? 0); [|reflexivity].
  destruct (find _ _) as [r|]; [destruct (Post.id r)|]; reflexivity.
Qed.

Lemma add_post_posts_wf (now : string) (post : Post.t) (d : Database.t) :
  posts_wf d -> posts_wf (snd (Database.add_post now post d)).
Proof.
  intros [Hid Huniq]. rewrite add_post_db.
  unfold Database.insert_or_ignore_post.
  destruct (is_null (Post.account_id post) || is_null (Post.post_id post)
            || existsb (Database.post_key (Post.platform post)
                          (Post.post_id post)) (Database.posts d)) eqn:E;
    [split; assumption|].
  apply orb_false_iff in E. destruct E as [_ E].
  cbn [Database.posts Database.set_posts fst]. split.
  - intros r' Hin. apply in_app_or in Hin.
    destruct Hin as [Hin|[<-|[]]]; [auto|simpl; eauto].
  - intros platform post_id. cbn [Database.posts Database.set_posts fst].
    rewrite filter_app, length_app. simpl.
    destruct (Database.post_key platform post_id _) eqn:K; simpl;
      [|specialize (Huniq platform post_id); lia].
    apply post_key_true in K. simpl in K.
    destruct K as (<- & s & Hs & ->). rewrite <- Hs.
    rewrite (existsb_false_filter _ _ E). simpl. lia.
Qed.




(** ** The collection orchestrator *)

Ltac unfold_m :=
  unfold BaseCollector.call_fetch_account_info,
    BaseCollector.call_fetch_account_posts, Db.get_account, Db.add_account,
    Db.update_account, Db.add_account_metrics, Db.add_post,
    Db.add_post_metrics, bind, ret, log_call, lift_outcome, datetime_now,
    set_db in *.

(** When the account-info fetch returns nothing or raises,
    [collect_account] stops before its first access to the store. *)
Lemma collect_account_no_info (self : BaseCollector.t) (username : string)
    (w : World) :
  (exists a, BaseCollector.fetch_account_info self username = Ok a
             /\ BaseCollector.no_account_data a = true)
  \/ (exists e, BaseCollector.fetch_account_info self username = Raise e) ->
  (fst (BaseCollector.collect_account self username w) = Ok None
   \/ exists e, fst (BaseCollector.collect_account self username w)
                = Raise e)
  /\ db (snd (BaseCollector.collect_account self username w)) = db w
  /\ ticks (snd (BaseCollector.collect_account self username w)) = ticks w.
Proof.
  intros [(a & Ha & Hno)|(e & He)]; unfold BaseCollector.collect_account;
    unfold_m; cbn [fst snd db ticks].
  - rewrite Ha. destruct a as [data|]; simpl in *.
    + rewrite Hno. simpl. auto.
    + auto.
  - rewrite He. simpl. eauto.
Qed.

(** C4 (step-1 failure atomicity): when the account-info fetch returns
    nothing (None or an empty dictionary) or raises, [collect_all] reports
    no success, no account and no post, [run_collection] records the status
    failed, and the store (accounts, posts, post_metrics, account_metrics
    and their sequences) is exactly the store before the attempt. *)
Theorem collect_all_step1_failure (self : BaseCollector.t)
    (username : string) (post_limit : Z) (w : World) :
  (exists a, BaseCollector.fetch_account_info self username = Ok a
             /\ BaseCollector.no_account_data a = true)
  \/ (exists e, BaseCollector.fetch_account_info self username = Raise e) ->
  let result := fst (BaseCollector.collect_all self username post_limit w) in
  let w' := snd (BaseCollector.collect_all self username post_limit w) in
  let task := run_collection self username post_limit w in
  CollectResult.success result = false
  /\ CollectResult.account result = None
  /\ CollectResult.posts result = []
  /\ db w' = db w
  /\ TaskStatus.status (fst task) = failed
  /\ db (snd task) = db w.
Proof.
  intros H. cbn zeta.
  assert (K : forall w0,
             CollectResult.success
               (fst (BaseCollector.collect_all self username post_limit w0))
             = false
             /\ CollectResult.account
                  (fst (BaseCollector.collect_all self username post_limit w0))
                = None
             /\ CollectResult.posts
                  (fst (BaseCollector.collect_all self username post_limit w0))
                = []
             /\ db (snd (BaseCollector.collect_all self username post_limit
                           w0)) = db w0).
  { intros w0.
    destruct (collect_account_no_info self username w0 H) as (Ho & Hdb & _).
    unfold BaseCollector.collect_all.
    destruct (BaseCollector.collect_account self username w0) as [o w1].
    simpl in *. destruct Ho as [->|(e & ->)]; simpl; auto. }
  destruct (K w) as (K1 & K2 & K3 & K4).
  repeat (split; [assumption|]).
  unfold run_collection. simpl.
  match goal with
  | |- context [BaseCollector.collect_all self username post_limit ?w0] =>
      destruct (K w0) as (L1 & _ & _ & L4);
      destruct (BaseCollector.collect_all self username post_limit w0)
        as [result w1]
  end.
  simpl in *. rewrite L1. simpl. auto.
Qed.



(** *** The loop over the fetched posts *)




(** *** The account step *)


(** *** The whole attempt *)


Section Attempt.

Variables (self : BaseCollector.t) (username : string) (post_limit : Z).
Variable data : AccountData.t.
Hypothesis account_info :
  BaseCollector.fetch_account_info self username = Ok (Some data).
Hypothesis account_info_not_empty : AccountData.is_empty data = false.



End Attempt.

(** *** What [collect_posts] appends *)

Lemma add_post_raise (now : string) (post : Post.t) (d d1 : Database.t)
    (e : Exn) :
  Database.add_post now post d = (Raise e, d1) -> d1 = d.
Proof.
  unfold Database.add_post, Database.insert_or_ignore_post.
  destruct (_ || _).
  - cbn [Z.eqb]. destruct (find _ _) as [r|]; [destruct (Post.id r)|];
      intros H; inversion H; reflexivity.
  - destruct (_ =? 0) eqn:E; [|discriminate].
    apply Z.eqb_eq in E.
    pose proof (next_rowid_pos Post.id (Database.seq_posts d)
                  (Database.posts d)). lia.
Qed.

Lemma add_post_result (now : string) (post : Post.t) (d d1 : Database.t)
    (i : Z) :
  Database.add_post now post d = (Ok i, d1) ->
  (exists p, In p (Database.posts d1) /\ Post.id p = Some i)
  /\ (forall p, In p (Database.posts d) -> In p (Database.posts d1))
  /\ (forall p, In p (Database.posts d1) ->
                In p (Database.posts d)
                \/ Post.account_id p = Post.account_id post)
  /\ Database.accounts d1 = Database.accounts d
  /\ Database.post_metrics d1 = Database.post_metrics d.
Proof.
  unfold Database.add_post, Database.insert_or_ignore_post.
  destruct (_ || _).
  - cbn [Z.eqb].
    destruct (find _ _) as [r|] eqn:F; [destruct (Post.id r) eqn:Hr|];
      intros H; inversion H; subst.
    split; [exists r; split; [apply (find_some _ _ F)|assumption]|].
    auto.
  - destruct (_ =? 0) eqn:E.
    { apply Z.eqb_eq in E.
      pose proof (next_rowid_pos Post.id (Database.seq_posts d)
                    (Database.posts d)). lia. }
    intros H. inversion H. subst.
    cbn [Database.posts Database.accounts Database.post_metrics
         Database.set_posts].
    split; [|split; [|split]].
    + eexists. split; [apply in_or_app; right; left; reflexivity|].
      reflexivity.
    + intros p Hp. apply in_or_app. auto.
    + intros p Hp. apply in_app_or in Hp.
      destruct Hp as [Hp|[<-|[]]]; auto.
    + auto.
Qed.

Lemma collect_posts_loop_appends (self : BaseCollector.t)
    (stored : Account.t) (now : string) (posts_data : list PostData.t) :
  forall (posts : list Post.t) (w : World),
    fk_posts (db w) ->
    In stored (Database.accounts (db w)) ->
    let w' := snd (BaseCollector.collect_posts_loop self stored now
                     posts_data posts w) in
    Database.accounts (db w') = Database.accounts (db w)
    /\ fk_posts (db w')
    /\ (forall p, In p (Database.posts (db w)) ->
                  In p (Database.posts (db w')))
    /\ exists new,
         Database.post_metrics (db w')
         = Database.post_metrics (db w) ++ new
         /\ Forall (snapshot_owned (db w')) new.
Proof.
  induction posts_data as [|pd l IH]; intros posts w Hfk Hst; cbn zeta.
  - simpl. split; [reflexivity|]. split; [assumption|]. split; [auto|].
    exists []. rewrite app_nil_r. auto.
  - cbn [BaseCollector.collect_posts_loop]. unfold bind at 1.
    unfold Db.add_post at 1. unfold_m. cbn [db time ticks calls].
    match goal with
    | |- context [Database.add_post ?t ?p (db w)] =>
        destruct (Database.add_post t p (db w)) as [[i|e] d1] eqn:E1
    end.
    + destruct (add_post_result _ _ _ E1)
        as ((p & Hp & Hpi) & Hmono & Hnew & Hacc & Hpm).
      cbn [Post.set_id Post.id]. unfold Database.add_post_metrics.
      cbn [PostMetrics.post_id is_null db time ticks calls].
      assert (Hfk1 : fk_posts d1).
      { intros q Hq. rewrite Hacc. destruct (Hnew q Hq) as [Hq'|Hq'].
        - apply Hfk. exact Hq'.
        - exists stored. split; [exact Hst|]. rewrite Hq'. reflexivity. }
      match goal with
      | |- context [BaseCollector.collect_posts_loop self stored now l ?ps
                      ?w2] =>
          specialize (IH ps w2); cbn zeta in IH;
          destruct IH as (A1 & A2 & A3 & new & A4 & A5)
      end.
      { exact Hfk1. }
      { cbn [db Database.accounts Database.set_post_metrics].
        rewrite Hacc. exact Hst. }
      cbn [db Database.accounts Database.posts Database.post_metrics
           Database.set_post_metrics] in A1, A3, A4.
      split; [congruence|]. split; [exact A2|].
      split; [auto|].
      eexists (_ :: new). split.
      * rewrite A4, Hpm, <- app_assoc. reflexivity.
      * constructor; [|exact A5].
        destruct (Hfk1 p Hp) as (a & Ha & Hpa).
        exists p, a, i. repeat split; auto. congruence.
    + apply add_post_raise in E1. subst d1. simpl.
      split; [reflexivity|]. split; [assumption|]. split; [auto|].
      exists []. rewrite app_nil_r. auto.
Qed.







Lemma collect_all_step1_failure_witness :
  TaskStatus.status (fst (run_collection silent_collector "bob" 20
                            sample_world)) = failed
  /\ db (snd (run_collection silent_collector "bob" 20 sample_world))
     = db sample_world.
Proof.
  destruct (@collect_all_step1_failure silent_collector "bob" 20
              sample_world) as (_ & _ & _ & _ & H5 & H6).
  - left. exists None. split; reflexivity.
  - split; assumption.
Defined.

(** C10 (the missing-account guard of [collect_posts]): when the store
    holds no account row for the platform of the collector and the
    username, [collect_posts] returns the empty list and the world is the
    world before the call: no table is written, the clock is not read and
    no request goes to the collaborator.  Therefore, in a store whose posts
    all have a stored owner, whatever [collect_posts] appends to
    [post_metrics] is a snapshot of a stored post with a stored owner, and
    it appends something only when the account row exists. *)
Theorem collect_posts_requires_account (self : BaseCollector.t)
    (username : string) (limit : Z) (w : World) :
  (Database.get_account (BaseCollector.platform self) username (db w)
     = None ->
   BaseCollector.collect_posts self username limit w = (Ok [], w))
  /\ (fk_posts (db w) ->
      let w' := snd (BaseCollector.collect_posts self username limit w) in
      exists new,
        Database.post_metrics (db w') = Database.post_metrics (db w) ++ new
        /\ Forall (snapshot_owned (db w')) new
        /\ (new <> [] ->
            exists account,
              Database.get_account (BaseCollector.platform self) username
                (db w) = Some account)).
Proof.
  split.
  - intros H. unfold BaseCollector.collect_posts. unfold_m. rewrite H.
    reflexivity.
  - intros Hfk. cbn zeta. unfold BaseCollector.collect_posts. unfold_m.
    destruct (Database.get_account (BaseCollector.platform self) username
                (db w)) as [stored|] eqn:Hget.
    + cbn [db time ticks calls].
      destruct (BaseCollector.fetch_account_posts self username limit)
        as [[|pd l]|e]; cbn [snd db time ticks calls].
      * exists []. rewrite app_nil_r. split; [reflexivity|].
        split; [constructor|]. intros H. congruence.
      * match goal with
        | |- context [BaseCollector.collect_posts_loop self stored ?now
                        (pd :: l) [] ?w0] =>
            destruct (@collect_posts_loop_appends self stored now (pd :: l)
                        [] w0 Hfk) as (_ & _ & _ & new & H1 & H2)
        end.
        { cbn [db]. unfold Database.get_account in Hget.
          apply (find_some _ _ Hget). }
        exists new. cbn [db] in H1. split; [exact H1|].
        split; [exact H2|]. eauto.
      * exists []. rewrite app_nil_r. split; [reflexivity|].
        split; [constructor|]. intros H. congruence.
    + cbn [snd]. exists []. rewrite app_nil_r. split; [reflexivity|].
      split; [constructor|]. intros H. congruence.
Qed.

Lemma collect_posts_requires_account_witness :
  Database.get_account "instagram" "carol" (db sample_world) = None
  /\ BaseCollector.collect_posts sample_collector "carol" 20 sample_world
     = (Ok [], sample_world).
Proof.
  split; [reflexivity|].
  apply (proj1 (collect_posts_requires_account sample_collector "carol" 20
                  sample_world)).
  reflexivity.
Defined.

(** ** ORDER BY *)

Lemma string_leb_iff (a b : string) :
  String.leb a b = true <-> String_as_OT.lt a b \/ a = b.
Proof.
  unfold String.leb.
  rewrite <- String_as_OT.cmp_lt, <- String_as_OT.cmp_eq.
  unfold String_as_OT.cmp.
  destruct (String.compare a b); split; intros H; auto; try discriminate;
    destruct H; discriminate.
Qed.

Lemma string_leb_refl (a : string) : String.leb a a = true.
Proof. apply string_leb_iff. auto. Qed.

Lemma string_leb_trans (a b c : string) :
  String.leb a b = true -> String.leb b c = true -> String.leb a c = true.
Proof.
  rewrite !string_leb_iff. intros [H1| ->] [H2| ->]; auto.
  left. eapply String_as_OT.lt_trans; eauto.
Qed.

Lemma string_leb_antisym (a b : string) :
  String.leb a b = true -> String.leb b a = true -> a = b.
Proof.
  rewrite !string_leb_iff. intros [H1|H1] [H2|H2]; auto.
  exfalso. apply (@String_as_OT.lt_not_eq a a);
    [eapply String_as_OT.lt_trans; eauto|reflexivity].
Qed.

Lemma insert_desc_perm {A : Type} (key : A -> string) (x : A) (l : list A) :
  Permutation (insert_desc key x l) (x :: l).
Proof.
  induction l as [|y l IH]; simpl; [reflexivity|].
  destruct (String.leb (key y) (key x)); [reflexivity|].
  rewrite IH. apply perm_swap.
Qed.

Lemma insert_desc_sorted {A : Type} (key : A -> string) (x : A)
    (l : list A) :
  StronglySorted (desc key) l -> StronglySorted (desc key) (insert_desc key x l).
Proof.
  induction 1 as [|y l Hs IH Hy]; simpl.
  - repeat constructor.
  - destruct (String.leb (key y) (key x)) eqn:E.
    + constructor; [constructor; assumption|].
      constructor; [exact E|].
      rewrite Forall_forall in *. intros z Hz. unfold desc in *.
      eapply string_leb_trans; [apply Hy, Hz|exact E].
    + constructor; [exact IH|].
      rewrite Forall_forall in *. intros z Hz.
      apply (Permutation_in _ (insert_desc_perm key x l)) in Hz.
      destruct Hz as [<-|Hz]; [|auto].
      unfold desc. destruct (String.leb_total (key y) (key x)); congruence.
Qed.

Lemma sort_by_desc_ok : sorter_ok sort_by_desc.
Proof.
  intros A key l. unfold sort_by_desc. induction l as [|x l [IHp IHs]].
  - simpl. split; constructor.
  - simpl. split.
    + rewrite insert_desc_perm. constructor. exact IHp.
    + apply insert_desc_sorted. exact IHs.
Qed.

(** ** The latest snapshot *)

Lemma unique_latest_in (pid : Z) (d : Database.t) (m : PostMetrics.t) :
  unique_latest pid d m -> In m (Resolver.snapshots_of pid d).
Proof.
  unfold unique_latest. intros H.
  assert (K : In m [m]) by (left; reflexivity).
  rewrite <- H in K. apply filter_In in K. tauto.
Qed.

Lemma unique_latest_max (pid : Z) (d : Database.t) (m m' : PostMetrics.t) :
  unique_latest pid d m -> In m' (Resolver.snapshots_of pid d) ->
  String.leb (PostMetrics.collected_at m') (PostMetrics.collected_at m)
  = true.
Proof.
  unfold unique_latest. intros H Hin.
  destruct (String.leb (PostMetrics.collected_at m)
              (PostMetrics.collected_at m')) eqn:E.
  - assert (K : In m' [m]) by (rewrite <- H; apply filter_In; auto).
    destruct K as [<-|[]]. apply string_leb_refl.
  - destruct (String.leb_total (PostMetrics.collected_at m)
                (PostMetrics.collected_at m')); congruence.
Qed.

Lemma unique_latest_only (pid : Z) (d : Database.t) (m m' : PostMetrics.t) :
  unique_latest pid d m -> In m' (Resolver.snapshots_of pid d) ->
  String.leb (PostMetrics.collected_at m) (PostMetrics.collected_at m')
  = true ->
  m' = m.
Proof.
  unfold unique_latest. intros H Hin E.
  assert (K : In m' [m]) by (rewrite <- H; apply filter_In; auto).
  destruct K as [<-|[]]. reflexivity.
Qed.

(** The single form: the head of any sorted permutation is a snapshot of
    the post with the greatest [collected_at]. *)
Lemma get_latest_post_metrics_max (order_by_desc : Sorter) (pid : Z)
    (d : Database.t) (m : PostMetrics.t) :
  sorter_ok order_by_desc ->
  In m (Resolver.snapshots_of pid d) ->
  exists r,
    Resolver.get_latest_post_metrics order_by_desc pid d = Some r
    /\ In r (Resolver.snapshots_of pid d)
    /\ forall m', In m' (Resolver.snapshots_of pid d) ->
                  String.leb (PostMetrics.collected_at m')
                             (PostMetrics.collected_at r) = true.
Proof.
  intros Hok Hin. unfold Resolver.get_latest_post_metrics.
  destruct (Hok _ PostMetrics.collected_at (Resolver.snapshots_of pid d))
    as [Hperm Hsorted].
  destruct (order_by_desc _ PostMetrics.collected_at
              (Resolver.snapshots_of pid d)) as [|x rest] eqn:E.
  - apply Permutation_nil in Hperm.
    rewrite Hperm in Hin. destruct Hin.
  - exists x. split; [reflexivity|]. split.
    + apply (Permutation_in _ Hperm). left. reflexivity.
    + intros m' Hm'. apply (Permutation_in _ (Permutation_sym Hperm)) in Hm'.
      destruct Hm' as [<-|Hm']; [apply string_leb_refl|].
      inversion Hsorted as [|? ? _ Hall]; subst.
      rewrite Forall_forall in Hall. apply Hall. exact Hm'.
Qed.

Lemma get_latest_post_metrics_unique (order_by_desc : Sorter) (pid : Z)
    (d : Database.t) (m : PostMetrics.t) :
  sorter_ok order_by_desc ->
  unique_latest pid d m ->
  Resolver.get_latest_post_metrics order_by_desc pid d = Some m.
Proof.
  intros Hok Hu.
  destruct (@get_latest_post_metrics_max order_by_desc pid d m Hok
              (@unique_latest_in pid d m Hu))
    as (r & E & Hr & Hmax).
  rewrite E. f_equal.
  apply (@unique_latest_only pid d m r Hu Hr). apply Hmax.
  apply (@unique_latest_in pid d m Hu).
Qed.

(** *** MAX(collected_at) GROUP BY post_id *)

Lemma fold_left_text_max_in (l : list string) (x : string) :
  In (fold_left text_max l x) (x :: l).
Proof.
  revert x. induction l as [|y l IH]; intros x; simpl; [auto|].
  destruct (IH (text_max x y)) as [H|H]; [|auto].
  rewrite <- H. unfold text_max. destruct (String.leb x y); auto.
Qed.

Lemma fold_left_text_max_ge (l : list string) (x y : string) :
  In y (x :: l) -> String.leb y (fold_left text_max l x) = true.
Proof.
  revert x y. induction l as [|z l IH]; intros x y; simpl.
  - intros [<-|[]]. apply string_leb_refl.
  - intros H.
    assert (Hx : String.leb x (text_max x z) = true).
    { unfold text_max. destruct (String.leb x z) eqn:E;
        [exact E|apply string_leb_refl]. }
    assert (Hz : String.leb z (text_max x z) = true).
    { unfold text_max. destruct (String.leb x z) eqn:E;
        [apply string_leb_refl|].
      destruct (String.leb_total x z); congruence. }
    destruct H as [<-|[<-|H]].
    + eapply string_leb_trans; [exact Hx|]. apply IH. left. reflexivity.
    + eapply string_leb_trans; [exact Hz|]. apply IH. left. reflexivity.
    + apply IH. right. exact H.
Qed.

Lemma max_text_is_max (l : list string) (t : string) :
  In t l -> (forall y, In y l -> String.leb y t = true) ->
  max_text l = Some t.
Proof.
  destruct l as [|x l]; [intros []|]. intros Hin Hmax. simpl. f_equal.
  apply string_leb_antisym.
  - apply Hmax. apply fold_left_text_max_in.
  - apply fold_left_text_max_ge. exact Hin.
Qed.

Lemma group_filter_eq (pid : Z) (pms : list PostMetrics.t) :
  filter (fun m => if option_Z_eq_dec (PostMetrics.post_id m) (Some pid)
                   then true else false) pms
  = filter (fun m => sql_eq_int (PostMetrics.post_id m) (Some pid)) pms.
Proof.
  apply filter_ext. intros m.
  destruct (option_Z_eq_dec (PostMetrics.post_id m) (Some pid)) as [E|E].
  - symmetry. apply sql_eq_int_some. exact E.
  - symmetry. apply sql_eq_int_some_false. exact E.
Qed.

Lemma filter_nodup_one (l : list (option Z)) (pid : Z) :
  NoDup l -> In (Some pid) l ->
  filter (fun g' => sql_eq_int (Some pid) g') l = [Some pid].
Proof.
  induction 1 as [|x l Hx Hnd IH]; cbn [filter In]; [tauto|].
  intros [->|Hin].
  - replace (sql_eq_int (Some pid) (Some pid)) with true
      by (symmetry; apply sql_eq_int_some; reflexivity).
    f_equal. apply existsb_false_filter.
    destruct (existsb (fun g' => sql_eq_int (Some pid) g') l) eqn:E;
      [|reflexivity].
    apply existsb_exists in E. destruct E as (y & Hy & Hy').
    apply sql_eq_int_true in Hy'. destruct Hy' as (z & Hz & ->).
    inversion Hz. subst. contradiction.
  - destruct (sql_eq_int (Some pid) x) eqn:E.
    + apply sql_eq_int_true in E. destruct E as (z & Hz & ->).
      inversion Hz. subst. contradiction.
    + auto.
Qed.

Lemma latest_entry (pid : Z) (d : Database.t) (m : PostMetrics.t)
    (p : Post.t) :
  unique_latest pid d m -> Post.id p = Some pid ->
  filter (Resolver.on_latest p) (Resolver.latest d)
  = [(Some pid, Some (PostMetrics.collected_at m))].
Proof.
  intros Hu Hp. unfold Resolver.latest, Resolver.on_latest. rewrite Hp.
  set (F := fun g : option Z => (g, _)).
  assert (Hf : forall l, filter (fun l0 => sql_eq_int (Some pid) (fst l0))
                           (map F l)
                         = map F (filter (fun g => sql_eq_int (Some pid) g)
                                         l)).
  { induction l as [|g l IH]; cbn [map filter fst]; [reflexivity|].
    unfold F at 1. cbn [fst].
    destruct (sql_eq_int (Some pid) g); cbn [map]; rewrite IH;
      reflexivity. }
  rewrite Hf. rewrite filter_nodup_one.
  - simpl. unfold F. f_equal. f_equal. rewrite group_filter_eq.
    apply max_text_is_max.
    + apply in_map. apply (@unique_latest_in pid d m Hu).
    + intros y Hy. apply in_map_iff in Hy. destruct Hy as (m' & <- & Hm').
      apply (@unique_latest_max pid d m m' Hu Hm').
  - apply NoDup_nodup.
  - apply nodup_In. pose proof (@unique_latest_in pid d m Hu) as Hin.
    unfold Resolver.snapshots_of in Hin. apply filter_In in Hin.
    destruct Hin as [Hin E]. apply sql_eq_int_some in E. rewrite <- E.
    apply in_map. exact Hin.
Qed.

(** *** The three LEFT JOINs *)

Lemma left_join_app {A B : Type} (on : A -> B -> bool) (l1 l2 : list A)
    (r : list B) :
  left_join on (l1 ++ l2) r = left_join on l1 r ++ left_join on l2 r.
Proof. unfold left_join. apply flat_map_app. Qed.

Lemma left_join_fst {A B : Type} (on : A -> B -> bool) (l : list A)
    (r : list B) (x : A * option B) :
  In x (left_join on l r) -> In (fst x) l.
Proof.
  unfold left_join. rewrite in_flat_map. intros (a & Ha & Hx).
  destruct (filter (on a) r) as [|b ms].
  - destruct Hx as [<-|[]]. exact Ha.
  - apply in_map_iff in Hx. destruct Hx as (b' & <- & _). exact Ha.
Qed.

Lemma joined_rows_app (account_id : option Z) (platform : option string)
    (d : Database.t) (ps1 ps2 : list Post.t) :
  Resolver.joined_rows account_id platform d (ps1 ++ ps2)
  = Resolver.joined_rows account_id platform d ps1
    ++ Resolver.joined_rows account_id platform d ps2.
Proof.
  unfold Resolver.joined_rows.
  rewrite !left_join_app, filter_app, map_app. reflexivity.
Qed.

Lemma joined_rows_post (account_id : option Z) (platform : option string)
    (d : Database.t) (ps : list Post.t) (r : LatestRow.t) :
  In r (Resolver.joined_rows account_id platform d ps) ->
  In (LatestRow.post r) ps.
Proof.
  unfold Resolver.joined_rows. rewrite in_map_iff.
  intros (j & <- & Hj). apply filter_In in Hj. destruct Hj as [Hj _].
  cbn [LatestRow.post LatestRow.of_join].
  apply left_join_fst in Hj. apply left_join_fst in Hj.
  apply left_join_fst in Hj. exact Hj.
Qed.

Lemma rows_of_other (account_id : option Z) (platform : option string)
    (d : Database.t) (ps : list Post.t) (pid : Z) :
  (forall p, In p ps -> Post.id p <> Some pid) ->
  Resolver.rows_of pid (Resolver.joined_rows account_id platform d ps) = [].
Proof.
  intros H. unfold Resolver.rows_of.
  apply existsb_false_filter.
  destruct (existsb _ _) eqn:E; [|reflexivity].
  apply existsb_exists in E. destruct E as (r & Hr & Hid).
  apply sql_eq_int_some in Hid. apply joined_rows_post in Hr.
  destruct (H _ Hr Hid).
Qed.

Lemma rows_of_joined (account_id : option Z) (platform : option string)
    (d : Database.t) (pid : Z) (p : Post.t) (ps : list Post.t) :
  NoDup (map Post.id ps) -> In p ps -> Post.id p = Some pid ->
  Resolver.rows_of pid (Resolver.joined_rows account_id platform d ps)
  = Resolver.rows_of pid (Resolver.joined_rows account_id platform d [p]).
Proof.
  intros Hnd Hin Hid. apply in_split in Hin.
  destruct Hin as (l1 & l2 & ->).
  change (l1 ++ p :: l2) with (l1 ++ [p] ++ l2).
  rewrite !joined_rows_app. unfold Resolver.rows_of at 1.
  rewrite !filter_app.
  fold (Resolver.rows_of pid (Resolver.joined_rows account_id platform d l1)).
  fold (Resolver.rows_of pid (Resolver.joined_rows account_id platform d l2)).
  fold (Resolver.rows_of pid
          (Resolver.joined_rows account_id platform d [p])).
  rewrite map_app in Hnd. cbn [map] in Hnd.
  apply NoDup_remove_2 in Hnd.
  rewrite (@rows_of_other account_id platform d l1 pid),
    (@rows_of_other account_id platform d l2 pid).
  - rewrite app_nil_r. reflexivity.
  - intros q Hq Hqid. apply Hnd.
    apply in_or_app. right. rewrite Hid, <- Hqid. apply in_map. exact Hq.
  - intros q Hq Hqid. apply Hnd.
    apply in_or_app. left. rewrite Hid, <- Hqid. apply in_map. exact Hq.
Qed.

Lemma filter_pk_le_1 {A : Type} (rid : A -> option Z) (c : option Z)
    (l : list A) :
  NoDup (map rid l) ->
  (List.length (filter (fun x => sql_eq_int c (rid x)) l) <= 1)%nat.
Proof.
  induction l as [|x l IH]; cbn [map filter]; intros Hnd; [simpl; lia|].
  inversion Hnd as [|? ? Hx Hnd']; subst.
  destruct (sql_eq_int c (rid x)) eqn:E; [|auto].
  apply sql_eq_int_true in E. destruct E as (z & -> & Hz).
  rewrite existsb_false_filter; [simpl; lia|].
  destruct (existsb _ l) eqn:E; [|reflexivity].
  apply existsb_exists in E. destruct E as (y & Hy & Hy').
  apply sql_eq_int_true in Hy'. destruct Hy' as (z' & Hz1 & Hz2).
  inversion Hz1. subst z'. exfalso. apply Hx. rewrite Hz, <- Hz2.
  apply in_map. exact Hy.
Qed.

Lemma filter_andb {A : Type} (f g : A -> bool) (l : list A) :
  filter (fun x => f x && g x) l = filter g (filter f l).
Proof.
  induction l as [|x l IH]; simpl; [reflexivity|].
  destruct (f x); simpl; [destruct (g x)|]; rewrite IH; reflexivity.
Qed.

Lemma joined_rows_unique (account_id : option Z) (platform : option string)
    (d : Database.t) (pid : Z) (p : Post.t) (m : PostMetrics.t) :
  NoDup (map Account.id (Database.accounts d)) ->
  unique_latest pid d m -> Post.id p = Some pid ->
  Resolver.where_clause account_id platform p = true ->
  exists row,
    Resolver.joined_rows account_id platform d [p] = [row]
    /\ LatestRow.post row = p
    /\ LatestRow.shows m row.
Proof.
  intros Hpk Hu Hid Hw. unfold Resolver.joined_rows.
  unfold left_join at 3. cbn [flat_map].
  rewrite (@latest_entry pid d m p Hu Hid). cbn [map app].
  unfold left_join at 2. cbn [flat_map].
  assert (Epm : filter (Resolver.on_pm
                          (p, Some (Some pid,
                                    Some (PostMetrics.collected_at m))))
                  (Database.post_metrics d) = [m]).
  { rewrite (@filter_ext _ _
               (fun pm => sql_eq_int (PostMetrics.post_id pm) (Some pid)
                          && String.eqb (PostMetrics.collected_at pm)
                                        (PostMetrics.collected_at m))).
    2:{ intros pm. unfold Resolver.on_pm. cbn [fst snd]. rewrite Hid.
        f_equal. destruct (PostMetrics.post_id pm); simpl;
          [apply Z.eqb_sym|reflexivity]. }
    rewrite (@filter_andb _
               (fun pm => sql_eq_int (PostMetrics.post_id pm) (Some pid))
               (fun pm => String.eqb (PostMetrics.collected_at pm)
                                     (PostMetrics.collected_at m))).
    fold (Resolver.snapshots_of pid d).
    rewrite <- (@filter_filter_absorb _ _
                  (fun m' => String.leb (PostMetrics.collected_at m)
                                        (PostMetrics.collected_at m'))).
    - unfold unique_latest in Hu. rewrite Hu. cbn [filter].
      rewrite String.eqb_refl. reflexivity.
    - intros x _ Hx. apply String.eqb_eq in Hx. rewrite Hx.
      apply string_leb_refl. }
  rewrite Epm. cbn [map app]. unfold left_join. cbn [flat_map].
  pose proof (@filter_pk_le_1 _ Account.id (Post.account_id p)
                (Database.accounts d) Hpk) as Hle.
  unfold Resolver.on_account at 1. cbn [fst].
  destruct (filter _ (Database.accounts d)) as [|a [|a' rest]];
    cbn [map app filter fst snd].
  - rewrite Hw. cbn [map]. eexists. split; [reflexivity|].
    split; [reflexivity|]. repeat split.
  - rewrite Hw. cbn [map]. eexists. split; [reflexivity|].
    split; [reflexivity|]. repeat split.
  - simpl in Hle. lia.
Qed.

(** *** ORDER BY published_at DESC LIMIT ? *)

Lemma Permutation_filter {A : Type} (f : A -> bool) (l1 l2 : list A) :
  Permutation l1 l2 -> Permutation (filter f l1) (filter f l2).
Proof.
  induction 1 as [|x l1 l2 _ IH|x y l|l1 l2 l3 _ IH1 _ IH2]; simpl.
  - constructor.
  - destruct (f x); [constructor|]; exact IH.
  - destruct (f x), (f y); try reflexivity. apply perm_swap.
  - etransitivity; eassumption.
Qed.

Lemma filter_firstn_incl {A : Type} (f : A -> bool) (n : nat) (l : list A)
    (x : A) :
  In x (filter f (firstn n l)) -> In x (filter f l).
Proof.
  rewrite !filter_In. intros [H1 H2]. split; [|exact H2].
  rewrite <- (firstn_skipn n l). apply in_or_app. auto.
Qed.

Lemma filter_firstn_length {A : Type} (f : A -> bool) (n : nat)
    (l : list A) :
  (List.length (filter f (firstn n l)) <= List.length (filter f l))%nat.
Proof.
  rewrite <- (firstn_skipn n l) at 2. rewrite filter_app, length_app. lia.
Qed.

(** C3, amended (latest-snapshot resolution without ties): for a stored
    post with at least one snapshot whose greatest [collected_at] is
    attained by one snapshot only, and for every way the engine orders rows
    with equal sort keys, the single form returns exactly that snapshot, and
    the bulk form returns at most one row for the post, which shows that
    snapshot, and exactly one when LIMIT does not cut the result. *)
Theorem latest_snapshot_unique_max (order_by_desc : Sorter)
    (d : Database.t) (pid : Z) (p : Post.t) (m : PostMetrics.t)
    (account_id : option Z) (platform : option string) (limit : Z) :
  sorter_ok order_by_desc ->
  NoDup (map Post.id (Database.posts d)) ->
  NoDup (map Account.id (Database.accounts d)) ->
  In p (Database.posts d) ->
  Post.id p = Some pid ->
  unique_latest pid d m ->
  Resolver.where_clause account_id platform p = true ->
  let rows :=
    Resolver.get_posts_with_latest_metrics order_by_desc account_id platform
      limit d in
  Resolver.get_latest_post_metrics order_by_desc pid d = Some m
  /\ (List.length (Resolver.rows_of pid rows) <= 1)%nat
  /\ (forall r, In r (Resolver.rows_of pid rows) ->
                LatestRow.post r = p /\ LatestRow.shows m r)
  /\ (limit < 0
      \/ Z.of_nat (List.length (Resolver.joined account_id platform d))
         <= limit ->
      exists row,
        Resolver.rows_of pid rows = [row]
        /\ LatestRow.post row = p
        /\ LatestRow.shows m row).
Proof.
  intros Hok Hposts Haccounts Hin Hid Hu Hw. cbn zeta.
  split; [apply get_latest_post_metrics_unique; assumption|].
  destruct (@joined_rows_unique account_id platform d pid p m Haccounts Hu
              Hid Hw) as (row & Hrow & Hrp & Hshows).
  assert (HJ : Resolver.rows_of pid (Resolver.joined account_id platform d)
               = [row]).
  { unfold Resolver.joined.
    rewrite (@rows_of_joined account_id platform d pid p _ Hposts Hin Hid).
    rewrite Hrow. unfold Resolver.rows_of. cbn [filter]. rewrite Hrp, Hid.
    simpl. rewrite Z.eqb_refl. reflexivity. }
  unfold Resolver.get_posts_with_latest_metrics.
  set (key := fun r : LatestRow.t => Post.published_at (LatestRow.post r)).
  destruct (Hok _ key (Resolver.joined account_id platform d))
    as [Hperm _].
  set (sorted := order_by_desc _ key (Resolver.joined account_id platform d))
    in *.
  assert (HS : Resolver.rows_of pid sorted = [row]).
  { apply Permutation_length_1_inv. rewrite <- HJ. apply Permutation_sym.
    unfold Resolver.rows_of. apply Permutation_filter. exact Hperm. }
  unfold sql_limit. destruct (limit <? 0) eqn:El.
  - rewrite HS. split; [simpl; lia|]. split.
    + intros r [<-|[]]. auto.
    + intros _. exists row. auto.
  - apply Z.ltb_ge in El. split; [|split].
    + unfold Resolver.rows_of.
      etransitivity; [apply filter_firstn_length|].
      fold (Resolver.rows_of pid sorted). rewrite HS. simpl. lia.
    + intros r Hr. unfold Resolver.rows_of in Hr.
      apply filter_firstn_incl in Hr.
      fold (Resolver.rows_of pid sorted) in Hr. rewrite HS in Hr.
      destruct Hr as [<-|[]]. auto.
    + intros [Hl|Hl]; [lia|]. exists row. rewrite firstn_all2.
      * auto.
      * rewrite (Permutation_length Hperm). lia.
Qed.

Lemma latest_snapshot_unique_max_witness :
  option_map PostMetrics.views
    (Resolver.get_latest_post_metrics sort_by_desc 1 sample_db) = Some 50
  /\ exists row,
       Resolver.rows_of 1
         (Resolver.get_posts_with_latest_metrics sort_by_desc None None 50
            sample_db) = [row]
       /\ LatestRow.views row = Some 50.
Proof.
  destruct (@latest_snapshot_unique_max sort_by_desc sample_db 1
              (Post.mk (Some 1) (Some 1) "instagram" (Some "p1"%string)
                 "image" EmptyString "2024-01-01T08:00:00" EmptyString
                 EmptyString "2024-01-01T09:00:02")
              (PostMetrics.set_id (Some 2)
                 (sample_metrics 1 "2024-01-02T10:00:00" 50))
              None None 50 sort_by_desc_ok)
    as (H1 & _ & _ & H4).
  - vm_compute. repeat constructor; simpl; intuition discriminate.
  - vm_compute. repeat constructor; simpl; intuition discriminate.
  - vm_compute. auto.
  - reflexivity.
  - vm_compute. reflexivity.
  - reflexivity.
  - split; [rewrite H1; reflexivity|].
    destruct H4 as (row & E & _ & Hs); [right; vm_compute; discriminate|].
    exists row. split; [exact E|]. apply Hs.
Defined.

(** C3, as the claim states it, fails.  The collaborator lists the post
    "q1" twice in one batch; [collect_posts] stores one post (id 3) and two
    snapshots (ids 4 and 5) with the same [collected_at].  The bulk form
    then returns two rows for the post, one per snapshot, not the single row
    of the snapshot with the higher id. *)
Lemma tied_snapshots_give_two_rows :
  map PostMetrics.id (Resolver.snapshots_of 3 tied_db) = [Some 4; Some 5]
  /\ map PostMetrics.collected_at (Resolver.snapshots_of 3 tied_db)
     = ["2024-03-01T12:00:00"%string; "2024-03-01T12:00:00"%string]
  /\ map LatestRow.views
       (Resolver.rows_of 3
          (Resolver.get_posts_with_latest_metrics sort_by_desc None None 50
             tied_db)) = [Some 10; Some 50].
Proof. vm_compute. repeat split. Qed.

(** The two rows do not depend on how the engine orders equal keys. *)
Lemma tied_snapshots_two_rows_any_order (order_by_desc : Sorter) :
  sorter_ok order_by_desc ->
  List.length
    (Resolver.rows_of 3
       (Resolver.get_posts_with_latest_metrics order_by_desc None None 50
          tied_db)) = 2%nat.
Proof.
  intros Hok. unfold Resolver.get_posts_with_latest_metrics.
  set (key := fun r : LatestRow.t => Post.published_at (LatestRow.post r)).
  destruct (Hok _ key (Resolver.joined None None tied_db)) as [Hperm _].
  unfold sql_limit. cbn [Z.ltb Z.compare].
  rewrite firstn_all2.
  - unfold Resolver.rows_of.
    rewrite (Permutation_length (Permutation_filter _ Hperm)).
    vm_compute. reflexivity.
  - rewrite (Permutation_length Hperm). vm_compute. lia.
Qed.


(** ** The engagement rate *)







(** ** Newest first, cut at the limit *)

Lemma sql_limit_incl {A : Type} (limit : Z) (l : list A) (x : A) :
  In x (sql_limit limit l) -> In x l.
Proof.
  unfold sql_limit. destruct (limit <? 0); [trivial|].
  intros H. rewrite <- (firstn_skipn (Z.to_nat limit) l).
  apply in_or_app. auto.
Qed.

Lemma sql_limit_length {A : Type} (limit : Z) (l : list A) :
  0 <= limit -> Z.of_nat (List.length (sql_limit limit l)) <= limit.
Proof.
  intros H. unfold sql_limit.
  destruct (Z.ltb_spec limit 0) as [?|_]; [lia|].
  pose proof (firstn_le_length (Z.to_nat limit) l). lia.
Qed.

Lemma sql_limit_all {A : Type} (limit : Z) (l : list A) :
  limit < 0 \/ Z.of_nat (List.length l) <= limit -> sql_limit limit l = l.
Proof.
  intros H. unfold sql_limit.
  destruct (Z.ltb_spec limit 0) as [?|?]; [reflexivity|].
  apply firstn_all2. lia.
Qed.

Lemma StronglySorted_firstn {A : Type} (R : A -> A -> Prop) (n : nat)
    (l : list A) :
  StronglySorted R l -> StronglySorted R (firstn n l).
Proof.
  revert l. induction n as [|n IH]; intros l H; simpl; [constructor|].
  destruct l as [|x l]; [constructor|].
  inversion H as [|? ? Hs Hall]; subst. constructor; [auto|].
  rewrite Forall_forall in *. intros y Hy. apply Hall.
  rewrite <- (firstn_skipn n l). apply in_or_app. auto.
Qed.

Lemma sql_limit_sorted {A : Type} (R : A -> A -> Prop) (limit : Z)
    (l : list A) :
  StronglySorted R l -> StronglySorted R (sql_limit limit l).
Proof.
  unfold sql_limit. destruct (limit <? 0); [trivial|].
  apply StronglySorted_firstn.
Qed.

(** The shape shared by the three history queries. *)
Lemma select_order_limit {A : Type} (order_by_desc : Sorter)
    (key : A -> string) (f : A -> bool) (rows : list A) (limit : Z) :
  sorter_ok order_by_desc ->
  let result := sql_limit limit (order_by_desc A key (filter f rows)) in
  (forall x, In x result -> In x rows /\ f x = true)
  /\ StronglySorted (desc key) result
  /\ (0 <= limit -> Z.of_nat (List.length result) <= limit)
  /\ (limit < 0 \/ Z.of_nat (List.length (filter f rows)) <= limit ->
      Permutation result (filter f rows))
  /\ (forall x y, In x result -> In y (filter f rows) -> ~ In y result ->
                  String.leb (key y) (key x) = true).
Proof.
  intros Hok. cbn zeta.
  destruct (Hok A key (filter f rows)) as [Hperm Hsorted].
  split; [|split; [|split; [|split]]].
  - intros x Hx. apply sql_limit_incl in Hx.
    apply (Permutation_in _ Hperm) in Hx. apply filter_In in Hx. exact Hx.
  - apply sql_limit_sorted. exact Hsorted.
  - apply sql_limit_length.
  - intros H. rewrite sql_limit_all; [exact Hperm|].
    rewrite (Permutation_length Hperm). exact H.
  - intros x y Hx Hy Hny.
    apply (Permutation_in _ (Permutation_sym Hperm)) in Hy.
    unfold sql_limit in *. destruct (limit <? 0); [contradiction|].
    set (s := order_by_desc A key (filter f rows)) in *.
    rewrite <- (firstn_skipn (Z.to_nat limit) s) in Hy, Hsorted.
    apply in_app_or in Hy. destruct Hy as [Hy|Hy]; [contradiction|].
    clear Hny. revert Hx Hy Hsorted.
    generalize (firstn (Z.to_nat limit) s) (skipn (Z.to_nat limit) s).
    intros l1 l2. induction l1 as [|a l1 IH]; [intros []|].
    intros [->|Hx] Hy Hs; simpl in Hs;
      inversion Hs as [|? ? Hs' Hall]; subst.
    + rewrite Forall_forall in Hall. apply Hall. apply in_or_app. auto.
    + apply IH; assumption.
Qed.




(** X2 ([get_posts_by_account] and [get_account_metrics_history]): for
    every way the engine orders equal keys, the rows returned for an account
    are rows of that account only, newest first (by [published_at], by
    [collected_at]); at most [limit] of them for a limit that is not
    negative; all of them, each once, when the limit is negative or not
    below their number. *)
Theorem account_rows_newest_first (order_by_desc : Sorter)
    (account_id limit : Z) (d : Database.t) :
  sorter_ok order_by_desc ->
  let posts := Reads.get_posts_by_account order_by_desc account_id limit d in
  let history :=
    Reads.get_account_metrics_history order_by_desc account_id limit d in
  (forall p, In p posts ->
             In p (Database.posts d) /\ Post.account_id p = Some account_id)
  /\ StronglySorted (desc Post.published_at) posts
  /\ (0 <= limit -> Z.of_nat (List.length posts) <= limit)
  /\ (limit < 0
      \/ Z.of_nat (List.length (Reads.posts_of account_id d)) <= limit ->
      Permutation posts (Reads.posts_of account_id d))
  /\ (forall m, In m history ->
                In m (Database.account_metrics d)
                /\ AccountMetrics.account_id m = Some account_id)
  /\ StronglySorted (desc AccountMetrics.collected_at) history
  /\ (0 <= limit -> Z.of_nat (List.length history) <= limit)
  /\ (limit < 0
      \/ Z.of_nat (List.length (Reads.account_snapshots_of account_id d))
         <= limit ->
      Permutation history (Reads.account_snapshots_of account_id d)).
Proof.
  intros Hok. cbn zeta.
  destruct (@select_order_limit _ order_by_desc Post.published_at
              (fun p => sql_eq_int (Post.account_id p) (Some account_id))
              (Database.posts d) limit Hok) as (H1 & H2 & H3 & H4 & _).
  destruct (@select_order_limit _ order_by_desc AccountMetrics.collected_at
              (fun m => sql_eq_int (AccountMetrics.account_id m)
                                   (Some account_id))
              (Database.account_metrics d) limit Hok)
    as (K1 & K2 & K3 & K4 & _).
  unfold Reads.get_posts_by_account, Reads.get_account_metrics_history,
    Reads.posts_of, Reads.account_snapshots_of.
  refine (conj _ (conj H2 (conj H3 (conj H4
            (conj _ (conj K2 (conj K3 K4))))))).
  - intros p Hp. destruct (H1 p Hp) as [Hin E]. split; [exact Hin|].
    apply sql_eq_int_some. exact E.
  - intros m Hm. destruct (K1 m Hm) as [Hin E]. split; [exact Hin|].
    apply sql_eq_int_some. exact E.
Qed.

Lemma account_rows_newest_first_witness :
  map Post.post_id (Reads.get_posts_by_account sort_by_desc 1 50 sample_db)
  = [Some "p1"%string]
  /\ Permutation
       (Reads.get_account_metrics_history sort_by_desc 2 (-1) sample_db)
       (Reads.account_snapshots_of 2 sample_db).
Proof.
  split; [vm_compute; reflexivity|].
  destruct (@account_rows_newest_first sort_by_desc 2 (-1) sample_db
              sort_by_desc_ok) as (_ & _ & _ & _ & _ & _ & _ & H).
  apply H. left. lia.
Defined.

(** ** The collection summary *)

Lemma sum_count_occ_cons (x : string) (l ks : list string) :
  NoDup ks ->
  fold_right (fun k acc => Z.of_nat (count_occ string_dec (x :: l) k) + acc)
             0 ks
  = fold_right (fun k acc => Z.of_nat (count_occ string_dec l k) + acc) 0 ks
    + (if in_dec string_dec x ks then 1 else 0).
Proof.
  induction 1 as [|k ks Hk Hnd IH]; [reflexivity|].
  cbn [fold_right]. rewrite IH.
  destruct (string_dec x k) as [->|Hne].
  - rewrite count_occ_cons_eq by reflexivity.
    destruct (in_dec string_dec k ks) as [Hin|_]; [contradiction|].
    destruct (in_dec string_dec k (k :: ks)) as [_|Hn];
      [lia|exfalso; apply Hn; left; reflexivity].
  - rewrite count_occ_cons_neq by exact Hne.
    destruct (in_dec string_dec x ks) as [Hin|Hin],
             (in_dec string_dec x (k :: ks)) as [Hin'|Hin']; try lia.
    + exfalso. apply Hin'. right. exact Hin.
    + destruct Hin' as [E|Hin']; [congruence|contradiction].
Qed.

Lemma sum_count_occ (l ks : list string) :
  NoDup ks -> incl l ks ->
  fold_right (fun k acc => Z.of_nat (count_occ string_dec l k) + acc) 0 ks
  = Z.of_nat (List.length l).
Proof.
  intros Hnd. induction l as [|x l IH]; intros Hincl.
  - clear. induction ks as [|k ks IHk]; cbn [fold_right]; [reflexivity|].
    rewrite IHk. reflexivity.
  - rewrite sum_count_occ_cons by exact Hnd.
    rewrite IH by (intros y Hy; apply Hincl; right; exact Hy).
    destruct (in_dec string_dec x ks) as [_|Hn].
    + cbn [List.length]. lia.
    + exfalso. apply Hn, Hincl. left. reflexivity.
Qed.

Lemma sum_values_group_count (keys : list string) :
  sum_values (Reads.group_count keys) = Z.of_nat (List.length keys).
Proof.
  unfold sum_values, Reads.group_count.
  rewrite <- (@sum_count_occ keys (nodup string_dec keys)).
  - induction (nodup string_dec keys) as [|k ks IH]; simpl; [reflexivity|].
    rewrite IH. reflexivity.
  - apply NoDup_nodup.
  - intros x Hx. apply nodup_In. exact Hx.
Qed.

Lemma dict_get_group_count (keys : list string) (k : string) :
  dict_get k (Reads.group_count keys)
  = if in_dec string_dec k keys
    then Some (Z.of_nat (count_occ string_dec keys k))
    else None.
Proof.
  unfold Reads.group_count.
  assert (H : forall ks,
             dict_get k (map (fun k0 => (k0, Z.of_nat
                                               (count_occ string_dec keys k0)))
                             ks)
             = if in_dec string_dec k ks
               then Some (Z.of_nat (count_occ string_dec keys k))
               else None).
  { induction ks as [|k0 ks IH]; simpl; [reflexivity|].
    destruct (String.eqb_spec k0 k) as [->|Hne].
    - destruct (string_dec k k); [reflexivity|contradiction].
    - rewrite IH. destruct (string_dec k0 k); [contradiction|].
      destruct (in_dec string_dec k ks); reflexivity. }
  rewrite H.
  destruct (in_dec string_dec k (nodup string_dec keys)) as [Hin|Hin],
           (in_dec string_dec k keys) as [Hin'|Hin']; try reflexivity.
  - apply nodup_In in Hin. contradiction.
  - exfalso. apply Hin. apply nodup_In. exact Hin'.
Qed.

Lemma max_text_none (l : list string) : max_text l = None <-> l = [].
Proof.
  destruct l; simpl; split; intros H; try discriminate; reflexivity.
Qed.

Lemma max_text_some (l : list string) (t : string) :
  max_text l = Some t ->
  In t l /\ forall y, In y l -> String.leb y t = true.
Proof.
  destruct l as [|x l]; [discriminate|]. simpl. intros H.
  inversion H. subst t. split.
  - apply fold_left_text_max_in.
  - intros y Hy. apply fold_left_text_max_ge. exact Hy.
Qed.

(** X3 ([get_collection_summary], [_get_last_collection_time]): the
    summary agrees with the tables.  A platform is a key of
    [accounts_by_platform] exactly when an account has it, and its value is
    the number of those accounts; the values add up to the number of
    accounts, and those of [posts_by_platform] to the number of posts;
    [last_collected] is None exactly when there is no snapshot, and
    otherwise the [collected_at] of a stored snapshot that no snapshot
    exceeds; [collection_count], the number of distinct [collected_at], is
    0 exactly when there is no snapshot and never more than the number of
    snapshots; the dashboard's last collection time is [last_collected]. *)
Theorem collection_summary_consistent (d : Database.t) :
  let s := Reads.get_collection_summary d in
  (forall platform,
     dict_get platform (Reads.accounts_by_platform s)
     = if in_dec string_dec platform
            (map Account.platform (Database.accounts d))
       then Some (Z.of_nat (count_occ string_dec
                              (map Account.platform (Database.accounts d))
                              platform))
       else None)
  /\ sum_values (Reads.accounts_by_platform s)
     = Z.of_nat (List.length (Database.accounts d))
  /\ sum_values (Reads.posts_by_platform s)
     = Z.of_nat (List.length (Database.posts d))
  /\ (Reads.last_collected s = None <-> Database.post_metrics d = [])
  /\ (forall t, Reads.last_collected s = Some t ->
        (exists m, In m (Database.post_metrics d)
                   /\ PostMetrics.collected_at m = t)
        /\ forall m, In m (Database.post_metrics d) ->
                     String.leb (PostMetrics.collected_at m) t = true)
  /\ (Reads.collection_count s = 0 <-> Database.post_metrics d = [])
  /\ 0 <= Reads.collection_count s
     <= Z.of_nat (List.length (Database.post_metrics d))
  /\ _get_last_collection_time d = Reads.last_collected s.
Proof.
  cbn zeta. unfold Reads.get_collection_summary.
  cbn [Reads.accounts_by_platform Reads.posts_by_platform
       Reads.last_collected Reads.collection_count].
  split; [intros p; apply dict_get_group_count|].
  split; [rewrite sum_values_group_count, length_map; reflexivity|].
  split; [rewrite sum_values_group_count, length_map; reflexivity|].
  split.
  { rewrite max_text_none. split; intros H.
    - apply map_eq_nil in H. exact H.
    - rewrite H. reflexivity. }
  split.
  { intros t Ht. apply max_text_some in Ht. destruct Ht as [Hin Hmax].
    split.
    - apply in_map_iff in Hin. destruct Hin as (m & E & Hm). eauto.
    - intros m Hm. apply Hmax. apply in_map. exact Hm. }
  split.
  { split; intros H.
    - destruct (Database.post_metrics d) as [|m l]; [reflexivity|].
      exfalso.
      assert (Hin : In (PostMetrics.collected_at m)
                      (nodup string_dec
                         (map PostMetrics.collected_at (m :: l))))
        by (apply nodup_In; left; reflexivity).
      destruct (nodup string_dec (map PostMetrics.collected_at (m :: l)));
        [destruct Hin|simpl in H; lia].
    - rewrite H. reflexivity. }
  split; [|reflexivity].
  split; [lia|].
  apply Nat2Z.inj_le.
  rewrite <- (length_map PostMetrics.collected_at (Database.post_metrics d)).
  apply NoDup_incl_length; [apply NoDup_nodup|].
  intros x Hx. apply nodup_In in Hx. exact Hx.
Qed.


(** ** Insert and lookup of an account *)

Lemma find_filter_implied {A : Type} (f g : A -> bool) (l : list A) :
  (forall x, f x = true -> g x = true) ->
  find f (filter g l) = find f l.
Proof.
  intros H. induction l as [|x l IH]; simpl; [reflexivity|].
  destruct (g x) eqn:G; simpl.
  - destruct (f x); [reflexivity|exact IH].
  - destruct (f x) eqn:F; [rewrite (H x F) in G; discriminate|exact IH].
Qed.

Lemma find_app {A : Type} (f : A -> bool) (l1 l2 : list A) :
  find f (l1 ++ l2)
  = match find f l1 with
    | Some x => Some x
    | None => find f l2
    end.
Proof.
  induction l1 as [|x l1 IH]; simpl; [reflexivity|].
  destruct (f x); [reflexivity|exact IH].
Qed.

Lemma find_none_below {A : Type} (rid : A -> option Z) (rows : list A)
    (i : Z) :
  (forall r j, In r rows -> rid r = Some j -> j < i) ->
  find (fun r => sql_eq_int (rid r) (Some i)) rows = None.
Proof.
  intros H. apply find_none_iff.
  destruct (existsb _ rows) eqn:E; [|reflexivity].
  apply existsb_exists in E. destruct E as (r & Hr & Hi).
  apply sql_eq_int_some in Hi. specialize (H r i Hr Hi). lia.
Qed.

(** X4 ([add_account], [get_account], [get_account_by_id]): the row that
    [add_account] stores is found again, by its key and by the returned id;
    it holds the given fields with [created_at = updated_at = now]; the id
    is positive and larger than every id of the table; the lookup of every
    other (platform, username) and the three other tables are as they
    were. *)
Theorem add_account_then_get (now : string) (account : Account.t)
    (d : Database.t) :
  let i := fst (Database.add_account now account d) in
  let d' := snd (Database.add_account now account d) in
  let row :=
    Account.mk (Some i) (Account.platform account)
      (Account.username account) (Account.display_name account)
      (Account.account_id account) (Account.follower_count account)
      (Account.following_count account) (Account.post_count account)
      (Account.bio account) now now in
  Database.get_account (Account.platform account)
    (Account.username account) d' = Some row
  /\ Database.get_account_by_id i d' = Some row
  /\ 0 < i
  /\ (forall r j, In r (Database.accounts d) -> Account.id r = Some j ->
                  j < i)
  /\ (forall platform username,
        (platform, username)
        <> (Account.platform account, Account.username account) ->
        Database.get_account platform username d'
        = Database.get_account platform username d)
  /\ Database.posts d' = Database.posts d
  /\ Database.post_metrics d' = Database.post_metrics d
  /\ Database.account_metrics d' = Database.account_metrics d.
Proof.
  cbn zeta. unfold Database.add_account. cbn [fst snd].
  set (i := next_rowid Account.id (Database.seq_accounts d)
              (Database.accounts d)).
  assert (Hfresh : forall r j, In r (Database.accounts d) ->
                               Account.id r = Some j -> j < i)
    by (intros r j Hr Hj; eapply next_rowid_fresh; eauto).
  split; [|split; [|split; [|split; [|split]]]].
  - unfold Database.get_account.
    cbn [Database.accounts Database.set_accounts].
    rewrite find_app_none by apply find_filter_negb.
    cbn [find]. unfold Database.account_key at 1.
    cbn [Account.platform Account.username].
    rewrite !String.eqb_refl. reflexivity.
  - unfold Database.get_account_by_id.
    cbn [Database.accounts Database.set_accounts].
    rewrite find_app_none.
    + cbn [find Account.id]. rewrite (proj2 (sql_eq_int_some (Some i) i))
        by reflexivity. reflexivity.
    + apply find_none_below. intros r j Hr Hj. apply filter_In in Hr.
      destruct Hr as [Hr _]. eauto.
  - apply next_rowid_pos.
  - exact Hfresh.
  - intros p u Hne. unfold Database.get_account.
    cbn [Database.accounts Database.set_accounts].
    assert (Hrow : forall r,
               Account.platform r = Account.platform account ->
               Account.username r = Account.username account ->
               Database.account_key p u r = false).
    { intros r Hp Hu. unfold Database.account_key. rewrite Hp, Hu.
      destruct (String.eqb_spec (Account.platform account) p) as [<-|_];
        [|reflexivity].
      destruct (String.eqb_spec (Account.username account) u) as [<-|_];
        [|reflexivity].
      exfalso. apply Hne. reflexivity. }
    rewrite find_app, find_filter_implied.
    + destruct (find (Database.account_key p u) (Database.accounts d))
        as [r|] eqn:F; [reflexivity|].
      cbn [find]. rewrite Hrow by reflexivity. reflexivity.
    + intros r Hr. apply negb_true_iff.
      destruct (Database.account_key (Account.platform account)
                  (Account.username account) r) eqn:K; [|reflexivity].
      unfold Database.account_key in K. apply andb_true_iff in K.
      destruct K as [K1 K2]. apply String.eqb_eq in K1, K2.
      rewrite (Hrow r K1 K2) in Hr. discriminate.
  - cbn. auto.
Qed.

(** ** Updating an account *)

Lemma database_eta (d : Database.t) :
  Database.mk (Database.accounts d) (Database.posts d)
    (Database.post_metrics d) (Database.account_metrics d)
    (Database.seq_accounts d) (Database.seq_posts d)
    (Database.seq_post_metrics d) (Database.seq_account_metrics d) = d.
Proof. destruct d. reflexivity. Qed.

Lemma map_id_on {A : Type} (g : A -> A) (l : list A) :
  (forall x, In x l -> g x = x) -> map g l = l.
Proof.
  induction l as [|x l IH]; intros H; simpl; [reflexivity|].
  rewrite H by (left; reflexivity). f_equal. apply IH.
  intros y Hy. apply H. right. exact Hy.
Qed.

Lemma find_map_by_id (g : Account.t -> Account.t) (j : Z)
    (rows : list Account.t) :
  (forall r, Account.id (g r) = Account.id r) ->
  find (fun r => sql_eq_int (Account.id r) (Some j)) (map g rows)
  = option_map g (find (fun r => sql_eq_int (Account.id r) (Some j)) rows).
Proof.
  intros H. induction rows as [|r rows IH]; simpl; [reflexivity|].
  rewrite H. destruct (sql_eq_int (Account.id r) (Some j)); [reflexivity|].
  exact IH.
Qed.

(** X5 ([update_account], [get_account_by_id]): [update_account] rewrites
    the display name, the three counters, the bio and [updated_at] of the
    row with the id of the given account, and nothing else: the row keeps
    its id, platform, username, platform account id and [created_at]; the
    rows with other ids, the id under every (platform, username) and the
    three other tables are as they were.  For an id that no row has, and for
    an account without id, the store is unchanged and nothing is raised. *)
Theorem update_account_then_get (now : string) (account : Account.t)
    (d : Database.t) :
  let d' := Database.update_account now account d in
  (Account.id account = None -> d' = d)
  /\ (forall i, Account.id account = Some i ->
        (Database.get_account_by_id i d = None -> d' = d)
        /\ (forall old, Database.get_account_by_id i d = Some old ->
              Database.get_account_by_id i d'
              = Some (Account.mk (Account.id old) (Account.platform old)
                        (Account.username old)
                        (Account.display_name account)
                        (Account.account_id old)
                        (Account.follower_count account)
                        (Account.following_count account)
                        (Account.post_count account) (Account.bio account)
                        (Account.created_at old) now))
        /\ (forall j, j <> i ->
              Database.get_account_by_id j d'
              = Database.get_account_by_id j d))
  /\ (forall platform username,
        option_map Account.id (Database.get_account platform username d')
        = option_map Account.id (Database.get_account platform username d))
  /\ Database.posts d' = Database.posts d
  /\ Database.post_metrics d' = Database.post_metrics d
  /\ Database.account_metrics d' = Database.account_metrics d.
Proof.
  cbn zeta.
  assert (Hnoop : (forall r, In r (Database.accounts d) ->
                     sql_eq_int (Account.id r) (Account.id account) = false)
                  -> Database.update_account now account d = d).
  { intros H. unfold Database.update_account, Database.set_accounts.
    rewrite map_id_on; [apply database_eta|].
    intros r Hr. rewrite (H r Hr). reflexivity. }
  split; [|split; [|split; [|cbn; auto]]].
  - intros Hid. apply Hnoop. intros r _. rewrite Hid.
    destruct (Account.id r); reflexivity.
  - intros i Hid. split; [|split].
    + intros Hnone. apply Hnoop. intros r Hr. rewrite Hid.
      unfold Database.get_account_by_id in Hnone.
      apply (find_none _ _ Hnone r Hr).
    + intros old Hold. unfold Database.get_account_by_id in *.
      unfold Database.update_account.
      cbn [Database.accounts Database.set_accounts].
      rewrite find_map_by_id
        by (intros r; destruct (sql_eq_int _ _); reflexivity).
      rewrite Hold. cbn [option_map]. apply find_some in Hold.
      destruct Hold as [_ E]. rewrite Hid, E. reflexivity.
    + intros j Hj. unfold Database.get_account_by_id in *.
      unfold Database.update_account.
      cbn [Database.accounts Database.set_accounts].
      rewrite find_map_by_id
        by (intros r; destruct (sql_eq_int _ _); reflexivity).
      destruct (find _ (Database.accounts d)) as [r|] eqn:F;
        [|reflexivity].
      cbn [option_map]. apply find_some in F. destruct F as [_ E].
      apply sql_eq_int_some in E. rewrite Hid, E. cbn [sql_eq_int].
      destruct (Z.eqb_spec j i); [contradiction|reflexivity].
  - intros p u. apply update_account_keeps_id.
Qed.

Lemma update_account_then_get_witness :
  option_map Account.display_name
    (Database.get_account_by_id 2
       (Database.update_account "2024-05-01T00:00:00"
          (Account.mk (Some 2) EmptyString EmptyString "Robert" EmptyString
             7 8 9 "new bio" EmptyString EmptyString) sample_db))
  = Some "Robert"%string
  /\ Database.update_account "2024-05-01T00:00:00"
       (Account.mk (Some 9) EmptyString EmptyString "Robert" EmptyString
          7 8 9 "new bio" EmptyString EmptyString) sample_db
     = sample_db.
Proof.
  destruct (update_account_then_get "2024-05-01T00:00:00"
              (Account.mk (Some 2) EmptyString EmptyString "Robert"
                 EmptyString 7 8 9 "new bio" EmptyString EmptyString)
              sample_db) as (_ & H & _).
  destruct (H 2 eq_refl) as (_ & H2 & _).
  destruct (update_account_then_get "2024-05-01T00:00:00"
              (Account.mk (Some 9) EmptyString EmptyString "Robert"
                 EmptyString 7 8 9 "new bio" EmptyString EmptyString)
              sample_db) as (_ & K & _).
  destruct (K 9 eq_refl) as (K1 & _).
  split.
  - destruct (Database.get_account_by_id 2 sample_db) as [old|] eqn:E;
      [|vm_compute in E; discriminate].
    rewrite (H2 old eq_refl). reflexivity.
  - apply K1. reflexivity.
Defined.

(** ** The constraints are kept by every write *)

Lemma NoDup_map_filter {A B : Type} (f : A -> B) (g : A -> bool)
    (l : list A) :
  NoDup (map f l) -> NoDup (map f (filter g l)).
Proof.
  induction l as [|x l IH]; simpl; intros H; [constructor|].
  inversion H as [|? ? Hx Hnd]; subst.
  destruct (g x); simpl; [|auto]. constructor; [|auto].
  intros Hin. apply Hx. apply in_map_iff in Hin.
  destruct Hin as (y & E & Hy). apply filter_In in Hy.
  rewrite <- E. apply in_map. tauto.
Qed.

Lemma pk_filter {A : Type} (rid : A -> option Z) (g : A -> bool)
    (rows : list A) :
  pk rid rows -> pk rid (filter g rows).
Proof.
  intros [Hnd Hid]. split; [apply NoDup_map_filter; exact Hnd|].
  intros r Hr. apply filter_In in Hr. apply Hid. tauto.
Qed.

Lemma pk_map {A : Type} (rid : A -> option Z) (g : A -> A)
    (rows : list A) :
  (forall r, rid (g r) = rid r) -> pk rid rows -> pk rid (map g rows).
Proof.
  intros Hg [Hnd Hid]. split.
  - rewrite map_map. rewrite (map_ext _ rid) by exact Hg. exact Hnd.
  - intros r Hr. apply in_map_iff in Hr. destruct Hr as (r0 & <- & Hr0).
    rewrite Hg. auto.
Qed.

Lemma pk_append {A : Type} (rid : A -> option Z) (rows : list A)
    (row : A) (seq : Z) :
  rid row = Some (next_rowid rid seq rows) ->
  pk rid rows -> pk rid (rows ++ [row]).
Proof.
  intros Hrow [Hnd Hid]. split.
  - rewrite map_app. cbn [map].
    apply NoDup_app; [exact Hnd|repeat constructor; simpl; tauto|].
    intros x Hx [<-|[]]. apply in_map_iff in Hx.
    destruct Hx as (r & E & Hr). rewrite Hrow in E.
    pose proof (next_rowid_fresh rid seq rows r Hr E). lia.
  - intros r Hr. apply in_app_or in Hr. destruct Hr as [Hr|[<-|[]]]; eauto.
Qed.

Lemma pk_append_filtered {A : Type} (rid : A -> option Z) (g : A -> bool)
    (rows : list A) (row : A) (seq : Z) :
  rid row = Some (next_rowid rid seq rows) ->
  pk rid rows -> pk rid (filter g rows ++ [row]).
Proof.
  intros Hrow Hpk. destruct (pk_filter g Hpk) as [Hnd Hid]. split.
  - rewrite map_app. cbn [map].
    apply NoDup_app; [exact Hnd|repeat constructor; simpl; tauto|].
    intros x Hx [<-|[]]. apply in_map_iff in Hx.
    destruct Hx as (r & E & Hr). rewrite Hrow in E.
    apply filter_In in Hr. destruct Hr as [Hr _].
    pose proof (next_rowid_fresh rid seq rows r Hr E). lia.
  - intros r Hr. apply in_app_or in Hr. destruct Hr as [Hr|[<-|[]]]; eauto.
Qed.

Lemma filter_length_le {A : Type} (f g : A -> bool) (l : list A) :
  (List.length (filter f (filter g l)) <= List.length (filter f l))%nat.
Proof.
  induction l as [|x l IH]; simpl; [lia|].
  destruct (g x); simpl; destruct (f x); simpl; lia.
Qed.

Lemma posts_wf_filter (g : Post.t -> bool) (d : Database.t) (seq : Z) :
  posts_wf d -> posts_wf (Database.set_posts (filter g (Database.posts d))
                            seq d).
Proof.
  intros [Hid Hu]. split; cbn [Database.posts Database.set_posts].
  - intros r Hr. apply filter_In in Hr. apply Hid. tauto.
  - intros p i. etransitivity; [apply filter_length_le|apply Hu].
Qed.

Lemma store_ok_empty : store_ok Database.empty.
Proof.
  unfold store_ok, pk, accounts_unique. simpl.
  repeat split; try constructor; try tauto; try (intros; lia);
    try apply posts_wf_empty.
  all: intros; simpl; try lia; try contradiction.
Qed.

Lemma add_account_store_ok (now : string) (account : Account.t)
    (d : Database.t) :
  store_ok d -> store_ok (snd (Database.add_account now account d)).
Proof.
  intros (Ha & Hp & Hpm & Ham & Hu & Hwf). unfold Database.add_account.
  cbn [snd]. unfold store_ok.
  cbn [Database.accounts Database.posts Database.post_metrics
       Database.account_metrics Database.set_accounts].
  split; [|split; [exact Hp|split; [exact Hpm|split; [exact Ham|split]]]].
  - apply pk_append_filtered with (seq := Database.seq_accounts d);
      [reflexivity|exact Ha].
  - intros p u. cbn [Database.accounts Database.set_accounts].
    rewrite filter_app, length_app. cbn [filter].
    destruct (Database.account_key p u _) eqn:K.
    + unfold Database.account_key in K.
      cbn [Account.platform Account.username] in K.
      apply andb_true_iff in K. destruct K as [K1 K2].
      apply String.eqb_eq in K1, K2. subst p u.
      rewrite filter_filter_comm.
      rewrite (@existsb_false_filter _ _
                 (filter (Database.account_key (Account.platform account)
                            (Account.username account))
                         (Database.accounts d))).
      * simpl. lia.
      * destruct (existsb _ _) eqn:E; [|reflexivity].
        apply existsb_exists in E. destruct E as (r & Hr & Hn).
        apply filter_In in Hr. destruct Hr as [_ Hr]. rewrite Hr in Hn.
        discriminate.
    + cbn [List.length]. specialize (Hu p u).
      pose proof (filter_length_le (Database.account_key p u)
                    (fun r => negb (Database.account_key
                                      (Account.platform account)
                                      (Account.username account) r))
                    (Database.accounts d)). lia.
  - destruct Hwf as [A B]. split; assumption.
Qed.

Lemma update_account_store_ok (now : string) (account : Account.t)
    (d : Database.t) :
  store_ok d -> store_ok (Database.update_account now account d).
Proof.
  intros (Ha & Hp & Hpm & Ham & Hu & Hwf). unfold Database.update_account.
  unfold store_ok.
  cbn [Database.accounts Database.posts Database.post_metrics
       Database.account_metrics Database.set_accounts].
  split; [|split; [exact Hp|split; [exact Hpm|split; [exact Ham|split]]]].
  - apply pk_map; [|exact Ha].
    intros r. destruct (sql_eq_int _ _); reflexivity.
  - intros p u. cbn [Database.accounts Database.set_accounts].
    specialize (Hu p u).
    match goal with
    | |- context [map ?g _] =>
        assert (E : forall l,
                   List.length (filter (Database.account_key p u) (map g l))
                   = List.length (filter (Database.account_key p u) l))
    end.
    { induction l as [|r l IH]; [reflexivity|]. cbn [map filter].
      replace (Database.account_key p u
                 (if sql_eq_int (Account.id r) (Account.id account) then _
                  else r))
        with (Database.account_key p u r)
        by (destruct (sql_eq_int _ _); reflexivity).
      destruct (Database.account_key p u r); cbn [List.length];
        rewrite IH; reflexivity. }
    rewrite E. exact Hu.
  - destruct Hwf as [A B]. split; assumption.
Qed.

Lemma delete_account_store_ok (account_id : Z) (d : Database.t) :
  store_ok d -> store_ok (snd (Database.delete_account account_id d)).
Proof.
  intros (Ha & Hp & Hpm & Ham & Hu & Hwf). unfold Database.delete_account.
  cbn [snd]. unfold store_ok.
  cbn [Database.accounts Database.posts Database.post_metrics
       Database.account_metrics Database.set_accounts Database.set_posts
       Database.set_post_metrics Database.set_account_metrics].
  split; [apply pk_filter; exact Ha|].
  split; [apply pk_filter; exact Hp|].
  split; [apply pk_filter; exact Hpm|].
  split; [apply pk_filter; exact Ham|].
  split.
  - intros p u.
    cbn [Database.accounts Database.set_accounts Database.set_posts
         Database.set_post_metrics Database.set_account_metrics].
    etransitivity; [apply filter_length_le|apply Hu].
  - destruct Hwf as [A B].
    split; cbn [Database.accounts Database.posts Database.set_accounts
                Database.set_posts Database.set_post_metrics
                Database.set_account_metrics].
    + intros r Hr. apply filter_In in Hr. apply A. tauto.
    + intros p i. etransitivity; [apply filter_length_le|apply B].
Qed.

Lemma add_post_store_ok (now : string) (post : Post.t) (d : Database.t) :
  store_ok d -> store_ok (snd (Database.add_post now post d)).
Proof.
  intros (Ha & Hp & Hpm & Ham & Hu & Hwf).
  pose proof (add_post_posts_wf now post Hwf) as Hwf'.
  rewrite add_post_db in *. unfold Database.insert_or_ignore_post in *.
  destruct (_ || _); cbn [fst] in *.
  - unfold store_ok. auto 10.
  - unfold store_ok.
    cbn [Database.accounts Database.posts Database.post_metrics
         Database.account_metrics Database.set_posts].
    split; [exact Ha|]. split.
    { apply pk_append with (seq := Database.seq_posts d);
        [reflexivity|exact Hp]. }
    split; [exact Hpm|]. split; [exact Ham|]. split; [exact Hu|exact Hwf'].
Qed.

Lemma add_post_metrics_store_ok (m : PostMetrics.t) (d : Database.t) :
  store_ok d -> store_ok (snd (Database.add_post_metrics m d)).
Proof.
  intros (Ha & Hp & Hpm & Ham & Hu & Hwf). unfold Database.add_post_metrics.
  destruct (is_null _); cbn [snd]; [unfold store_ok; auto 10|].
  unfold store_ok.
  cbn [Database.accounts Database.posts Database.post_metrics
       Database.account_metrics Database.set_post_metrics].
  split; [exact Ha|]. split; [exact Hp|]. split.
  { apply pk_append with (seq := Database.seq_post_metrics d);
      [reflexivity|exact Hpm]. }
  split; [exact Ham|]. split; [exact Hu|].
  destruct Hwf as [A B]. split; assumption.
Qed.

Lemma add_account_metrics_store_ok (m : AccountMetrics.t)
    (d : Database.t) :
  store_ok d -> store_ok (snd (Database.add_account_metrics m d)).
Proof.
  intros (Ha & Hp & Hpm & Ham & Hu & Hwf).
  unfold Database.add_account_metrics.
  destruct (is_null _); cbn [snd]; [unfold store_ok; auto 10|].
  unfold store_ok.
  cbn [Database.accounts Database.posts Database.post_metrics
       Database.account_metrics Database.set_account_metrics].
  split; [exact Ha|]. split; [exact Hp|]. split; [exact Hpm|]. split.
  { apply pk_append with (seq := Database.seq_account_metrics d);
      [reflexivity|exact Ham]. }
  split; [exact Hu|]. destruct Hwf as [A B]. split; assumption.
Qed.

(** X6 (the write methods of class Database): the constraints of the
    schema are an invariant of the store.  If every table has unique,
    present row ids and [accounts] and [posts] satisfy their UNIQUE keys,
    then the same holds after [add_account], [update_account],
    [delete_account], [add_post], [add_post_metrics] and
    [add_account_metrics], whatever their arguments; the empty store
    satisfies them. *)
Theorem store_ok_preserved (d : Database.t) :
  store_ok d ->
  (forall now account,
     store_ok (snd (Database.add_account now account d)))
  /\ (forall now account, store_ok (Database.update_account now account d))
  /\ (forall account_id,
        store_ok (snd (Database.delete_account account_id d)))
  /\ (forall now post, store_ok (snd (Database.add_post now post d)))
  /\ (forall metrics, store_ok (snd (Database.add_post_metrics metrics d)))
  /\ (forall metrics,
        store_ok (snd (Database.add_account_metrics metrics d))).
Proof.
  intros H. split; [|split; [|split; [|split; [|split]]]]; intros.
  - apply add_account_store_ok, H.
  - apply update_account_store_ok, H.
  - apply delete_account_store_ok, H.
  - apply add_post_store_ok, H.
  - apply add_post_metrics_store_ok, H.
  - apply add_account_metrics_store_ok, H.
Qed.

Lemma store_ok_preserved_witness :
  store_ok Database.empty
  /\ store_ok (snd (Database.add_account "2024-01-01T09:00:00"
                      (sample_account "alice") Database.empty)).
Proof.
  split; [apply store_ok_empty|].
  apply (proj1 (store_ok_preserved store_ok_empty)).
Defined.


(** ** A collection attempt only adds *)

Lemma grows_refl (d : Database.t) : grows d d.
Proof.
  unfold grows. repeat split; exists []; rewrite app_nil_r; reflexivity.
Qed.

Lemma grows_trans (d1 d2 d3 : Database.t) :
  grows d1 d2 -> grows d2 d3 -> grows d1 d3.
Proof.
  intros ((a1 & A1) & (p1 & P1) & (m1 & M1) & (s1 & S1))
         ((a2 & A2) & (p2 & P2) & (m2 & M2) & (s2 & S2)).
  unfold grows. rewrite A2, A1, P2, P1, M2, M1, S2, S1, <- !app_assoc.
  repeat split; eexists; reflexivity.
Qed.

Lemma update_account_grows (now : string) (a : Account.t)
    (d : Database.t) :
  grows d (Database.update_account now a d).
Proof.
  unfold grows, Database.update_account.
  cbn [Database.accounts Database.posts Database.post_metrics
       Database.account_metrics Database.set_accounts].
  split; [|repeat split; exists []; rewrite app_nil_r; reflexivity].
  exists []. rewrite app_nil_r, map_map. apply map_ext. intros r.
  destruct (sql_eq_int _ _); reflexivity.
Qed.

Lemma add_account_new_accounts (now : string) (a : Account.t)
    (d : Database.t) :
  Database.get_account (Account.platform a) (Account.username a) d = None ->
  exists row,
    Database.accounts (snd (Database.add_account now a d))
    = Database.accounts d ++ [row]
    /\ Account.id row = Some (fst (Database.add_account now a d)).
Proof.
  intros H. unfold Database.add_account. cbn [fst snd].
  cbn [Database.accounts Database.set_accounts].
  rewrite (find_none_filter_negb _ _ H). eexists. split; reflexivity.
Qed.

Lemma add_account_new_grows (now : string) (a : Account.t)
    (d : Database.t) :
  Database.get_account (Account.platform a) (Account.username a) d = None ->
  grows d (snd (Database.add_account now a d)).
Proof.
  intros H. destruct (add_account_new_accounts now a d H) as (row & E & _).
  unfold grows. rewrite E, map_app.
  split; [eexists; reflexivity|].
  unfold Database.add_account. cbn [snd].
  cbn [Database.posts Database.post_metrics Database.account_metrics
       Database.set_accounts].
  repeat split; exists []; rewrite app_nil_r; reflexivity.
Qed.

Lemma add_account_metrics_grows (m : AccountMetrics.t) (d : Database.t) :
  grows d (snd (Database.add_account_metrics m d)).
Proof.
  unfold Database.add_account_metrics.
  destruct (is_null _); cbn [snd]; [apply grows_refl|].
  unfold grows.
  cbn [Database.accounts Database.posts Database.post_metrics
       Database.account_metrics Database.set_account_metrics].
  repeat split; try (exists []; rewrite app_nil_r; reflexivity).
  eexists. reflexivity.
Qed.

Lemma add_post_metrics_grows (m : PostMetrics.t) (d : Database.t) :
  grows d (snd (Database.add_post_metrics m d)).
Proof.
  unfold Database.add_post_metrics.
  destruct (is_null _); cbn [snd]; [apply grows_refl|].
  unfold grows.
  cbn [Database.accounts Database.posts Database.post_metrics
       Database.account_metrics Database.set_post_metrics].
  repeat split; try (exists []; rewrite app_nil_r; reflexivity).
  eexists. reflexivity.
Qed.

Lemma add_post_grows (now : string) (p : Post.t) (d : Database.t) :
  grows d (snd (Database.add_post now p d)).
Proof.
  rewrite add_post_db. unfold Database.insert_or_ignore_post.
  destruct (_ || _); cbn [fst]; [apply grows_refl|].
  unfold grows.
  cbn [Database.accounts Database.posts Database.post_metrics
       Database.account_metrics Database.set_posts].
  repeat split; try (exists []; rewrite app_nil_r; reflexivity).
  eexists. reflexivity.
Qed.

(** What [collect_account] does to the store, whatever the adapter
    answers: nothing, or an update in place of the stored account, or the
    insertion of an account whose key is free; then possibly one account
    snapshot, of an account that is stored. *)
Lemma collect_account_effect (self : BaseCollector.t) (username : string)
    (w : World) :
  exists d1,
    (d1 = db w
     \/ (exists now a e,
           Database.get_account (BaseCollector.platform self) username (db w)
             = Some e
           /\ Account.id a = Account.id e
           /\ d1 = Database.update_account now a (db w))
     \/ (exists now a,
           Database.get_account (Account.platform a) (Account.username a)
             (db w) = None
           /\ d1 = snd (Database.add_account now a (db w))))
    /\ (db (snd (BaseCollector.collect_account self username w)) = d1
        \/ exists m acc i,
             db (snd (BaseCollector.collect_account self username w))
               = snd (Database.add_account_metrics m d1)
             /\ In acc (Database.accounts d1)
             /\ Account.id acc = Some i
             /\ AccountMetrics.account_id m = Some i).
Proof.
  unfold BaseCollector.collect_account. unfold_m.
  destruct (BaseCollector.fetch_account_info self username)
    as [[data|]|e]; cbn [fst snd db time ticks calls];
    try (exists (db w); split; [left|left]; reflexivity).
  destruct (AccountData.is_empty data); cbn [fst snd db time ticks calls];
    try (exists (db w); split; [left|left]; reflexivity).
  destruct (Database.get_account (BaseCollector.platform self) username
              (db w)) as [existing|] eqn:Hget;
    cbn [fst snd db time ticks calls Account.id].
  - match goal with
    | |- context [Database.update_account ?t ?a (db w)] =>
        exists (Database.update_account t a (db w)); split;
          [right; left; exists t, a, existing;
           split; [first [exact Hget|reflexivity]|split; reflexivity]|]
    end.
    destruct (Account.id existing) as [i|] eqn:Hid.
    + right.
      match goal with
      | |- context [Database.add_account_metrics ?m ?d] =>
          destruct (Database.add_account_metrics m d) as [o d2] eqn:E;
          exists m
      end.
      cbn [snd db].
      assert (Hin : In existing (Database.accounts (db w)))
        by (apply (find_some _ _ Hget)).
      match goal with
      | |- context [Database.update_account ?t ?a (db w)] =>
          pose (upd := fun r : Account.t =>
                  if sql_eq_int (Account.id r) (Account.id a) then
                    Account.mk (Account.id r) (Account.platform r)
                      (Account.username r) (Account.display_name a)
                      (Account.account_id r) (Account.follower_count a)
                      (Account.following_count a) (Account.post_count a)
                      (Account.bio a) (Account.created_at r) t
                  else r)
      end.
      exists (upd existing), i.
      split; [rewrite E; destruct o; reflexivity|].
      split; [|split; [|reflexivity]].
      * unfold Database.update_account.
        cbn [Database.accounts Database.set_accounts].
        apply (in_map upd) in Hin. exact Hin.
      * unfold upd. destruct (sql_eq_int _ _); cbn [Account.id]; exact Hid.
    + left. unfold Database.add_account_metrics.
      cbn [AccountMetrics.account_id is_null snd db]. reflexivity.
  - match goal with
    | |- context [Database.add_account ?t ?a (db w)] =>
        exists (snd (Database.add_account t a (db w))); split;
          [right; right; exists t, a; split; [first [exact Hget|reflexivity]|reflexivity]|];
          destruct (add_account_new_accounts t a (db w) Hget)
            as (row & Hrows & Hrow);
          destruct (Database.add_account t a (db w)) as [i d1] eqn:E
    end.
    cbn [fst snd db time ticks calls Account.id Account.follower_count
         Account.following_count Account.post_count] in *.
    right.
    match goal with
    | |- context [Database.add_account_metrics ?m ?d] =>
        destruct (Database.add_account_metrics m d) as [o d2] eqn:E2;
        exists m
    end.
    cbn [snd db]. exists row, i.
    split; [rewrite E2; destruct o; reflexivity|].
    split; [rewrite Hrows; apply in_or_app; right; left; reflexivity|].
    split; [exact Hrow|reflexivity].
Qed.

Lemma collect_account_grows (self : BaseCollector.t) (username : string)
    (w : World) :
  grows (db w) (db (snd (BaseCollector.collect_account self username w))).
Proof.
  destruct (collect_account_effect self username w) as (d1 & H1 & H2).
  assert (G : grows (db w) d1).
  { destruct H1 as [->|[(now & a & e & _ & _ & ->)|(now & a & Hn & ->)]].
    - apply grows_refl.
    - apply update_account_grows.
    - apply add_account_new_grows. exact Hn. }
  destruct H2 as [->|(m & _ & _ & -> & _)]; [exact G|].
  eapply grows_trans; [exact G|apply add_account_metrics_grows].
Qed.

Lemma collect_posts_loop_grows (self : BaseCollector.t)
    (account : Account.t) (now : string) (posts_data : list PostData.t) :
  forall (posts : list Post.t) (w : World),
    grows (db w)
      (db (snd (BaseCollector.collect_posts_loop self account now
                  posts_data posts w))).
Proof.
  induction posts_data as [|pd l IH]; intros posts w;
    [apply grows_refl|].
  cbn [BaseCollector.collect_posts_loop]. unfold bind at 1.
  unfold Db.add_post at 1. unfold_m. cbn [db time ticks calls].
  match goal with
  | |- context [Database.add_post ?t ?p (db w)] =>
      pose proof (add_post_grows t p (db w)) as G1;
      destruct (Database.add_post t p (db w)) as [[i|e] d1]
  end; cbn [snd] in G1; cbn [snd db time ticks calls]; [|exact G1].
  match goal with
  | |- context [Database.add_post_metrics ?m d1] =>
      pose proof (add_post_metrics_grows m d1) as G2;
      destruct (Database.add_post_metrics m d1) as [[j|e] d2]
  end; cbn [snd db] in *.
  - eapply grows_trans; [exact G1|]. eapply grows_trans; [exact G2|].
    match goal with
    | |- context [BaseCollector.collect_posts_loop self account now l ?ps
                    ?w2] => apply (IH ps w2)
    end.
  - eapply grows_trans; [exact G1|exact G2].
Qed.

Lemma collect_posts_grows (self : BaseCollector.t) (username : string)
    (limit : Z) (w : World) :
  grows (db w) (db (snd (BaseCollector.collect_posts self username limit w))).
Proof.
  unfold BaseCollector.collect_posts. unfold bind at 1.
  unfold Db.get_account at 1.
  destruct (Database.get_account _ _ (db w)) as [account|];
    [|apply grows_refl].
  unfold bind at 1. unfold BaseCollector.call_fetch_account_posts.
  unfold bind at 1. unfold log_call, lift_outcome.
  destruct (BaseCollector.fetch_account_posts self username limit)
    as [[|pd l]|e]; try apply grows_refl.
  unfold bind, datetime_now.
  match goal with
  | |- context [BaseCollector.collect_posts_loop self account ?t ?pds ?ps
                  ?w2] =>
      apply (collect_posts_loop_grows self account t pds ps w2)
  end.
Qed.

Lemma collect_all_grows (self : BaseCollector.t) (username : string)
    (post_limit : Z) (w : World) :
  grows (db w)
    (db (snd (BaseCollector.collect_all self username post_limit w))).
Proof.
  unfold BaseCollector.collect_all.
  pose proof (collect_account_grows self username w) as G1.
  destruct (BaseCollector.collect_account self username w)
    as [[[account|]|e] w1]; cbn [snd] in *; try exact G1.
  pose proof (collect_posts_grows self username post_limit w1) as G2.
  destruct (BaseCollector.collect_posts self username post_limit w1)
    as [[posts|e] w2]; cbn [snd] in *;
    eapply grows_trans; eassumption.
Qed.

Lemma run_collection_db (self : BaseCollector.t) (username : string)
    (post_limit : Z) (w : World) :
  db (snd (run_collection self username post_limit w))
  = db (snd (BaseCollector.collect_all self username post_limit
               (mkWorld (db w) (time w) (S (ticks w)) (calls w)))).
Proof.
  unfold run_collection. cbn [datetime_now].
  destruct (BaseCollector.collect_all self username post_limit _)
    as [result w1].
  destruct (CollectResult.success result); reflexivity.
Qed.

(** X7 ([BaseCollector.collect_all], [run_collection]): a collection
    attempt only adds to the store, whatever the adapter answers and
    whether it succeeds or fails.  The stored accounts stay in their
    places with their rowid, platform, username, platform-given account id
    and creation time (only display name, counters, bio and [updated_at]
    of the collected account are rewritten); the posts and both kinds of
    snapshots are the lists they were, with the new rows after them.  No
    row is deleted and no id changes. *)
Theorem collect_all_only_adds (self : BaseCollector.t) (username : string)
    (post_limit : Z) (w : World) :
  grows (db w)
    (db (snd (BaseCollector.collect_all self username post_limit w)))
  /\ grows (db w) (db (snd (run_collection self username post_limit w))).
Proof.
  split; [apply collect_all_grows|].
  rewrite run_collection_db.
  apply (collect_all_grows self username post_limit
           (mkWorld (db w) (time w) (S (ticks w)) (calls w))).
Qed.

(** ** A collection attempt keeps the constraints and the references *)

Lemma grows_account (d d' : Database.t) (a : Account.t) :
  grows d d' -> In a (Database.accounts d) ->
  exists a', In a' (Database.accounts d') /\ Account.id a' = Account.id a.
Proof.
  intros ((l & E) & _) Ha.
  assert (H : In (account_identity a)
                 (map account_identity (Database.accounts d')))
    by (rewrite E; apply in_or_app; left; apply in_map; exact Ha).
  apply in_map_iff in H. destruct H as (a' & Ea & Ha').
  exists a'. split; [exact Ha'|]. unfold account_identity in Ea. congruence.
Qed.

Lemma grows_post (d d' : Database.t) (p : Post.t) :
  grows d d' -> In p (Database.posts d) -> In p (Database.posts d').
Proof.
  intros (_ & (l & E) & _) Hp. rewrite E. apply in_or_app. auto.
Qed.

(** The references of the old rows hold in a store that has grown; those
    of the new rows are to be shown. *)
Lemma refs_ok_grows (d d' : Database.t) :
  grows d d' -> refs_ok d ->
  (forall p, In p (Database.posts d') ->
     In p (Database.posts d)
     \/ exists a, In a (Database.accounts d')
                  /\ Post.account_id p = Account.id a) ->
  (forall m, In m (Database.post_metrics d') ->
     In m (Database.post_metrics d)
     \/ exists p i, In p (Database.posts d') /\ Post.id p = Some i
                    /\ PostMetrics.post_id m = Some i) ->
  (forall m, In m (Database.account_metrics d') ->
     In m (Database.account_metrics d)
     \/ exists a i, In a (Database.accounts d') /\ Account.id a = Some i
                    /\ AccountMetrics.account_id m = Some i) ->
  refs_ok d'.
Proof.
  intros G (F1 & F2 & F3) N1 N2 N3. split; [|split].
  - intros p Hp. destruct (N1 p Hp) as [Hold|Hnew]; [|exact Hnew].
    destruct (F1 p Hold) as (a & Ha & E).
    destruct (grows_account a G Ha) as (a' & Ha' & E').
    exists a'. split; [exact Ha'|congruence].
  - intros m Hm. destruct (N2 m Hm) as [Hold|Hnew]; [|exact Hnew].
    destruct (F2 m Hold) as (p & i & Hp & E1 & E2).
    exists p, i. split; [apply (grows_post p G Hp)|auto].
  - intros m Hm. destruct (N3 m Hm) as [Hold|Hnew]; [|exact Hnew].
    destruct (F3 m Hold) as (a & i & Ha & E1 & E2).
    destruct (grows_account a G Ha) as (a' & Ha' & E').
    exists a', i. split; [exact Ha'|split; congruence].
Qed.

Lemma update_account_refs_ok (now : string) (a : Account.t)
    (d : Database.t) :
  refs_ok d -> refs_ok (Database.update_account now a d).
Proof.
  intros H.
  apply (refs_ok_grows (update_account_grows now a d) H); auto.
Qed.

Lemma add_account_new_refs_ok (now : string) (a : Account.t)
    (d : Database.t) :
  Database.get_account (Account.platform a) (Account.username a) d = None ->
  refs_ok d -> refs_ok (snd (Database.add_account now a d)).
Proof.
  intros Hn H.
  apply (refs_ok_grows (add_account_new_grows now a d Hn) H); auto.
Qed.

Lemma add_account_metrics_refs_ok (m : AccountMetrics.t) (acc : Account.t)
    (i : Z) (d : Database.t) :
  In acc (Database.accounts d) -> Account.id acc = Some i ->
  AccountMetrics.account_id m = Some i ->
  refs_ok d -> refs_ok (snd (Database.add_account_metrics m d)).
Proof.
  intros Ha Hi Hm H.
  apply (refs_ok_grows (add_account_metrics_grows m d) H);
    unfold Database.add_account_metrics; rewrite Hm; cbn [is_null snd];
    cbn [Database.accounts Database.posts Database.post_metrics
         Database.account_metrics Database.set_account_metrics]; auto.
  intros m' Hm'. apply in_app_or in Hm'.
  destruct Hm' as [Hm'|[<-|[]]]; [auto|]. right. exists acc, i.
  destruct m; auto.
Qed.

Lemma collect_account_refs_ok (self : BaseCollector.t) (username : string)
    (w : World) :
  refs_ok (db w) ->
  refs_ok (db (snd (BaseCollector.collect_account self username w))).
Proof.
  intros H.
  destruct (collect_account_effect self username w) as (d1 & H1 & H2).
  assert (G : refs_ok d1).
  { destruct H1 as [->|[(now & a & e & _ & _ & ->)|(now & a & Hn & ->)]].
    - exact H.
    - apply update_account_refs_ok, H.
    - apply add_account_new_refs_ok; assumption. }
  destruct H2 as [->|(m & acc & i & -> & Ha & Hi & Hm)]; [exact G|].
  eapply add_account_metrics_refs_ok; eassumption.
Qed.

Lemma collect_account_store_ok (self : BaseCollector.t) (username : string)
    (w : World) :
  store_ok (db w) ->
  store_ok (db (snd (BaseCollector.collect_account self username w))).
Proof.
  intros H.
  destruct (collect_account_effect self username w) as (d1 & H1 & H2).
  assert (G : store_ok d1).
  { destruct H1 as [->|[(now & a & e & _ & _ & ->)|(now & a & Hn & ->)]].
    - exact H.
    - apply update_account_store_ok, H.
    - apply add_account_store_ok, H. }
  destruct H2 as [->|(m & acc & i & -> & _)]; [exact G|].
  apply add_account_metrics_store_ok, G.
Qed.

Lemma collect_posts_loop_store_ok (self : BaseCollector.t)
    (account : Account.t) (now : string) (posts_data : list PostData.t) :
  forall (posts : list Post.t) (w : World),
    store_ok (db w) ->
    store_ok (db (snd (BaseCollector.collect_posts_loop self account now
                         posts_data posts w))).
Proof.
  induction posts_data as [|pd l IH]; intros posts w H; [exact H|].
  cbn [BaseCollector.collect_posts_loop]. unfold bind at 1.
  unfold Db.add_post at 1. unfold_m. cbn [db time ticks calls].
  match goal with
  | |- context [Database.add_post ?t ?p (db w)] =>
      pose proof (add_post_store_ok t p H) as G1;
      destruct (Database.add_post t p (db w)) as [[i|e] d1]
  end; cbn [snd] in G1; cbn [snd db time ticks calls]; [|exact G1].
  match goal with
  | |- context [Database.add_post_metrics ?m d1] =>
      pose proof (add_post_metrics_store_ok m G1) as G2;
      destruct (Database.add_post_metrics m d1) as [[j|e] d2]
  end; cbn [snd db] in *; [|exact G2].
  match goal with
  | |- context [BaseCollector.collect_posts_loop self account now l ?ps
                  ?w2] => apply (IH ps w2)
  end.
  exact G2.
Qed.

Lemma collect_posts_loop_account_metrics (self : BaseCollector.t)
    (account : Account.t) (now : string) (posts_data : list PostData.t) :
  forall (posts : list Post.t) (w : World),
    Database.account_metrics
      (db (snd (BaseCollector.collect_posts_loop self account now
                  posts_data posts w)))
    = Database.account_metrics (db w).
Proof.
  induction posts_data as [|pd l IH]; intros posts w; [reflexivity|].
  cbn [BaseCollector.collect_posts_loop]. unfold bind at 1.
  unfold Db.add_post at 1. unfold_m. cbn [db time ticks calls].
  match goal with
  | |- context [Database.add_post ?t ?p (db w)] =>
      assert (G1 : Database.account_metrics
                     (snd (Database.add_post t p (db w)))
                   = Database.account_metrics (db w))
        by (rewrite add_post_db; unfold Database.insert_or_ignore_post;
            destruct (_ || _); reflexivity);
      destruct (Database.add_post t p (db w)) as [[i|e] d1]
  end; cbn [snd] in G1; cbn [snd db time ticks calls]; [|exact G1].
  match goal with
  | |- context [Database.add_post_metrics ?m d1] =>
      assert (G2 : Database.account_metrics
                     (snd (Database.add_post_metrics m d1))
                   = Database.account_metrics d1)
        by (unfold Database.add_post_metrics; destruct (is_null _);
            reflexivity);
      destruct (Database.add_post_metrics m d1) as [[j|e] d2]
  end; cbn [snd db] in *; [|congruence].
  match goal with
  | |- context [BaseCollector.collect_posts_loop self account now l ?ps
                  ?w2] => rewrite (IH ps w2)
  end.
  cbn [db]. congruence.
Qed.

Lemma collect_posts_loop_refs_ok (self : BaseCollector.t)
    (stored : Account.t) (now : string) (posts_data : list PostData.t)
    (posts : list Post.t) (w : World) :
  In stored (Database.accounts (db w)) ->
  refs_ok (db w) ->
  refs_ok (db (snd (BaseCollector.collect_posts_loop self stored now
                      posts_data posts w))).
Proof.
  intros Hst H.
  pose proof (collect_posts_loop_grows self stored now posts_data posts w)
    as G.
  pose proof (collect_posts_loop_account_metrics self stored now posts_data
                posts w) as Ham.
  destruct (@collect_posts_loop_appends self stored now posts_data posts w
              (proj1 H) Hst) as (Hacc & Hfk & Hmono & new & Hpm & Hnew).
  apply (refs_ok_grows G H).
  - intros p Hp. right. apply Hfk. exact Hp.
  - intros m Hm. rewrite Hpm in Hm. apply in_app_or in Hm.
    destruct Hm as [Hm|Hm]; [auto|]. right.
    rewrite Forall_forall in Hnew.
    destruct (Hnew m Hm) as (p & a & i & Hp & Hi & Hmi & _).
    exists p, i. auto.
  - intros m Hm. left. rewrite Ham in Hm. exact Hm.
Qed.

Lemma collect_posts_cases (self : BaseCollector.t) (username : string)
    (limit : Z) (w : World) :
  db (snd (BaseCollector.collect_posts self username limit w)) = db w
  \/ exists account now posts_data w0,
       In account (Database.accounts (db w))
       /\ db w0 = db w
       /\ snd (BaseCollector.collect_posts self username limit w)
          = snd (BaseCollector.collect_posts_loop self account now
                   posts_data [] w0).
Proof.
  unfold BaseCollector.collect_posts,
    BaseCollector.call_fetch_account_posts, bind, Db.get_account, log_call,
    lift_outcome, datetime_now, ret.
  destruct (Database.get_account _ _ (db w)) as [account|] eqn:Hget;
    [|left; reflexivity].
  destruct (BaseCollector.fetch_account_posts self username limit)
    as [[|pd l]|e]; try (left; reflexivity).
  right.
  eexists account, _, _, _. split; [apply (find_some _ _ Hget)|].
  split; [|reflexivity]. reflexivity.
Qed.

Lemma collect_posts_keeps (self : BaseCollector.t) (username : string)
    (limit : Z) (w : World) :
  let w' := snd (BaseCollector.collect_posts self username limit w) in
  (store_ok (db w) -> store_ok (db w'))
  /\ (refs_ok (db w) -> refs_ok (db w')).
Proof.
  cbn zeta.
  destruct (collect_posts_cases self username limit w)
    as [->|(account & now & pds & w0 & Hin & Hdb & ->)]; [tauto|].
  rewrite <- Hdb in *. split; intros H.
  - apply collect_posts_loop_store_ok, H.
  - apply collect_posts_loop_refs_ok; assumption.
Qed.

Lemma collect_all_keeps (self : BaseCollector.t) (username : string)
    (post_limit : Z) (w : World) :
  let w' := snd (BaseCollector.collect_all self username post_limit w) in
  (store_ok (db w) -> store_ok (db w'))
  /\ (refs_ok (db w) -> refs_ok (db w')).
Proof.
  cbn zeta. unfold BaseCollector.collect_all.
  pose proof (@collect_account_store_ok self username w) as S1.
  pose proof (@collect_account_refs_ok self username w) as R1.
  destruct (BaseCollector.collect_account self username w)
    as [[[account|]|e] w1]; cbn [snd] in *; try (split; assumption).
  destruct (collect_posts_keeps self username post_limit w1) as [S2 R2].
  cbn zeta in S2, R2.
  destruct (BaseCollector.collect_posts self username post_limit w1)
    as [[posts|e] w2]; cbn [snd] in *; split; auto.
Qed.

(** X8 ([BaseCollector.collect_all], [run_collection]): a collection
    attempt keeps the store consistent, whatever the adapter answers and
    whether the attempt succeeds or fails.  If the tables satisfy their
    PRIMARY KEY and UNIQUE constraints before, they do after; and if no
    row is an orphan before (every post has a stored owner, every snapshot
    references a stored post or account), none is after: the declared
    foreign keys, which SQLite does not enforce here, are respected by
    the collector. *)
Theorem collect_all_keeps_store_consistent (self : BaseCollector.t)
    (username : string) (post_limit : Z) (w : World) :
  let w1 := snd (BaseCollector.collect_all self username post_limit w) in
  let w2 := snd (run_collection self username post_limit w) in
  (store_ok (db w) -> store_ok (db w1) /\ store_ok (db w2))
  /\ (refs_ok (db w) -> refs_ok (db w1) /\ refs_ok (db w2)).
Proof.
  cbn zeta. rewrite run_collection_db.
  pose proof (collect_all_keeps self username post_limit w) as K1.
  pose proof (collect_all_keeps self username post_limit
                (mkWorld (db w) (time w) (S (ticks w)) (calls w))) as K2.
  cbn zeta in K1, K2. cbn [db] in K2. tauto.
Qed.

Lemma store_ok_sample_db : store_ok sample_db.
Proof.
  unfold sample_db. cbn zeta.
  apply add_account_metrics_store_ok.
  do 3 apply add_post_metrics_store_ok.
  do 2 apply add_post_store_ok.
  do 2 apply add_account_store_ok.
  apply store_ok_empty.
Qed.

Lemma refs_ok_sample_db : refs_ok sample_db.
Proof.
  split; [|split]; intros x Hx; vm_compute in Hx;
    repeat (destruct Hx as [<-|Hx]); try contradiction;
    first [ eexists; split; [left; reflexivity|reflexivity]
          | eexists; split; [right; left; reflexivity|reflexivity]
          | eexists _, _; split; [left; reflexivity|split; reflexivity]
          | eexists _, _;
            split; [right; left; reflexivity|split; reflexivity] ].
Qed.

Lemma collect_all_keeps_store_consistent_witness :
  (store_ok (db (snd (BaseCollector.collect_all sample_collector "bob" 20
                        sample_world)))
   /\ store_ok (db (snd (run_collection sample_collector "bob" 20
                           sample_world))))
  /\ (refs_ok (db (snd (BaseCollector.collect_all sample_collector "bob" 20
                          sample_world)))
      /\ refs_ok (db (snd (run_collection sample_collector "bob" 20
                             sample_world)))).
Proof.
  destruct (collect_all_keeps_store_consistent sample_collector "bob" 20
              sample_world) as [S R].
  split; [apply S, store_ok_sample_db|apply R, refs_ok_sample_db].
Defined.


(** ** Deleting an account leaves no orphan *)

Lemma delete_account_refs_ok (account_id : Z) (d : Database.t) :
  refs_ok d -> refs_ok (snd (Database.delete_account account_id d)).
Proof.
  intros (F1 & F2 & F3). unfold Database.delete_account. cbn [snd].
  unfold refs_ok, fk_posts, fk_post_metrics, fk_account_metrics.
  cbn [Database.accounts Database.posts Database.post_metrics
       Database.account_metrics Database.set_accounts Database.set_posts
       Database.set_post_metrics Database.set_account_metrics].
  split; [|split].
  - intros p Hp. apply filter_In in Hp. destruct Hp as [Hp Hn].
    apply negb_true_iff, sql_eq_int_some_false in Hn.
    destruct (F1 p Hp) as (a & Ha & E). exists a. split; [|exact E].
    apply filter_In. split; [exact Ha|].
    apply negb_true_iff, sql_eq_int_some_false. congruence.
  - intros m Hm. apply filter_In in Hm. destruct Hm as [Hm Hn].
    apply negb_true_iff in Hn.
    destruct (F2 m Hm) as (p & i & Hp & E1 & E2). exists p, i.
    split; [|auto]. apply filter_In. split; [exact Hp|].
    apply negb_true_iff. destruct (sql_eq_int (Post.account_id p) _) eqn:O;
      [|reflexivity].
    exfalso. apply sql_eq_int_some in O.
    assert (X : existsb (sql_eq_int (PostMetrics.post_id m))
                  (map Post.id
                     (filter (fun p0 => sql_eq_int (Post.account_id p0)
                                          (Some account_id))
                             (Database.posts d))) = true).
    { apply existsb_exists. exists (Some i). split.
      - rewrite <- E1. apply in_map. apply filter_In. split; [exact Hp|].
        apply sql_eq_int_some. exact O.
      - rewrite E2. simpl. apply Z.eqb_refl. }
    congruence.
  - intros m Hm. apply filter_In in Hm. destruct Hm as [Hm Hn].
    apply negb_true_iff, sql_eq_int_some_false in Hn.
    destruct (F3 m Hm) as (a & i & Ha & E1 & E2). exists a, i.
    split; [|auto]. apply filter_In. split; [exact Ha|].
    apply negb_true_iff, sql_eq_int_some_false. congruence.
Qed.

(** X9 ([Database.delete_account]): on a store without orphans the
    deletion of an account leaves none.  If every post has a stored owner
    and every snapshot references a stored post or a stored account, the
    same holds after [delete_account], for every id: the four DELETE
    statements remove all the rows that referenced what they remove. *)
Theorem delete_account_keeps_refs (account_id : Z) (d : Database.t) :
  refs_ok d -> refs_ok (snd (Database.delete_account account_id d)).
Proof. apply delete_account_refs_ok. Qed.

Lemma delete_account_keeps_refs_witness :
  refs_ok (snd (Database.delete_account 1 sample_db)).
Proof.
  apply (delete_account_keeps_refs 1 refs_ok_sample_db).
Defined.


(** ** What a successful [collect_account] leaves *)

Lemma find_map_by_key (g : Account.t -> Account.t) (platform username : string)
    (rows : list Account.t) :
  (forall r, Account.platform (g r) = Account.platform r
             /\ Account.username (g r) = Account.username r) ->
  find (Database.account_key platform username) (map g rows)
  = option_map g (find (Database.account_key platform username) rows).
Proof.
  intros H. induction rows as [|r rows IH]; simpl; [reflexivity|].
  unfold Database.account_key at 1 3. destruct (H r) as [-> ->].
  destruct (_ && _); [reflexivity|exact IH].
Qed.

(** X10 ([BaseCollector.collect_account]): when [collect_account] returns
    an account, that account has a rowid; the store holds under
    (platform, username) a row with this rowid and with the display name,
    platform-given id, counters and bio of the returned account, whose
    [updated_at] is the first reading of the clock; exactly one account
    snapshot was appended, with the rowid of the account, the second
    reading of the clock, the three counters of the returned account and
    zero totals; posts and post snapshots are untouched and the clock was
    read twice. *)
Theorem collect_account_snapshot (self : BaseCollector.t)
    (username : string) (account : Account.t) (w w1 : World) :
  BaseCollector.collect_account self username w = (Ok (Some account), w1) ->
  exists (i : Z) (stored : Account.t),
    Account.id account = Some i
    /\ Database.get_account (BaseCollector.platform self) username (db w1)
       = Some stored
    /\ stored
       = Account.mk (Some i) (BaseCollector.platform self) username
           (Account.display_name account) (Account.account_id account)
           (Account.follower_count account)
           (Account.following_count account) (Account.post_count account)
           (Account.bio account) (Account.created_at stored)
           (time w (ticks w))
    /\ Database.account_metrics (db w1)
       = Database.account_metrics (db w)
         ++ [AccountMetrics.mk
               (Some (next_rowid AccountMetrics.id
                        (Database.seq_account_metrics (db w))
                        (Database.account_metrics (db w))))
               (Some i) (time w (S (ticks w)))
               (Account.follower_count account)
               (Account.following_count account)
               (Account.post_count account) 0 0 0]
    /\ Database.posts (db w1) = Database.posts (db w)
    /\ Database.post_metrics (db w1) = Database.post_metrics (db w)
    /\ ticks w1 = S (S (ticks w)).
Proof.
  unfold BaseCollector.collect_account. unfold_m.
  destruct (BaseCollector.fetch_account_info self username)
    as [[data|]|e]; cbn [db time ticks calls]; try discriminate.
  destruct (AccountData.is_empty data); cbn [db time ticks calls];
    try discriminate.
  destruct (Database.get_account (BaseCollector.platform self) username
              (db w)) as [existing|] eqn:Hget;
    cbn [db time ticks calls Account.id].
  - unfold Database.add_account_metrics at 1.
    cbn [AccountMetrics.account_id].
    destruct (Account.id existing) as [i|] eqn:Hid; cbn [is_null];
      [|discriminate].
    intros H. inversion H. subst account w1. clear H.
    cbn [db time ticks calls Account.id Account.display_name
         Account.account_id Account.follower_count Account.following_count
         Account.post_count Account.bio Database.account_metrics
         Database.posts Database.post_metrics Database.seq_account_metrics
         Database.set_account_metrics Database.update_account
         Database.set_accounts].
    eexists i, _. split; [reflexivity|].
    split; [|split; [|repeat split]].
    + unfold Database.get_account.
      cbn [Database.accounts Database.set_accounts Database.update_account
           Database.set_account_metrics].
      rewrite find_map_by_key
        by (intros r; destruct (sql_eq_int _ _); split; reflexivity).
      unfold Database.get_account in Hget. rewrite Hget.
      cbn [option_map Account.id]. rewrite Hid. cbn [sql_eq_int].
      rewrite Z.eqb_refl. reflexivity.
    + cbn [Account.created_at]. rewrite ?Hid.
      unfold Database.get_account in Hget.
      apply find_some in Hget. destruct Hget as [_ K].
      unfold Database.account_key in K. apply andb_true_iff in K.
      destruct K as [K1 K2]. apply String.eqb_eq in K1, K2.
      rewrite K1, K2. reflexivity.
  - unfold Database.add_account at 1.
    cbn [db time ticks calls Account.id Account.platform Account.username
         Account.follower_count Account.following_count Account.post_count
         fst snd].
    unfold Database.add_account_metrics.
    cbn [AccountMetrics.account_id is_null].
    intros H. inversion H. subst account w1. clear H.
    cbn [db time ticks calls Account.id Account.display_name
         Account.account_id Account.follower_count Account.following_count
         Account.post_count Account.bio Database.account_metrics
         Database.posts Database.post_metrics Database.seq_account_metrics
         Database.set_account_metrics Database.set_accounts].
    eexists _, _. split; [reflexivity|].
    split; [|split; [|repeat split]].
    + unfold Database.get_account.
      cbn [Database.accounts Database.set_accounts
           Database.set_account_metrics].
      rewrite find_app_none by apply find_filter_negb.
      cbn [find]. unfold Database.account_key at 1.
      cbn [Account.platform Account.username].
      rewrite !String.eqb_refl. reflexivity.
    + reflexivity.
Qed.

Lemma collect_account_snapshot_witness :
  exists (i : Z) (stored : Account.t),
    Database.get_account "instagram" "bob"
      (db (snd (BaseCollector.collect_account sample_collector "bob"
                  sample_world))) = Some stored
    /\ Account.id stored = Some i
    /\ List.length
         (Database.account_metrics
            (db (snd (BaseCollector.collect_account sample_collector "bob"
                        sample_world))))
       = S (List.length (Database.account_metrics sample_db)).
Proof.
  destruct (BaseCollector.collect_account sample_collector "bob"
              sample_world) as [[[account|]|e] w1] eqn:E;
    try (vm_compute in E; discriminate).
  destruct (collect_account_snapshot sample_collector "bob" sample_world E)
    as (i & stored & _ & Hget & Hst & Ham & _).
  exists i, stored. cbn [snd]. split; [exact Hget|].
  split; [rewrite Hst; reflexivity|].
  rewrite Ham, length_app. cbn [List.length sample_world db]. lia.
Defined.


(** ** The batch of a successful [collect_posts] *)

Lemma collect_posts_loop_batch (self : BaseCollector.t)
    (account : Account.t) (now : string) (posts_data : list PostData.t) :
  forall (posts posts' : list Post.t) (w w1 : World),
    BaseCollector.collect_posts_loop self account now posts_data posts w
      = (Ok posts', w1) ->
    exists (ps : list Post.t) (new : list PostMetrics.t),
      posts' = posts ++ ps
      /\ Database.post_metrics (db w1) = Database.post_metrics (db w) ++ new
      /\ Forall2 (post_of_record self account) ps posts_data
      /\ Forall2 (snapshot_of_record now) new posts_data
      /\ Forall2 (fun m p => PostMetrics.post_id m = Post.id p
                             /\ exists j, PostMetrics.id m = Some j) new ps.
Proof.
  induction posts_data as [|pd l IH]; intros posts posts' w w1.
  - cbn [BaseCollector.collect_posts_loop]. unfold ret. intros H.
    inversion H. subst. exists [], []. rewrite !app_nil_r.
    repeat split; constructor.
  - cbn [BaseCollector.collect_posts_loop]. unfold bind at 1.
    unfold Db.add_post at 1. unfold_m. cbn [db time ticks calls].
    match goal with
    | |- context [Database.add_post ?t ?p (db w)] =>
        destruct (Database.add_post t p (db w)) as [[i|e] d1] eqn:E1
    end; [|discriminate].
    destruct (add_post_result _ _ _ E1) as (_ & _ & _ & _ & Hpm).
    cbn [Post.set_id Post.id]. unfold Database.add_post_metrics at 1.
    cbn [PostMetrics.post_id is_null db time ticks calls].
    intros H. apply IH in H.
    destruct H as (ps & new & E & Em & F1 & F2 & F3).
    cbn [db Database.post_metrics Database.set_post_metrics] in Em.
    eexists (_ :: ps), (_ :: new).
    split; [rewrite E, <- app_assoc; reflexivity|].
    split; [rewrite Em, Hpm, <- app_assoc; reflexivity|].
    split; [|split]; constructor; try assumption.
    + unfold post_of_record.
      cbn [Post.id Post.account_id Post.platform Post.post_id
           Post.post_type Post.caption Post.published_at Post.url
           Post.thumbnail_url Post.created_at].
      split; [eexists; reflexivity|]. repeat split.
    + unfold snapshot_of_record, PostMetrics.set_id.
      cbn [PostMetrics.collected_at PostMetrics.views PostMetrics.likes
           PostMetrics.comments PostMetrics.shares PostMetrics.saves
           PostMetrics.plays PostMetrics.reach PostMetrics.impressions].
      repeat split.
    + unfold PostMetrics.set_id. cbn [PostMetrics.post_id PostMetrics.id
                                      Post.id].
      split; [reflexivity|eexists; reflexivity].
Qed.

(** X11 ([BaseCollector.collect_posts]): when [collect_posts] returns for
    a stored account whose fetch gave the records [posts_data], it returns
    one post object per record, in the order of the records, each with a
    rowid, the rowid of the account, the platform of the collector and the
    ['post_id'] of its record; and it has appended to [post_metrics]
    exactly one snapshot per record, in the same order, each with the
    rowid of its post, the eight counters of its record (0 for an absent
    one) and one and the same [collected_at] for the whole batch, the
    reading of the clock made before the loop. *)
Theorem collect_posts_batch (self : BaseCollector.t) (username : string)
    (limit : Z) (account : Account.t) (posts_data : list PostData.t)
    (posts : list Post.t) (w w1 : World) :
  Database.get_account (BaseCollector.platform self) username (db w)
    = Some account ->
  BaseCollector.fetch_account_posts self username limit = Ok posts_data ->
  BaseCollector.collect_posts self username limit w = (Ok posts, w1) ->
  exists new : list PostMetrics.t,
    Database.post_metrics (db w1) = Database.post_metrics (db w) ++ new
    /\ Forall2 (post_of_record self account) posts posts_data
    /\ Forall2 (snapshot_of_record (time w (ticks w))) new posts_data
    /\ Forall2 (fun m p => PostMetrics.post_id m = Post.id p
                           /\ exists j, PostMetrics.id m = Some j) new posts.
Proof.
  intros Hget Hfetch.
  unfold BaseCollector.collect_posts,
    BaseCollector.call_fetch_account_posts, bind, Db.get_account, log_call,
    lift_outcome, datetime_now, ret.
  rewrite Hget, Hfetch. destruct posts_data as [|pd l].
  - intros H. inversion H. subst. cbn [db]. exists [].
    rewrite app_nil_r. repeat split; constructor.
  - cbn [db time ticks calls]. intros H.
    apply collect_posts_loop_batch in H.
    destruct H as (ps & new & E & Em & F1 & F2 & F3).
    cbn [app] in E. subst ps. cbn [db] in Em. exists new. auto.
Qed.

Lemma collect_posts_batch_witness :
  exists (posts : list Post.t) (new : list PostMetrics.t),
    fst (BaseCollector.collect_posts
           (with_posts sample_collector twice_listed) "bob" 20 sample_world)
      = Ok posts
    /\ List.length posts = 2%nat
    /\ Forall2 (snapshot_of_record "2024-03-01T12:00:00") new twice_listed.
Proof.
  destruct (BaseCollector.collect_posts
              (with_posts sample_collector twice_listed) "bob" 20
              sample_world) as [[posts|e] w1] eqn:E;
    [|vm_compute in E; discriminate].
  destruct (Database.get_account "instagram" "bob" sample_db)
    as [account|] eqn:Hget; [|vm_compute in Hget; discriminate].
  destruct (@collect_posts_batch (with_posts sample_collector twice_listed)
              "bob" 20 account twice_listed posts sample_world w1 Hget
              eq_refl E) as (new & _ & F1 & F2 & _).
  exists posts, new. split; [reflexivity|].
  split; [apply Forall2_length in F1; exact F1|exact F2].
Defined.


(** ** Adding an account from the command line and from the web *)

Lemma get_collector_supported (collectors : Collectors) (platform : string) :
  supported platform = true ->
  exists collector,
    get_collector collectors platform = inr collector
    /\ BaseCollector.platform collector = platform.
Proof.
  unfold supported, SUPPORTED_PLATFORMS, get_collector. cbn [existsb].
  destruct (String.eqb_spec platform "instagram") as [->|_];
    [eexists; split; reflexivity|].
  destruct (String.eqb_spec platform "tiktok") as [->|_];
    [eexists; split; reflexivity|].
  destruct (String.eqb_spec platform "youtube") as [->|_];
    [eexists; split; reflexivity|].
  destruct (String.eqb_spec platform "twitter") as [->|_];
    [eexists; split; reflexivity|].
  discriminate.
Qed.

Lemma get_collector_unsupported (collectors : Collectors)
    (platform : string) :
  supported platform = false ->
  get_collector collectors platform = inl (UnsupportedPlatform platform).
Proof.
  unfold supported, SUPPORTED_PLATFORMS, get_collector. cbn [existsb].
  destruct (String.eqb platform "instagram"); [discriminate|].
  destruct (String.eqb platform "tiktok"); [discriminate|].
  destruct (String.eqb platform "youtube"); [discriminate|].
  destruct (String.eqb platform "twitter"); [discriminate|reflexivity].
Qed.

(** A lookup by key finds, in a store that has grown, the account it
    found before. *)
Lemma grows_get_account (d d' : Database.t) (platform username : string)
    (a : Account.t) :
  grows d d' ->
  Database.get_account platform username d = Some a ->
  exists a', Database.get_account platform username d' = Some a'
             /\ account_identity a' = account_identity a.
Proof.
  intros ((x & E) & _). unfold Database.get_account.
  revert E. generalize (Database.accounts d').
  induction (Database.accounts d) as [|r rows IH]; intros l' E;
    [discriminate|].
  destruct l' as [|r' rows']; [discriminate|].
  cbn [map app] in E. inversion E as [[E1 E2 E3 E4 E5 E6]].
  cbn [find]. unfold Database.account_key at 1 3. rewrite E2, E3.
  destruct (_ && _).
  - intros H. inversion H. subst a. exists r'. split; [reflexivity|].
    unfold account_identity. congruence.
  - apply IH. exact E6.
Qed.

Lemma db_add_account_new (account : Account.t) (w : World) :
  Database.get_account (Account.platform account)
    (Account.username account) (db w) = None ->
  exists (w1 : World) (stored : Account.t),
    let i := next_rowid Account.id (Database.seq_accounts (db w))
               (Database.accounts (db w)) in
    Db.add_account account w = (Ok i, w1)
    /\ db w1 = snd (Database.add_account (time w (ticks w)) account (db w))
    /\ Database.accounts (db w1) = Database.accounts (db w) ++ [stored]
    /\ stored
       = Account.mk (Some i) (Account.platform account)
           (Account.username account) (Account.display_name account)
           (Account.account_id account) (Account.follower_count account)
           (Account.following_count account) (Account.post_count account)
           (Account.bio account) (time w (ticks w)) (time w (ticks w))
    /\ Database.get_account (Account.platform account)
         (Account.username account) (db w1) = Some stored.
Proof.
  intros Hn. unfold Db.add_account. unfold_m.
  unfold Database.add_account. cbn [db time ticks calls fst snd].
  eexists _, _. cbn zeta. split; [reflexivity|]. cbn [db].
  split; [reflexivity|].
  cbn [Database.accounts Database.set_accounts].
  rewrite (find_none_filter_negb _ _ Hn).
  split; [reflexivity|]. split; [reflexivity|].
  unfold Database.get_account in *.
  cbn [Database.accounts Database.set_accounts].
  rewrite find_app_none by exact Hn. cbn [find].
  unfold Database.account_key at 1. cbn [Account.platform Account.username].
  rewrite !String.eqb_refl. reflexivity.
Qed.

(** X12 ([cmd_add]): the command never replaces a stored account.  It
    ends with an exit code (no exception of [get_collector] leaves it,
    the platform having been checked); the store only grows, so no stored
    account loses its rowid.  On an unsupported platform it returns 1 and
    on a stored (platform, username) it returns 0, the world unchanged in
    both cases.  Otherwise it returns 0 and the account is then found
    under its key, with the next rowid of the table, also after the
    collection that [--collect] runs. *)
Theorem cmd_add_never_replaces (lower : string -> string)
    (collectors : Collectors) (arg_platform arg_username : string)
    (arg_display_name : option string) (arg_collect : bool) (w : World) :
  let platform := lower arg_platform in
  let r := cmd_add lower collectors arg_platform arg_username
             arg_display_name arg_collect w in
  (exists code, fst r = inr code)
  /\ grows (db w) (db (snd r))
  /\ (supported platform = false -> r = (inr 1, w))
  /\ (supported platform = true ->
      Database.get_account platform arg_username (db w) <> None ->
      r = (inr 0, w))
  /\ (supported platform = true ->
      Database.get_account platform arg_username (db w) = None ->
      fst r = inr 0
      /\ exists stored,
           Database.get_account platform arg_username (db (snd r))
             = Some stored
           /\ Account.id stored
              = Some (next_rowid Account.id
                        (Database.seq_accounts (db w))
                        (Database.accounts (db w)))).
Proof.
  cbn zeta. unfold cmd_add.
  destruct (supported (lower arg_platform)) eqn:Hs; cbn [negb].
  2:{ split; [eexists; reflexivity|]. split; [apply grows_refl|].
      split; [reflexivity|]. split; discriminate. }
  destruct (Database.get_account (lower arg_platform) arg_username (db w))
    as [existing|] eqn:Hget.
  { split; [eexists; reflexivity|]. split; [apply grows_refl|].
    split; [discriminate|]. split; [reflexivity|discriminate]. }
  match goal with
  | |- context [Db.add_account ?a w] =>
      destruct (@db_add_account_new a w Hget)
        as (w1 & stored & Eadd & Edb & Eacc & Est & Efind);
      cbn zeta in Eadd; rewrite Eadd
  end.
  cbn [Account.platform Account.username] in Efind.
  assert (G1 : grows (db w) (db w1)).
  { rewrite Edb. apply add_account_new_grows. exact Hget. }
  destruct arg_collect.
  - destruct (get_collector_supported collectors (lower arg_platform) Hs)
      as (collector & -> & Hp).
    pose proof (collect_all_grows collector arg_username 20 w1) as G2.
    destruct (BaseCollector.collect_all collector arg_username 20 w1)
      as [result w2]. cbn [fst snd] in *.
    split; [eexists; reflexivity|].
    split; [eapply grows_trans; eassumption|].
    split; [discriminate|]. split; [intros _ H; contradiction|].
    intros _ _. split; [reflexivity|].
    destruct (grows_get_account (lower arg_platform) arg_username G2 Efind)
      as (a' & Ha' & Hid).
    exists a'. split; [exact Ha'|].
    unfold account_identity in Hid. rewrite Est in Hid.
    cbn [Account.id] in Hid. congruence.
  - cbn [fst snd]. split; [eexists; reflexivity|]. split; [exact G1|].
    split; [discriminate|]. split; [intros _ H; contradiction|].
    intros _ _. split; [reflexivity|]. exists stored.
    split; [exact Efind|]. rewrite Est. reflexivity.
Qed.

Lemma cmd_add_never_replaces_witness :
  cmd_add (fun s => s) sample_collectors "instagram" "bob" None true
    sample_world = (inr 0, sample_world)
  /\ cmd_add (fun s => s) sample_collectors "facebook" "bob" None true
       sample_world = (inr 1, sample_world)
  /\ fst (cmd_add (fun s => s) sample_collectors "tiktok" "carol" None true
            sample_world) = inr 0.
Proof.
  split; [|split].
  - apply (cmd_add_never_replaces (fun s => s) sample_collectors
             "instagram" "bob" None true sample_world); [reflexivity|].
    vm_compute. discriminate.
  - apply (cmd_add_never_replaces (fun s => s) sample_collectors
             "facebook" "bob" None true sample_world). reflexivity.
  - apply (cmd_add_never_replaces (fun s => s) sample_collectors
             "tiktok" "carol" None true sample_world); reflexivity.
Defined.

(** X13 ([api_add_account], [_collect_account_data]): the handler never
    replaces a stored account either.  An unsupported platform and a
    stored (platform, username) are answered with an error, the world
    unchanged and no task scheduled.  Otherwise the answer carries the
    next rowid of the table, the account is then found under the cleaned
    key with that rowid, and the background task is scheduled exactly
    when [collect_now] is set; running that task only adds to the store
    and the account keeps its rowid. *)
Theorem api_add_account_never_replaces (lower clean : string -> string)
    (collectors : Collectors) (req_platform req_username : string)
    (collect_now : bool) (w : World) :
  let platform := lower req_platform in
  let username := clean req_username in
  let r := api_add_account lower clean req_platform req_username
             collect_now w in
  (supported platform = false -> r = (AddUnsupported platform, None, w))
  /\ (supported platform = true ->
      Database.get_account platform username (db w) <> None ->
      r = (AddExists platform username, None, w))
  /\ (supported platform = true ->
      Database.get_account platform username (db w) = None ->
      let i := next_rowid Account.id (Database.seq_accounts (db w))
                 (Database.accounts (db w)) in
      let w2 := _collect_account_data collectors platform username
                  (snd r) in
      fst r = (AddDone i platform username,
               if collect_now then Some (platform, username) else None)
      /\ grows (db w) (db (snd r))
      /\ grows (db (snd r)) (db w2)
      /\ (exists stored,
            Database.get_account platform username (db (snd r))
              = Some stored /\ Account.id stored = Some i)
      /\ (exists stored,
            Database.get_account platform username (db w2) = Some stored
            /\ Account.id stored = Some i)).
Proof.
  cbn zeta. unfold api_add_account.
  destruct (supported (lower req_platform)) eqn:Hs; cbn [negb].
  2:{ split; [reflexivity|]. split; discriminate. }
  destruct (Database.get_account (lower req_platform) (clean req_username)
              (db w)) as [existing|] eqn:Hget.
  { split; [discriminate|]. split; [reflexivity|discriminate]. }
  split; [discriminate|]. split; [intros _ H; contradiction|].
  intros _ _.
  match goal with
  | |- context [Db.add_account ?a w] =>
      destruct (@db_add_account_new a w Hget)
        as (w1 & stored & Eadd & Edb & Eacc & Est & Efind);
      cbn zeta in Eadd; rewrite Eadd
  end.
  cbn [Account.platform Account.username] in Efind. cbn [fst snd].
  split; [reflexivity|].
  split; [rewrite Edb; apply add_account_new_grows; exact Hget|].
  assert (G2 : grows (db w1)
                 (db (_collect_account_data collectors (lower req_platform)
                        (clean req_username) w1))).
  { unfold _collect_account_data.
    destruct (get_collector collectors (lower req_platform));
      [apply grows_refl|apply collect_all_grows]. }
  split; [exact G2|].
  split; [exists stored; split; [exact Efind|rewrite Est; reflexivity]|].
  destruct (grows_get_account (lower req_platform) (clean req_username) G2
              Efind) as (a' & Ha' & Hid).
  exists a'. split; [exact Ha'|].
  unfold account_identity in Hid. rewrite Est in Hid.
  cbn [Account.id] in Hid. congruence.
Qed.

Lemma api_add_account_never_replaces_witness :
  api_add_account (fun s => s) (fun s => s) "instagram" "bob" true
    sample_world = (AddExists "instagram" "bob", None, sample_world)
  /\ fst (api_add_account (fun s => s) (fun s => s) "tiktok" "carol" true
            sample_world)
     = (AddDone 3 "tiktok" "carol", Some ("tiktok", "carol")%string).
Proof.
  split.
  - apply (api_add_account_never_replaces (fun s => s) (fun s => s)
             sample_collectors "instagram" "bob" true sample_world);
      [reflexivity|].
    vm_compute. discriminate.
  - apply (api_add_account_never_replaces (fun s => s) (fun s => s)
             sample_collectors "tiktok" "carol" true sample_world);
      reflexivity.
Defined.

(** ** Collecting every account *)

Lemma collect_accounts_loop_spec (collectors : Collectors) (post_limit : Z)
    (accounts : list Account.t) :
  forall (results : list AccountResult.t) (w : World),
    let r := collect_accounts_loop collectors post_limit accounts results
               w in
    grows (db w) (db (snd r))
    /\ (store_ok (db w) -> store_ok (db (snd r)))
    /\ (refs_ok (db w) -> refs_ok (db (snd r)))
    /\ (forallb (fun a => supported (Account.platform a)) accounts = true ->
        exists new,
          fst r = inr (results ++ new)
          /\ map (fun x => (AccountResult.platform x,
                            AccountResult.username x)) new
             = map (fun a => (Account.platform a, Account.username a))
                   accounts)
    /\ (forall pre bad rest,
          accounts = pre ++ bad :: rest ->
          forallb (fun a => supported (Account.platform a)) pre = true ->
          supported (Account.platform bad) = false ->
          fst r = inl (UnsupportedPlatform (Account.platform bad))).
Proof.
  induction accounts as [|a l IH]; intros results w; cbn zeta.
  - cbn [collect_accounts_loop fst snd].
    split; [apply grows_refl|]. split; [trivial|]. split; [trivial|].
    split.
    + intros _. exists []. rewrite app_nil_r. split; reflexivity.
    + intros [|? ?] bad rest E; discriminate.
  - cbn [collect_accounts_loop].
    destruct (supported (Account.platform a)) eqn:Hs.
    + destruct (get_collector_supported collectors _ Hs)
        as (collector & -> & Hp).
      pose proof (collect_all_grows collector (Account.username a)
                    post_limit w) as G.
      pose proof (collect_all_keeps collector (Account.username a)
                    post_limit w) as K. cbn zeta in K.
      destruct (BaseCollector.collect_all collector (Account.username a)
                  post_limit w) as [result w1].
      cbn [snd] in G, K.
      match goal with
      | |- context [collect_accounts_loop collectors post_limit l ?rs w1] =>
          specialize (IH rs w1); cbn zeta in IH;
          destruct IH as (I1 & I2 & I3 & I4 & I5)
      end.
      split; [eapply grows_trans; eassumption|].
      split; [tauto|]. split; [tauto|]. split.
      * cbn [forallb]. rewrite Hs. cbn [andb]. intros Hall.
        destruct (I4 Hall) as (new & E1 & E2).
        eexists (_ :: new). rewrite E1, <- app_assoc. cbn [app map].
        split; [reflexivity|].
        cbn [AccountResult.platform AccountResult.username].
        rewrite E2. reflexivity.
      * intros [|p pre] bad rest E Hpre Hbad; cbn [app] in E;
          inversion E; subst.
        -- congruence.
        -- cbn [forallb] in Hpre. apply andb_true_iff in Hpre.
           apply (I5 pre bad rest eq_refl (proj2 Hpre) Hbad).
    + rewrite (get_collector_unsupported collectors _ Hs). cbn [fst snd].
      split; [apply grows_refl|]. split; [trivial|]. split; [trivial|].
      split.
      * cbn [forallb]. rewrite Hs. discriminate.
      * intros [|p pre] bad rest E Hpre Hbad; cbn [app] in E;
          inversion E; subst; [reflexivity|].
        cbn [forallb] in Hpre. rewrite Hs in Hpre. discriminate.
Qed.

(** X14 ([collect_all_accounts], [get_collector]): collecting every
    listed account only adds to the store and keeps its constraints and
    references.  When every listed account is of a supported platform
    the function returns one result per account, in the order of the
    listing, under the platform and username of the account.  An account
    of another platform makes [get_collector] raise its ValueError, which
    nothing catches: no list is returned, although the accounts listed
    before it have been collected.  With no account listed nothing is
    done. *)
Theorem collect_all_accounts_one_result_each (collectors : Collectors)
    (platform : option string) (post_limit : Z) (w : World) :
  let accounts := Database.get_all_accounts platform (db w) in
  let r := collect_all_accounts collectors platform post_limit w in
  grows (db w) (db (snd r))
  /\ (store_ok (db w) -> store_ok (db (snd r)))
  /\ (refs_ok (db w) -> refs_ok (db (snd r)))
  /\ (forallb (fun a => supported (Account.platform a)) accounts = true ->
      exists results,
        fst r = inr results
        /\ map (fun x => (AccountResult.platform x,
                          AccountResult.username x)) results
           = map (fun a => (Account.platform a, Account.username a))
                 accounts)
  /\ (forall pre bad rest,
        accounts = pre ++ bad :: rest ->
        forallb (fun a => supported (Account.platform a)) pre = true ->
        supported (Account.platform bad) = false ->
        fst r = inl (UnsupportedPlatform (Account.platform bad))
        /\ snd r = snd (collect_accounts_loop collectors post_limit pre []
                          w))
  /\ (accounts = [] -> r = (inr [], w)).
Proof.
  cbn zeta. unfold collect_all_accounts.
  destruct (Database.get_all_accounts platform (db w)) as [|a l] eqn:E.
  - cbn [fst snd]. split; [apply grows_refl|]. split; [trivial|].
    split; [trivial|]. split; [exists []; split; reflexivity|].
    split; [|reflexivity]. intros [|? ?] bad rest E'; discriminate.
  - destruct (collect_accounts_loop_spec collectors post_limit (a :: l) []
                w) as (I1 & I2 & I3 & I4 & I5).
    split; [exact I1|]. split; [exact I2|]. split; [exact I3|].
    split; [exact I4|]. split; [|discriminate].
    intros pre bad rest E' Hpre Hbad.
    split; [apply (I5 pre bad rest E' Hpre Hbad)|].
    rewrite E'. clear -Hpre Hbad. generalize (@nil AccountResult.t).
    revert w. induction pre as [|p pre IH]; intros w results.
    + cbn [app collect_accounts_loop].
      rewrite (get_collector_unsupported collectors _ Hbad). reflexivity.
    + cbn [forallb] in Hpre. apply andb_true_iff in Hpre.
      destruct Hpre as [Hp Hpre]. cbn [app collect_accounts_loop].
      destruct (get_collector_supported collectors _ Hp)
        as (collector & -> & _).
      destruct (BaseCollector.collect_all collector (Account.username p)
                  post_limit w) as [result w1].
      apply IH. exact Hpre.
Qed.

Lemma collect_all_accounts_one_result_each_witness :
  (exists results,
     fst (collect_all_accounts sample_collectors None 20 sample_world)
       = inr results
     /\ map (fun x => (AccountResult.platform x, AccountResult.username x))
            results
        = [("instagram", "alice"); ("instagram", "bob")]%string)
  /\ store_ok (db (snd (collect_all_accounts sample_collectors None 20
                          sample_world)))
  /\ refs_ok (db (snd (collect_all_accounts sample_collectors None 20
                         sample_world))).
Proof.
  destruct (collect_all_accounts_one_result_each sample_collectors None 20
              sample_world) as (_ & S & R & H & _).
  split; [apply H; reflexivity|].
  split; [apply S, store_ok_sample_db|apply R, refs_ok_sample_db].
Defined.

(** ** Removing an account from the command line *)

Lemma length_le_1_unique {A : Type} (l : list A) (x y : A) :
  (List.length l <= 1)%nat -> In x l -> In y l -> x = y.
Proof.
  destruct l as [|a [|b l]]; simpl; intros H Hx Hy; try lia; try tauto.
  destruct Hx as [<-|[]], Hy as [<-|[]]. reflexivity.
Qed.

Lemma find_filter_implied_in {A : Type} (f g : A -> bool) (l : list A) :
  (forall x, In x l -> f x = true -> g x = true) ->
  find f (filter g l) = find f l.
Proof.
  induction l as [|x l IH]; intros H; simpl; [reflexivity|].
  assert (IH' : find f (filter g l) = find f l)
    by (apply IH; intros y Hy; apply H; right; exact Hy).
  destruct (g x) eqn:G; simpl.
  - destruct (f x); [reflexivity|exact IH'].
  - destruct (f x) eqn:F; [|exact IH'].
    rewrite (H x (or_introl eq_refl) F) in G. discriminate.
Qed.

Lemma account_key_true (platform username : string) (r : Account.t) :
  Database.account_key platform username r = true
  <-> Account.platform r = platform /\ Account.username r = username.
Proof.
  unfold Database.account_key. rewrite andb_true_iff, !String.eqb_eq.
  tauto.
Qed.

(** X15 ([cmd_remove]): on a store that satisfies its constraints, the
    command returns 1 and changes nothing when the account is not stored,
    and returns 0 and changes nothing when the removal is not confirmed
    (no [--force] and an answer other than y).  A confirmed removal
    returns 0; afterwards the account is not found under its key, no
    stored post is owned by it, every other key finds the account it found
    before, and the store still satisfies its constraints and, if it had
    no orphan, has none. *)
Theorem cmd_remove_removes_one (lower : string -> string)
    (arg_platform arg_username : string) (arg_force : bool)
    (answer : string) (d : Database.t) :
  store_ok d ->
  let platform := lower arg_platform in
  let r := cmd_remove lower arg_platform arg_username arg_force answer d in
  (Database.get_account platform arg_username d = None -> r = (1, d))
  /\ (Database.get_account platform arg_username d <> None ->
      arg_force = false -> lower answer <> "y"%string -> r = (0, d))
  /\ (forall account,
        Database.get_account platform arg_username d = Some account ->
        arg_force = true \/ lower answer = "y"%string ->
        fst r = 0
        /\ Database.get_account platform arg_username (snd r) = None
        /\ (forall p, In p (Database.posts (snd r)) ->
                      Post.account_id p <> Account.id account)
        /\ (forall platform' username',
              (platform', username') <> (platform, arg_username) ->
              Database.get_account platform' username' (snd r)
              = Database.get_account platform' username' d)
        /\ store_ok (snd r)
        /\ (refs_ok d -> refs_ok (snd r))).
Proof.
  intros Hok. cbn zeta. unfold cmd_remove.
  destruct (Database.get_account (lower arg_platform) arg_username d)
    as [account|] eqn:Hget.
  2:{ split; [reflexivity|]. split; [intros H; contradiction|].
      intros account H. discriminate. }
  split; [discriminate|]. split.
  { intros _ -> Ha. cbn [negb andb].
    destruct (String.eqb_spec (lower answer) "y"); [contradiction|].
    reflexivity. }
  intros a Ha Hconf. inversion Ha. subst a. clear Ha.
  replace (negb arg_force && negb (String.eqb (lower answer) "y"))
    with false
    by (destruct Hconf as [->| ->]; [reflexivity|];
        rewrite String.eqb_refl; destruct arg_force; reflexivity).
  destruct Hok as (Hpk & Hp & Hpm & Ham & Hu & Hwf).
  assert (Hok : store_ok d) by (unfold store_ok; auto 10).
  unfold Database.get_account in Hget.
  pose proof (find_some _ _ Hget) as [Hin Hkey].
  destruct (proj2 Hpk account Hin) as [i Hi]. rewrite Hi. cbn [fst snd].
  split; [reflexivity|].
  assert (Hacc : Database.accounts (snd (Database.delete_account i d))
                 = filter (fun r => negb (sql_eq_int (Account.id r)
                                            (Some i)))
                          (Database.accounts d)) by reflexivity.
  split; [|split; [|split; [|split]]].
  - unfold Database.get_account. rewrite Hacc.
    destruct (find _ (filter _ _)) as [x|] eqn:F; [|reflexivity].
    exfalso. apply find_some in F. destruct F as [Hx Kx].
    apply filter_In in Hx. destruct Hx as [Hx Hn].
    apply negb_true_iff, sql_eq_int_some_false in Hn.
    assert (x = account).
    { apply (@length_le_1_unique _
               (filter (Database.account_key (lower arg_platform)
                          arg_username) (Database.accounts d)));
        [apply Hu| |]; apply filter_In; auto. }
    subst x. contradiction.
  - intros p Hp'. unfold Database.delete_account in Hp'.
    cbn [snd Database.posts Database.set_accounts Database.set_posts
         Database.set_post_metrics Database.set_account_metrics] in Hp'.
    apply filter_In in Hp'. destruct Hp' as [_ Hn].
    apply negb_true_iff, sql_eq_int_some_false in Hn. congruence.
  - intros p' u' Hne. unfold Database.get_account. rewrite Hacc.
    apply find_filter_implied_in. intros x Hx Kx.
    apply negb_true_iff, sql_eq_int_some_false. intros Hxi.
    assert (x = account)
      by (apply (@NoDup_map_inj _ _ Account.id (Database.accounts d));
          [apply Hpk|assumption|assumption|congruence]).
    subst x. apply account_key_true in Kx, Hkey.
    destruct Kx as [<- <-], Hkey as [K1 K2]. apply Hne. congruence.
  - apply delete_account_store_ok. exact Hok.
  - apply delete_account_refs_ok.
Qed.

Lemma cmd_remove_removes_one_witness :
  fst (cmd_remove (fun s => s) "instagram" "alice" true EmptyString
         sample_db) = 0
  /\ Database.get_account "instagram" "alice"
       (snd (cmd_remove (fun s => s) "instagram" "alice" true EmptyString
               sample_db)) = None
  /\ Database.get_account "instagram" "bob"
       (snd (cmd_remove (fun s => s) "instagram" "alice" true EmptyString
               sample_db))
     = Database.get_account "instagram" "bob" sample_db.
Proof.
  destruct (Database.get_account "instagram" "alice" sample_db)
    as [account|] eqn:Hget; [|vm_compute in Hget; discriminate].
  destruct (cmd_remove_removes_one (fun s => s) "instagram" "alice" true
              EmptyString store_ok_sample_db) as (_ & _ & H).
  destruct (H account Hget (or_introl eq_refl)) as (H1 & H2 & _ & H4 & _).
  split; [exact H1|]. split; [exact H2|].
  apply H4. discriminate.
Defined.


(** ** The per-platform statistics *)

Lemma dict_get_set_same {V : Type} (key : string) (v : V)
    (items : list (string * V)) :
  dict_get key (dict_set key v items) = Some v.
Proof.
  induction items as [|[k x] rest IH]; cbn [dict_set dict_get].
  - rewrite String.eqb_refl. reflexivity.
  - destruct (String.eqb k key) eqn:E; cbn [dict_get]; rewrite E;
      [reflexivity|exact IH].
Qed.

Lemma dict_get_set_other {V : Type} (key key' : string) (v : V)
    (items : list (string * V)) :
  key' <> key ->
  dict_get key' (dict_set key v items) = dict_get key' items.
Proof.
  intros Hne. induction items as [|[k x] rest IH]; cbn [dict_set dict_get].
  - destruct (String.eqb_spec key key'); [congruence|reflexivity].
  - destruct (String.eqb_spec k key) as [->|Hk]; cbn [dict_get].
    + destruct (String.eqb_spec key key'); [congruence|reflexivity].
    + destruct (String.eqb k key'); [reflexivity|exact IH].
Qed.

Lemma py_sum_cons (x : Z) (l : list Z) : py_sum (x :: l) = x + py_sum l.
Proof.
  unfold py_sum. cbn [fold_left].
  assert (H : forall l a, fold_left Z.add l a = a + fold_left Z.add l 0).
  { clear. induction l as [|y l IH]; intros a; cbn [fold_left]; [lia|].
    rewrite (IH (a + y)), (IH (0 + y)). lia. }
  rewrite (H l (0 + x)). lia.
Qed.

Lemma py_sum_app (l1 l2 : list Z) :
  py_sum (l1 ++ l2) = py_sum l1 + py_sum l2.
Proof.
  induction l1 as [|x l1 IH]; [reflexivity|].
  cbn [app]. rewrite !py_sum_cons, IH. lia.
Qed.

(** The entry of a platform after the loop has seen [accounts], from any
    dictionary that the loop could have built. *)
Lemma platform_stats_get (platform : string) (accounts : list Account.t) :
  forall stats,
    dict_get platform (fold_left platform_stats_step accounts stats)
    = match accounts_on platform accounts, dict_get platform stats with
      | [], e => e
      | l, e =>
          let s := match e with
                   | Some s => s
                   | None => PlatformStat.mk 0 0 0
                   end in
          Some (PlatformStat.mk
                  (PlatformStat.count s + Z.of_nat (List.length l))
                  (PlatformStat.followers s
                   + py_sum (map Account.follower_count l))
                  (PlatformStat.posts s
                   + py_sum (map Account.post_count l)))
      end.
Proof.
  induction accounts as [|a l IH]; intros stats.
  - cbn [fold_left accounts_on filter]. reflexivity.
  - cbn [fold_left]. rewrite IH. unfold accounts_on. cbn [filter].
    fold (accounts_on platform l).
    assert (Hstep :
              dict_get platform (platform_stats_step stats a)
              = if String.eqb (Account.platform a) platform then
                  let s := match dict_get platform stats with
                           | Some s => s
                           | None => PlatformStat.mk 0 0 0
                           end in
                  Some (PlatformStat.mk (PlatformStat.count s + 1)
                          (PlatformStat.followers s
                           + Account.follower_count a)
                          (PlatformStat.posts s + Account.post_count a))
                else dict_get platform stats).
    { unfold platform_stats_step.
      destruct (String.eqb_spec (Account.platform a) platform) as [->|Hne].
      - destruct (dict_get platform stats) as [s|] eqn:G.
        + rewrite G, dict_get_set_same. reflexivity.
        + rewrite dict_get_set_same, dict_get_set_same. reflexivity.
      - destruct (dict_get (Account.platform a) stats) as [s|] eqn:G.
        + rewrite G, dict_get_set_other by congruence. reflexivity.
        + rewrite dict_get_set_same, !dict_get_set_other by congruence.
          reflexivity. }
    rewrite Hstep.
    destruct (String.eqb (Account.platform a) platform) eqn:E.
    + cbn zeta. destruct (accounts_on platform l) as [|b l'].
      * unfold py_sum. cbn [map List.length fold_left]. f_equal; lia.
      * cbn [PlatformStat.count PlatformStat.followers PlatformStat.posts].
        cbn [map]. rewrite !py_sum_cons.
        cbn [List.length]. f_equal. f_equal; lia.
    + reflexivity.
Qed.

(** X16 ([api_get_stats]): the per-platform statistics that the loop
    builds agree with the accounts table and with the summary of the
    store.  A platform is a key exactly when an account has
    it; its entry holds the number of its accounts and the sums of their
    follower and post counts; that number is the one
    [get_collection_summary] reports for the platform; [total_accounts] is
    the number of accounts; and [last_collected] is the one of the
    summary. *)
Theorem api_get_stats_consistent (d : Database.t) :
  let stats := api_get_stats d in
  let summary := Reads.get_collection_summary d in
  Stats.total_accounts stats = Z.of_nat (List.length (Database.accounts d))
  /\ (forall platform,
        dict_get platform (Stats.platform_stats stats)
        = match accounts_on platform (Database.accounts d) with
          | [] => None
          | l => Some (PlatformStat.mk (Z.of_nat (List.length l))
                         (py_sum (map Account.follower_count l))
                         (py_sum (map Account.post_count l)))
          end)
  /\ (forall platform,
        option_map PlatformStat.count
          (dict_get platform (Stats.platform_stats stats))
        = dict_get platform (Reads.accounts_by_platform summary))
  /\ Stats.last_collected stats = Reads.last_collected summary.
Proof.
  cbn zeta. unfold api_get_stats.
  cbn [Stats.total_accounts Stats.platform_stats Stats.last_collected
       Database.get_all_accounts].
  split; [reflexivity|].
  assert (H : forall platform,
            dict_get platform (platform_stats (Database.accounts d))
            = match accounts_on platform (Database.accounts d) with
              | [] => None
              | l => Some (PlatformStat.mk (Z.of_nat (List.length l))
                             (py_sum (map Account.follower_count l))
                             (py_sum (map Account.post_count l)))
              end).
  { intros platform. unfold platform_stats. rewrite platform_stats_get.
    cbn [dict_get]. destruct (accounts_on platform _); reflexivity. }
  split; [exact H|]. split; [|reflexivity].
  intros platform. rewrite H.
  unfold Reads.get_collection_summary. cbn [Reads.accounts_by_platform].
  rewrite dict_get_group_count.
  assert (C : forall l,
            count_occ string_dec (map Account.platform l) platform
            = List.length (accounts_on platform l)).
  { induction l as [|a l IH]; [reflexivity|].
    cbn [map count_occ accounts_on filter].
    destruct (string_dec (Account.platform a) platform) as [E|E].
    - rewrite E, String.eqb_refl. cbn [List.length]. f_equal. exact IH.
    - destruct (String.eqb_spec (Account.platform a) platform);
        [contradiction|exact IH]. }
  destruct (in_dec string_dec platform
              (map Account.platform (Database.accounts d))) as [Hin|Hout].
  - rewrite C. apply (count_occ_In string_dec) in Hin. rewrite C in Hin.
    destruct (accounts_on platform (Database.accounts d));
      [simpl in Hin; lia|reflexivity].
  - apply (count_occ_not_In string_dec) in Hout. rewrite C in Hout.
    destruct (accounts_on platform (Database.accounts d));
      [reflexivity|discriminate].
Qed.


(** ** The weekly report *)

Lemma calc_engagement_rate_raises (likes comments followers : Z) (e : Exn) :
  ReportGenerator._calc_engagement_rate likes comments followers = Raise e ->
  e = OverflowError /\ followers <> 0.
Proof.
  unfold ReportGenerator._calc_engagement_rate, PyFloat.int_true_div.
  destruct (Z.eqb_spec followers 0) as [->|Hne]; [discriminate|].
  destruct (SFdiv _ _ _ _); intros H; inversion H. auto.
Qed.

Lemma py_sum_nil : py_sum [] = 0.
Proof. reflexivity. Qed.

(** X17 ([generate_weekly_report], the row of one account): the row never
    fails on a division by zero, the only possible exception being the
    OverflowError of the engagement rate, and then the account has
    followers.  A row that is produced counts at most 50 posts, those that
    [get_posts_with_latest_metrics] returns under its default limit; with
    no post its totals and averages are 0; otherwise each average is the
    floor of total by count; an account without followers has the rate
    0.0; and the follower change is 0 with fewer than two account
    snapshots, and otherwise the difference of the follower counts of two
    snapshots of the account of which the first is as new as every
    snapshot of the account and the second as new as every other one. *)
Theorem weekly_report_row_sound (order_by_desc : Sorter)
    (account : Account.t) (i : Z) (d : Database.t) :
  sorter_ok order_by_desc ->
  Account.id account = Some i ->
  let history := Reads.account_snapshots_of i d in
  (forall e, weekly_report_row order_by_desc account d = Raise e ->
             e = OverflowError /\ Account.follower_count account <> 0)
  /\ forall row,
       weekly_report_row order_by_desc account d = Ok row ->
       WeeklyRow.post_count row
       = Z.of_nat (List.length
                     (Resolver.get_posts_with_latest_metrics order_by_desc
                        (Some i) None 50 d))
       /\ 0 <= WeeklyRow.post_count row <= 50
       /\ (WeeklyRow.post_count row = 0 ->
           WeeklyRow.total_views row = 0 /\ WeeklyRow.total_likes row = 0
           /\ WeeklyRow.total_comments row = 0
           /\ WeeklyRow.total_shares row = 0
           /\ WeeklyRow.avg_views row = 0 /\ WeeklyRow.avg_likes row = 0)
       /\ (0 < WeeklyRow.post_count row ->
           WeeklyRow.post_count row * WeeklyRow.avg_views row
           <= WeeklyRow.total_views row
           < WeeklyRow.post_count row * (WeeklyRow.avg_views row + 1)
           /\ WeeklyRow.post_count row * WeeklyRow.avg_likes row
              <= WeeklyRow.total_likes row
              < WeeklyRow.post_count row * (WeeklyRow.avg_likes row + 1))
       /\ (Account.follower_count account = 0 ->
           WeeklyRow.engagement_rate row = S754_zero false)
       /\ ((List.length history < 2)%nat ->
           WeeklyRow.follower_change row = 0)
       /\ ((2 <= List.length history)%nat ->
           exists m0 m1 rest,
             Permutation (m0 :: m1 :: rest) history
             /\ WeeklyRow.follower_change row
                = AccountMetrics.follower_count m0
                  - AccountMetrics.follower_count m1
             /\ String.leb (AccountMetrics.collected_at m1)
                  (AccountMetrics.collected_at m0) = true
             /\ Forall (fun m => String.leb (AccountMetrics.collected_at m)
                                   (AccountMetrics.collected_at m1) = true)
                       rest).
Proof.
  intros Hok Hid. cbn zeta. unfold weekly_report_row. rewrite Hid.
  set (rows := Resolver.get_posts_with_latest_metrics order_by_desc
                 (Some i) None 50 d).
  split.
  { intros e.
    destruct (ReportGenerator._calc_engagement_rate _ _ _) as [rate|e0]
      eqn:E; [discriminate|].
    intros H. inversion H. subst e0.
    apply (calc_engagement_rate_raises _ _ _ E). }
  intros row.
  destruct (ReportGenerator._calc_engagement_rate _ _ _) as [rate|e0]
    eqn:E; [|discriminate].
  intros H. inversion H. subst row. clear H.
  cbn [WeeklyRow.post_count WeeklyRow.total_views WeeklyRow.total_likes
       WeeklyRow.total_comments WeeklyRow.total_shares WeeklyRow.avg_views
       WeeklyRow.avg_likes WeeklyRow.engagement_rate
       WeeklyRow.follower_change].
  assert (Hlen : Z.of_nat (List.length rows) <= 50)
    by (apply sql_limit_length; lia).
  split; [reflexivity|]. split; [lia|]. split; [|split; [|split; [|split]]].
  - intros Hz. assert (rows = []) as ->
      by (destruct rows; [reflexivity|simpl in Hz; lia]).
    unfold column_sum. cbn [map List.length]. rewrite py_sum_nil.
    cbn. repeat split; reflexivity.
  - intros Hpos.
    destruct (Z.eqb_spec (Z.of_nat (List.length rows)) 0) as [?|_]; [lia|].
    split.
    + pose proof (Z.mul_div_le (column_sum LatestRow.views rows) _ Hpos).
      pose proof (Z.mul_succ_div_gt (column_sum LatestRow.views rows) _
                    Hpos).
      lia.
    + pose proof (Z.mul_div_le (column_sum LatestRow.likes rows) _ Hpos).
      pose proof (Z.mul_succ_div_gt (column_sum LatestRow.likes rows) _
                    Hpos).
      lia.
  - intros Hf. rewrite Hf in E.
    unfold ReportGenerator._calc_engagement_rate in E. cbn [Z.eqb] in E.
    inversion E. reflexivity.
  - intros Hshort. unfold Reads.get_account_metrics_history.
    destruct (Hok _ AccountMetrics.collected_at
                (Reads.account_snapshots_of i d)) as [Hperm _].
    apply Permutation_length in Hperm.
    destruct (order_by_desc _ _ _) as [|m0 [|m1 l]]; try reflexivity.
    simpl in Hperm. lia.
  - intros Hlong. unfold Reads.get_account_metrics_history.
    destruct (Hok _ AccountMetrics.collected_at
                (Reads.account_snapshots_of i d)) as [Hperm Hsorted].
    pose proof (Permutation_length Hperm) as Hl.
    destruct (order_by_desc _ _ _) as [|m0 [|m1 l]];
      try (simpl in Hl; lia).
    exists m0, m1, l. split; [exact Hperm|].
    split; [reflexivity|].
    inversion Hsorted as [|? ? Hs0 Hall0]; subst.
    inversion Hs0 as [|? ? Hs1 Hall1]; subst.
    split; [inversion Hall0; assumption|exact Hall1].
Qed.

Lemma weekly_report_row_sound_witness :
  Database.get_account "instagram" "alice" sample_db = Some alice
  /\ exists row,
       weekly_report_row sort_by_desc alice sample_db = Ok row
       /\ WeeklyRow.post_count row = 1
       /\ WeeklyRow.follower_change row = 0.
Proof.
  split; [reflexivity|].
  destruct (weekly_report_row sort_by_desc alice sample_db) as [row|e]
    eqn:E; [|vm_compute in E; discriminate].
  exists row. split; [reflexivity|].
  destruct (@weekly_report_row_sound sort_by_desc alice 1 sample_db
              sort_by_desc_ok eq_refl) as [_ H].
  destruct (H row E) as (H1 & _ & _ & _ & _ & H6 & _).
  split; [rewrite H1; reflexivity|].
  apply H6. vm_compute. lia.
Defined.

(** ** The dashboard *)

Lemma insert_reverse_perm {A : Type} (key : A -> Z) (x : A) (l : list A) :
  Permutation (insert_reverse key x l) (x :: l).
Proof.
  induction l as [|y l IH]; cbn [insert_reverse]; [reflexivity|].
  destruct (key y <=? key x); [reflexivity|].
  rewrite IH. apply perm_swap.
Qed.

Lemma insert_reverse_sorted {A : Type} (key : A -> Z) (x : A) (l : list A) :
  StronglySorted (fun a b => key b <= key a) l ->
  StronglySorted (fun a b => key b <= key a) (insert_reverse key x l).
Proof.
  induction 1 as [|y l Hs IH Hall]; cbn [insert_reverse].
  - repeat constructor.
  - destruct (Z.leb_spec (key y) (key x)) as [Hle|Hgt].
    + constructor; [constructor; assumption|].
      constructor; [exact Hle|].
      rewrite Forall_forall in *. intros z Hz. specialize (Hall z Hz). lia.
    + constructor; [exact IH|].
      rewrite Forall_forall in *. intros z Hz.
      apply (Permutation_in _ (insert_reverse_perm key x l)) in Hz.
      destruct Hz as [<-|Hz]; [lia|auto].
Qed.

Lemma sorted_reverse_perm {A : Type} (key : A -> Z) (l : list A) :
  Permutation (sorted_reverse key l) l.
Proof.
  induction l as [|x l IH]; [reflexivity|].
  unfold sorted_reverse. cbn [fold_right]. rewrite insert_reverse_perm.
  constructor. exact IH.
Qed.

Lemma sorted_reverse_sorted {A : Type} (key : A -> Z) (l : list A) :
  StronglySorted (fun a b => key b <= key a) (sorted_reverse key l).
Proof.
  induction l as [|x l IH]; [constructor|].
  unfold sorted_reverse. cbn [fold_right]. apply insert_reverse_sorted.
  exact IH.
Qed.

(** The sort is stable: the rows of one key keep their order. *)
Lemma sorted_reverse_stable {A : Type} (key : A -> Z) (k : Z) (l : list A) :
  filter (fun x => key x =? k) (sorted_reverse key l)
  = filter (fun x => key x =? k) l.
Proof.
  induction l as [|x l IH]; [reflexivity|].
  unfold sorted_reverse. cbn [fold_right]. fold (sorted_reverse key l).
  cbn [filter]. rewrite <- IH. generalize (sorted_reverse key l).
  clear IH. intros s. induction s as [|y s IHs]; cbn [insert_reverse filter];
    [reflexivity|].
  destruct (Z.leb_spec (key y) (key x)) as [Hle|Hgt]; cbn [filter];
    [reflexivity|].
  rewrite IHs.
  destruct (Z.eqb_spec (key x) k) as [Hx|Hx];
    destruct (Z.eqb_spec (key y) k) as [Hy|Hy]; try reflexivity. lia.
Qed.

Lemma sorted_firstn_top {A : Type} (key : A -> Z) (n : nat) (s : list A)
    (r r' : A) :
  StronglySorted (fun a b => key b <= key a) s ->
  In r (firstn n s) -> In r' s -> key r < key r' -> In r' (firstn n s).
Proof.
  revert s. induction n as [|n IH]; intros s Hs Hr Hr' Hlt;
    [contradiction|].
  destruct s as [|x s]; [contradiction|].
  inversion Hs as [|? ? Hs' Hall]; subst. cbn [firstn] in *.
  rewrite Forall_forall in Hall.
  destruct Hr' as [->|Hr']; [left; reflexivity|].
  destruct Hr as [->|Hr].
  - specialize (Hall r' Hr'). lia.
  - right. apply IH; assumption.
Qed.

(** X18 ([get_dashboard_data]): the top posts are the top.  The list has
    5 rows, or all the rows of the query when it returns fewer; its rows
    are rows of the query, in descending order of their views, a missing
    view count being 0; a row of the query with more views than a listed
    row is listed too; rows with the same views stand in the order of the
    query; the recent posts are the first 10 rows of the same query; and
    [total_accounts] is the sum of the per-platform counts of the
    summary. *)
Theorem dashboard_top_posts (order_by_desc : Sorter) (d : Database.t) :
  let data := get_dashboard_data order_by_desc d in
  let all_posts :=
    Resolver.get_posts_with_latest_metrics order_by_desc None None 1000 d in
  let top := Dashboard.top_posts_by_views data in
  List.length top = Nat.min 5 (List.length all_posts)
  /\ (forall r, In r top -> In r all_posts)
  /\ StronglySorted (fun a b => views_or_0 b <= views_or_0 a) top
  /\ (forall r r', In r top -> In r' all_posts ->
                   views_or_0 r < views_or_0 r' -> In r' top)
  /\ (forall k, exists n,
        filter (fun x => views_or_0 x =? k) top
        = firstn n (filter (fun x => views_or_0 x =? k) all_posts))
  /\ Dashboard.recent_posts data = firstn 10 all_posts
  /\ Dashboard.total_accounts data
     = sum_values (Reads.accounts_by_platform (Dashboard.summary data)).
Proof.
  cbn zeta. unfold get_dashboard_data.
  cbn [Dashboard.top_posts_by_views Dashboard.recent_posts
       Dashboard.total_accounts Dashboard.summary].
  set (all_posts := Resolver.get_posts_with_latest_metrics order_by_desc
                      None None 1000 d).
  pose proof (sorted_reverse_perm views_or_0 all_posts) as Hperm.
  pose proof (sorted_reverse_sorted views_or_0 all_posts) as Hsorted.
  split; [|split; [|split; [|split; [|split; [|split]]]]].
  - rewrite length_firstn, (Permutation_length Hperm). reflexivity.
  - intros r Hr. apply (Permutation_in _ Hperm).
    rewrite <- (firstn_skipn 5 (sorted_reverse views_or_0 all_posts)).
    apply in_or_app. auto.
  - apply StronglySorted_firstn. exact Hsorted.
  - intros r r' Hr Hr' Hlt.
    apply (@sorted_firstn_top _ views_or_0 5 _ r r' Hsorted Hr);
      [|exact Hlt].
    apply (Permutation_in _ (Permutation_sym Hperm)). exact Hr'.
  - intros k. rewrite <- (sorted_reverse_stable views_or_0 k all_posts).
    generalize (sorted_reverse views_or_0 all_posts). generalize 5%nat.
    clear. intros n s. revert n.
    induction s as [|x s IH]; intros n.
    + exists 0%nat. destruct n; reflexivity.
    + destruct n as [|n]; [exists 0%nat; reflexivity|].
      cbn [firstn filter]. destruct (IH n) as [m Hm].
      destruct (views_or_0 x =? k).
      * exists (S m). cbn [firstn]. rewrite Hm. reflexivity.
      * exists m. exact Hm.
  - subst all_posts. unfold Resolver.get_posts_with_latest_metrics, sql_limit.
    cbn [Z.ltb Z.compare Z.to_nat].
    rewrite firstn_firstn. reflexivity.
  - unfold Reads.get_collection_summary. cbn [Reads.accounts_by_platform].
    rewrite sum_values_group_count, length_map. reflexivity.
Qed.


(** ** The top posts of the web pages *)

Lemma max_int_some (l : list (option Z)) (j : Z) :
  Web.max_int l = Some j ->
  In (Some j) l /\ forall k, In (Some k) l -> k <= j.
Proof.
  revert j. induction l as [|x l IH]; intros j; cbn [Web.max_int fold_right];
    [discriminate|].
  fold (Web.max_int l). destruct x as [x|], (Web.max_int l) as [y|] eqn:E;
    cbn [Web.option_max]; intros H; inversion H; subst; clear H.
  - destruct (IH y eq_refl) as [Hin Hmax]. split.
    + destruct (Z.max_spec x y) as [[_ ->]|[_ ->]]; [right|left]; auto.
    + intros k [Hk|Hk]; [inversion Hk; lia|]. specialize (Hmax k Hk). lia.
  - split; [left; reflexivity|].
    intros k [Hk|Hk]; [inversion Hk; lia|]. exfalso.
    clear -E Hk. induction l as [|z l IHl]; [contradiction|].
    cbn [Web.max_int fold_right] in E. fold (Web.max_int l) in E.
    destruct z as [z|], (Web.max_int l); cbn [Web.option_max] in E;
      try discriminate.
    destruct Hk as [Hk|Hk]; [discriminate|auto].
  - destruct (IH j eq_refl) as [Hin Hmax]. split; [right; exact Hin|].
    intros k [Hk|Hk]; [discriminate|auto].
Qed.

Lemma max_int_is_max (l : list (option Z)) (j : Z) :
  In (Some j) l -> (forall k, In (Some k) l -> k <= j) ->
  Web.max_int l = Some j.
Proof.
  intros Hin Hmax. destruct (Web.max_int l) as [y|] eqn:E.
  - destruct (@max_int_some l y E) as [Hy Hy']. f_equal.
    specialize (Hmax y Hy). specialize (Hy' j Hin). lia.
  - exfalso. clear Hmax. induction l as [|z l IHl]; [contradiction|].
    cbn [Web.max_int fold_right] in E. fold (Web.max_int l) in E.
    destruct z as [z|], (Web.max_int l); cbn [Web.option_max] in E;
      try discriminate.
    destruct Hin as [Hk|Hk]; [discriminate|auto].
Qed.

(** With unique rowids, a snapshot passes the WHERE exactly when no
    snapshot of the same post has a larger rowid. *)
Lemma is_latest_iff (d : Database.t) (m : PostMetrics.t) (j : Z) :
  pk PostMetrics.id (Database.post_metrics d) ->
  In m (Database.post_metrics d) -> PostMetrics.id m = Some j ->
  Web.is_latest d m = true
  <-> forall m' k, In m' (Database.post_metrics d) ->
                   PostMetrics.post_id m' = PostMetrics.post_id m ->
                   PostMetrics.id m' = Some k -> k <= j.
Proof.
  intros [Hnd _] Hin Hid. unfold Web.is_latest, Web.max_ids. rewrite Hid.
  split.
  - intros H m' k Hm' Hpost Hk. apply existsb_exists in H.
    destruct H as (x & Hx & Ex). apply sql_eq_int_true in Ex.
    destruct Ex as (z & Ez & ->). inversion Ez. subst z. clear Ez.
    apply in_map_iff in Hx. destruct Hx as (g & Hg & _).
    apply max_int_some in Hg. destruct Hg as [Hj Hmax].
    apply in_map_iff in Hj. destruct Hj as (m0 & Hm0 & Hin0).
    apply filter_In in Hin0. destruct Hin0 as [Hin0 Hg0].
    destruct (option_Z_eq_dec (PostMetrics.post_id m0) g) as [Eg|];
      [|discriminate].
    assert (m0 = m)
      by (apply (@NoDup_map_inj _ _ PostMetrics.id
                   (Database.post_metrics d)); auto; congruence).
    subst m0. apply Hmax. rewrite <- Hk. apply in_map. apply filter_In.
    split; [exact Hm'|].
    destruct (option_Z_eq_dec (PostMetrics.post_id m') g); [reflexivity|].
    congruence.
  - intros Hmax. apply existsb_exists.
    exists (Some j). split; [|simpl; apply Z.eqb_refl].
    apply in_map_iff. exists (PostMetrics.post_id m). split.
    + apply max_int_is_max.
      * rewrite <- Hid. apply in_map. apply filter_In. split; [exact Hin|].
        destruct (option_Z_eq_dec _ _); [reflexivity|congruence].
      * intros k Hk. apply in_map_iff in Hk.
        destruct Hk as (m' & Hk & Hm'). apply filter_In in Hm'.
        destruct Hm' as [Hm' Hg].
        destruct (option_Z_eq_dec (PostMetrics.post_id m')
                    (PostMetrics.post_id m)) as [Eg|]; [|discriminate].
        apply (Hmax m' k Hm' Eg Hk).
    + apply nodup_In. apply in_map. exact Hin.
Qed.

Lemma latest_joined_rows_app (d : Database.t) (ps1 ps2 : list Post.t) :
  Web.latest_joined_rows d (ps1 ++ ps2)
  = Web.latest_joined_rows d ps1 ++ Web.latest_joined_rows d ps2.
Proof.
  unfold Web.latest_joined_rows.
  rewrite !left_join_app, flat_map_app. reflexivity.
Qed.

(** The owner that the second LEFT JOIN attaches to a post. *)
Lemma latest_joined_rows_one (d : Database.t) (p : Post.t) :
  NoDup (map Account.id (Database.accounts d)) ->
  Web.latest_joined_rows d [p]
  = map (fun m =>
           (p, m,
            hd_error (filter (fun a => sql_eq_int (Post.account_id p)
                                         (Account.id a))
                             (Database.accounts d))))
        (filter (Web.is_latest d)
           (filter (Web.on_post p) (Database.post_metrics d))).
Proof.
  intros Hnd. unfold Web.latest_joined_rows, left_join at 2.
  cbn [flat_map]. rewrite app_nil_r.
  pose proof (@filter_pk_le_1 _ Account.id (Post.account_id p)
                (Database.accounts d) Hnd) as Hle.
  set (A := filter (fun a => sql_eq_int (Post.account_id p) (Account.id a))
                   (Database.accounts d)) in *.
  assert (Hone : forall pm : option PostMetrics.t,
            left_join Web.on_owner [(p, pm)] (Database.accounts d)
            = [((p, pm), hd_error A)]).
  { intros pm. unfold left_join. cbn [flat_map]. rewrite app_nil_r.
    unfold Web.on_owner at 1. cbn [fst]. fold A.
    destruct A as [|a [|b A']]; [reflexivity|reflexivity|].
    simpl in Hle. lia. }
  destruct (filter (Web.on_post p) (Database.post_metrics d)) as [|m0 ms]
    eqn:F.
  - rewrite Hone. cbn [flat_map fst snd filter map]. reflexivity.
  - clear F. generalize (m0 :: ms). intros l.
    induction l as [|m l IH]; [reflexivity|].
    cbn [map]. change ((p, Some m) :: map (fun b => (p, Some b)) l)
      with ([(p, Some m)] ++ map (fun b => (p, Some b)) l).
    rewrite left_join_app, flat_map_app, IH, Hone.
    cbn [flat_map fst snd filter]. rewrite app_nil_r.
    destruct (Web.is_latest d m); reflexivity.
Qed.

Lemma latest_joined_rows_eq (d : Database.t) (ps : list Post.t) :
  NoDup (map Account.id (Database.accounts d)) ->
  Web.latest_joined_rows d ps
  = flat_map
      (fun p =>
         map (fun m =>
                (p, m,
                 hd_error (filter (fun a => sql_eq_int (Post.account_id p)
                                              (Account.id a))
                                  (Database.accounts d))))
             (filter (Web.is_latest d)
                (filter (Web.on_post p) (Database.post_metrics d))))
      ps.
Proof.
  intros Hnd. induction ps as [|p ps IH]; [reflexivity|].
  change (p :: ps) with ([p] ++ ps).
  rewrite latest_joined_rows_app, IH, latest_joined_rows_one by exact Hnd.
  cbn [flat_map app]. reflexivity.
Qed.

(** A post has at most one snapshot that passes the WHERE. *)
Lemma latest_of_post_le_1 (d : Database.t) (p : Post.t) :
  pk PostMetrics.id (Database.post_metrics d) ->
  (List.length (filter (Web.is_latest d)
                  (filter (Web.on_post p) (Database.post_metrics d)))
   <= 1)%nat.
Proof.
  intros Hpk.
  assert (Hnd : NoDup (filter (Web.is_latest d)
                         (filter (Web.on_post p)
                            (Database.post_metrics d)))).
  { apply NoDup_filter, NoDup_filter.
    apply (NoDup_map_inv PostMetrics.id). apply Hpk. }
  assert (Heq : forall m1 m2,
            In m1 (filter (Web.is_latest d)
                     (filter (Web.on_post p) (Database.post_metrics d))) ->
            In m2 (filter (Web.is_latest d)
                     (filter (Web.on_post p) (Database.post_metrics d))) ->
            m1 = m2).
  { intros m1 m2 H1 H2. apply filter_In in H1, H2.
    destruct H1 as [H1 L1], H2 as [H2 L2]. apply filter_In in H1, H2.
    destruct H1 as [I1 O1], H2 as [I2 O2].
    destruct (proj2 Hpk m1 I1) as [j1 E1].
    destruct (proj2 Hpk m2 I2) as [j2 E2].
    unfold Web.on_post in O1, O2. apply sql_eq_int_true in O1, O2.
    destruct O1 as (x1 & Ex1 & P1), O2 as (x2 & Ex2 & P2).
    assert (x1 = x2) by congruence. subst x2.
    pose proof (proj1 (@is_latest_iff d m1 j1 Hpk I1 E1) L1 m2 j2 I2
                  ltac:(congruence) E2).
    pose proof (proj1 (@is_latest_iff d m2 j2 Hpk I2 E2) L2 m1 j1 I1
                  ltac:(congruence) E1).
    apply (@NoDup_map_inj _ _ PostMetrics.id (Database.post_metrics d));
      [apply Hpk|assumption|assumption|]. rewrite E1, E2. f_equal. lia. }
  destruct (filter (Web.is_latest d) _) as [|a [|b l]]; simpl; try lia.
  exfalso. inversion Hnd as [|? ? Hn _]; subst. apply Hn.
  rewrite (Heq a b); [left; reflexivity|left; reflexivity|].
  right; left; reflexivity.
Qed.

Lemma latest_joined_rows_nodup (d : Database.t) (ps : list Post.t) :
  NoDup (map Account.id (Database.accounts d)) ->
  pk PostMetrics.id (Database.post_metrics d) ->
  NoDup (map Post.id ps) ->
  NoDup (map (fun r => Post.id (fst (fst r))) (Web.latest_joined_rows d ps))
  /\ (List.length (Web.latest_joined_rows d ps) <= List.length ps)%nat
  /\ forall r, In r (Web.latest_joined_rows d ps) -> In (fst (fst r)) ps.
Proof.
  intros Ha Hpk. induction ps as [|p ps IH]; intros Hnd.
  - cbn. repeat split; [constructor|lia|tauto].
  - change (p :: ps) with ([p] ++ ps).
    rewrite latest_joined_rows_app, latest_joined_rows_one by exact Ha.
    inversion Hnd as [|? ? Hp Hnd']; subst.
    destruct (IH Hnd') as (I1 & I2 & I3).
    pose proof (@latest_of_post_le_1 d p Hpk) as Hle.
    destruct (filter (Web.is_latest d) _) as [|m [|m' l]];
      [| |simpl in Hle; lia]; cbn [map app List.length].
    + split; [exact I1|]. split; [lia|]. intros r Hr. right. auto.
    + cbn [fst]. split; [|split; [lia|]].
      * constructor; [|exact I1]. intros Hin. apply Hp.
        apply in_map_iff in Hin. destruct Hin as (r & <- & Hr).
        apply in_map. apply I3. exact Hr.
      * intros r [<-|Hr]; [left; reflexivity|right; auto].
Qed.

Lemma StronglySorted_map {A B : Type} (f : A -> B) (R : B -> B -> Prop)
    (l : list A) :
  StronglySorted (fun x y => R (f x) (f y)) l ->
  StronglySorted R (map f l).
Proof.
  induction 1 as [|x l Hs IH Hall]; cbn [map]; constructor; [exact IH|].
  rewrite Forall_forall in *. intros y Hy. apply in_map_iff in Hy.
  destruct Hy as (z & <- & Hz). auto.
Qed.

(** X19 ([_get_top_posts]): the top posts of the web pages never list a
    post twice.  On a store that satisfies its constraints, and for every
    way the engine orders equal keys, every row is a stored post with the
    counters of one of its snapshots, the one with the largest rowid; no
    two rows are of the same post, also when snapshots share their
    [collected_at]; the rows are in descending order of views, then of
    likes; there are at most [limit] of them for a limit that is not
    negative; and a post without snapshot has no row, while every post
    with a snapshot has one when the limit is negative or not below the
    number of posts. *)
Theorem top_posts_one_row_per_post (order_by_desc2 : Sorter2)
    (py_len : string -> Z) (py_first100 : string -> string) (limit : Z)
    (d : Database.t) :
  sorter2_ok order_by_desc2 ->
  store_ok d ->
  let rows := Web._get_top_posts order_by_desc2 py_len py_first100 limit d in
  NoDup (map Web.TopPost.id rows)
  /\ (forall row, In row rows ->
        exists p m i j,
          In p (Database.posts d) /\ Post.id p = Some i
          /\ Web.TopPost.id row = Some i
          /\ Web.TopPost.post_id row = Post.post_id p
          /\ In m (Resolver.snapshots_of i d)
          /\ PostMetrics.id m = Some j
          /\ (forall m' k, In m' (Resolver.snapshots_of i d) ->
                           PostMetrics.id m' = Some k -> k <= j)
          /\ Web.TopPost.views row = PostMetrics.views m
          /\ Web.TopPost.likes row = PostMetrics.likes m
          /\ Web.TopPost.comments row = PostMetrics.comments m
          /\ Web.TopPost.shares row = PostMetrics.shares m
          /\ Web.TopPost.saves row = PostMetrics.saves m)
  /\ StronglySorted
       (fun x y =>
          Web.TopPost.views y < Web.TopPost.views x
          \/ (Web.TopPost.views y = Web.TopPost.views x
              /\ Web.TopPost.likes y <= Web.TopPost.likes x)) rows
  /\ (0 <= limit -> Z.of_nat (List.length rows) <= limit)
  /\ (limit < 0 \/ Z.of_nat (List.length (Database.posts d)) <= limit ->
      forall p i, In p (Database.posts d) -> Post.id p = Some i ->
                  Resolver.snapshots_of i d <> [] ->
                  exists row, In row rows /\ Web.TopPost.id row = Some i).
Proof.
  intros Hok (Hacc & Hposts & Hpm & _ & _ & _). cbn zeta.
  unfold Web._get_top_posts.
  set (key := fun row : Post.t * PostMetrics.t * option Account.t =>
                (PostMetrics.views (snd (fst row)),
                 PostMetrics.likes (snd (fst row)))).
  destruct (Hok _ key (Web.latest_joined d)) as [Hperm Hsorted].
  destruct (@latest_joined_rows_nodup d (Database.posts d) (proj1 Hacc) Hpm
              (proj1 Hposts)) as (Hnd & Hlen & Hin).
  fold (Web.latest_joined d) in Hnd, Hlen, Hin.
  set (sorted := order_by_desc2 _ key (Web.latest_joined d)) in *.
  assert (Hsub : forall r, In r (sql_limit limit sorted) ->
                           In r (Web.latest_joined d)).
  { intros r Hr. apply (Permutation_in _ Hperm).
    apply (sql_limit_incl _ _ _ Hr). }
  assert (Hmem : forall p m a, In (p, m, a) (Web.latest_joined d) ->
            In p (Database.posts d) /\ In m (Database.post_metrics d)
            /\ Web.on_post p m = true /\ Web.is_latest d m = true).
  { intros p m a Hr. unfold Web.latest_joined in Hr.
    rewrite latest_joined_rows_eq in Hr by apply Hacc.
    apply in_flat_map in Hr. destruct Hr as (p0 & Hp0 & Hr).
    apply in_map_iff in Hr. destruct Hr as (m0 & E & Hm0).
    inversion E. subst. apply filter_In in Hm0. destruct Hm0 as [Hm0 L].
    apply filter_In in Hm0. tauto. }
  split; [|split; [|split; [|split]]].
  - rewrite map_map. cbn [Web.top_post_of Web.TopPost.id].
    assert (Hnd' : NoDup (map (fun r : Post.t * PostMetrics.t
                                        * option Account.t =>
                                 Post.id (fst (fst r))) sorted)).
    { apply (Permutation_NoDup (l := map (fun r => Post.id (fst (fst r)))
                                        (Web.latest_joined d)));
        [|exact Hnd].
      apply Permutation_map, Permutation_sym, Hperm. }
    unfold sql_limit. destruct (limit <? 0); [exact Hnd'|].
    rewrite <- (firstn_skipn (Z.to_nat limit) sorted), map_app in Hnd'.
    apply NoDup_app_remove_r in Hnd'. exact Hnd'.
  - intros row Hrow. apply in_map_iff in Hrow.
    destruct Hrow as ([[p m] a] & <- & Hr). apply Hsub in Hr.
    destruct (Hmem p m a Hr) as (Hp & Hm & Hon & Hl).
    unfold Web.on_post in Hon. apply sql_eq_int_true in Hon.
    destruct Hon as (i & Hi & Hmi).
    destruct (proj2 Hpm m Hm) as [j Hj].
    exists p, m, i, j.
    cbn [Web.top_post_of fst snd Web.TopPost.id Web.TopPost.post_id
         Web.TopPost.views Web.TopPost.likes Web.TopPost.comments
         Web.TopPost.shares Web.TopPost.saves].
    split; [exact Hp|]. split; [exact Hi|]. split; [exact Hi|].
    split; [reflexivity|]. split.
    { apply filter_In. split; [exact Hm|]. apply sql_eq_int_some.
      exact Hmi. }
    split; [exact Hj|]. split; [|repeat split].
    intros m' k Hm' Hk. apply filter_In in Hm'. destruct Hm' as [Hm' Hp'].
    apply sql_eq_int_some in Hp'.
    apply (proj1 (@is_latest_iff d m j Hpm Hm Hj) Hl m' k Hm');
      congruence.
  - apply StronglySorted_map.
    cbn [Web.top_post_of Web.TopPost.views Web.TopPost.likes].
    apply sql_limit_sorted. exact Hsorted.
  - intros Hl. rewrite length_map. apply sql_limit_length. exact Hl.
  - intros Hlim p i Hp Hi Hne.
    assert (Hall : sql_limit limit sorted = sorted).
    { apply sql_limit_all. destruct Hlim as [?|?]; [left; assumption|].
      right. rewrite (Permutation_length Hperm). lia. }
    rewrite Hall.
    (* the snapshot of the post with the largest rowid *)
    assert (Hmax : exists m j,
              In m (Resolver.snapshots_of i d) /\ PostMetrics.id m = Some j
              /\ forall m' k, In m' (Resolver.snapshots_of i d) ->
                              PostMetrics.id m' = Some k -> k <= j).
    { assert (Hids : forall m, In m (Resolver.snapshots_of i d) ->
                               exists j, PostMetrics.id m = Some j).
      { intros m Hm. apply filter_In in Hm. apply (proj2 Hpm). tauto. }
      revert Hne Hids. generalize (Resolver.snapshots_of i d).
      induction l as [|m l IH]; intros Hne Hids; [congruence|].
      destruct (Hids m (or_introl eq_refl)) as [j Hj].
      destruct l as [|m1 l].
      - exists m, j. split; [left; reflexivity|]. split; [exact Hj|].
        intros m' k [<-|[]] Hk. assert (k = j) by congruence. lia.
      - destruct IH as (m2 & j2 & Hm2 & Hj2 & Hmax2); [discriminate| |].
        { intros m' Hm'. apply Hids. right. exact Hm'. }
        destruct (Z.le_gt_cases j j2) as [Hle|Hgt].
        + exists m2, j2. split; [right; exact Hm2|]. split; [exact Hj2|].
          intros m' k [<-|Hm'] Hk; [assert (k = j) by congruence; lia|].
          apply (Hmax2 m' k Hm' Hk).
        + exists m, j. split; [left; reflexivity|]. split; [exact Hj|].
          intros m' k [<-|Hm'] Hk; [assert (k = j) by congruence; lia|].
          specialize (Hmax2 m' k Hm' Hk). lia. }
    destruct Hmax as (m & j & Hm & Hj & Hmax).
    apply filter_In in Hm. destruct Hm as [Hm Hmp].
    apply sql_eq_int_some in Hmp.
    assert (Hl : Web.is_latest d m = true).
    { apply (@is_latest_iff d m j Hpm Hm Hj). intros m' k Hm' Hp' Hk.
      apply (Hmax m' k); [|exact Hk]. apply filter_In. split; [exact Hm'|].
      apply sql_eq_int_some. congruence. }
    eexists (Web.top_post_of py_len py_first100 (p, m, _)).
    split; [|cbn [Web.top_post_of fst Web.TopPost.id]; exact Hi].
    apply in_map. apply (Permutation_in _ (Permutation_sym Hperm)).
    unfold Web.latest_joined.
    rewrite latest_joined_rows_eq by apply Hacc.
    apply in_flat_map. exists p. split; [exact Hp|].
    apply in_map_iff. exists m. split; [reflexivity|].
    apply filter_In. split; [|exact Hl]. apply filter_In.
    split; [exact Hm|]. unfold Web.on_post. rewrite Hi, Hmp. simpl.
    apply Z.eqb_refl.
Qed.

Lemma leb2_iff {A : Type} (key : A -> Z * Z) (x y : A) :
  leb2 (key y) (key x) = true <-> desc2 key x y.
Proof.
  unfold leb2, desc2.
  rewrite orb_true_iff, andb_true_iff, Z.ltb_lt, Z.eqb_eq, Z.leb_le.
  tauto.
Qed.

Lemma insert_desc2_perm {A : Type} (key : A -> Z * Z) (x : A) (l : list A) :
  Permutation (insert_desc2 key x l) (x :: l).
Proof.
  induction l as [|y l IH]; cbn [insert_desc2]; [reflexivity|].
  destruct (leb2 (key y) (key x)); [reflexivity|].
  rewrite IH. apply perm_swap.
Qed.

Lemma insert_desc2_sorted {A : Type} (key : A -> Z * Z) (x : A)
    (l : list A) :
  StronglySorted (desc2 key) l ->
  StronglySorted (desc2 key) (insert_desc2 key x l).
Proof.
  induction 1 as [|y l Hs IH Hall]; cbn [insert_desc2].
  - repeat constructor.
  - destruct (leb2 (key y) (key x)) eqn:E.
    + apply leb2_iff in E. constructor; [constructor; assumption|].
      constructor; [exact E|].
      rewrite Forall_forall in *. intros z Hz. specialize (Hall z Hz).
      unfold desc2 in *. lia.
    + constructor; [exact IH|].
      rewrite Forall_forall in *. intros z Hz.
      apply (Permutation_in _ (insert_desc2_perm key x l)) in Hz.
      destruct Hz as [<-|Hz]; [|auto].
      assert (~ desc2 key x y) by (rewrite <- leb2_iff; congruence).
      unfold desc2 in *. lia.
Qed.

Lemma sort_by_desc2_ok : sorter2_ok sort_by_desc2.
Proof.
  intros A key l. unfold sort_by_desc2. split.
  - induction l as [|x l IH]; [reflexivity|]. cbn [fold_right].
    rewrite insert_desc2_perm. constructor. exact IH.
  - induction l as [|x l IH]; [constructor|]. cbn [fold_right].
    apply insert_desc2_sorted. exact IH.
Qed.

Lemma store_ok_tied_db : store_ok tied_db.
Proof.
  unfold tied_db.
  apply (proj1 (collect_all_keeps (with_posts sample_collector twice_listed)
                  "bob" 20 sample_world)).
  apply store_ok_sample_db.
Qed.

Lemma top_posts_one_row_per_post_witness :
  NoDup (map Web.TopPost.id
           (Web._get_top_posts sort_by_desc2
              (fun s => Z.of_nat (String.length s))
              (fun s => substring 0 100 s) 10 tied_db))
  /\ Z.of_nat (List.length
                 (Web._get_top_posts sort_by_desc2
                    (fun s => Z.of_nat (String.length s))
                    (fun s => substring 0 100 s) 10 tied_db)) <= 10.
Proof.
  destruct (@top_posts_one_row_per_post sort_by_desc2
              (fun s => Z.of_nat (String.length s))
              (fun s => substring 0 100 s) 10 tied_db sort_by_desc2_ok
              store_ok_tied_db) as (H1 & _ & _ & H4 & _).
  split; [exact H1|apply H4; lia].
Defined.


(** ** The background task *)

Lemma dict_set_set {V : Type} (key : string) (v1 v2 : V)
    (items : list (string * V)) :
  dict_set key v2 (dict_set key v1 items) = dict_set key v2 items.
Proof.
  induction items as [|[k x] rest IH]; cbn [dict_set].
  - rewrite String.eqb_refl. reflexivity.
  - destruct (String.eqb k key) eqn:E; cbn [dict_set]; rewrite E;
      [reflexivity|]. rewrite IH. reflexivity.
Qed.

Lemma run_collection_unfold (self : BaseCollector.t) (username : string)
    (post_limit : Z) (w : World) :
  run_collection self username post_limit w
  = let r := BaseCollector.collect_all self username post_limit
               (mkWorld (db w) (time w) (S (ticks w)) (calls w)) in
    (if CollectResult.success (fst r) then
       TaskStatus.mk completed (CollectResult.message (fst r))
         (Some (List.length (CollectResult.posts (fst r))))
     else TaskStatus.mk failed (CollectResult.message (fst r)) None,
     mkWorld (db (snd r)) (time (snd r)) (S (ticks (snd r)))
       (calls (snd r))).
Proof.
  unfold run_collection. cbn [datetime_now]. cbn zeta.
  destruct (BaseCollector.collect_all self username post_limit _)
    as [result w1].
  cbn [fst snd]. destruct (CollectResult.success result); reflexivity.
Qed.

(** X20 ([run_collection] of [api.py], with [get_collector]): a background
    task always ends in a final state.  Whatever the platform and the
    answers of the adapter, the entry of the task is afterwards completed
    or failed, never running, under the platform and username of the
    task, and the entries of the other tasks are as they were.  For a
    platform without collector the entry is failed with the ValueError of
    [get_collector] and the store is unchanged.  Otherwise the state, the
    message, the post count and the world are those of the attempt with
    the collector of the platform; the entry is completed exactly when
    [collect_all] reports success, and only then carries a post count.
    In every case the store only grows. *)
Theorem run_collection_task_terminal (collectors : Collectors)
    (platform username : string) (post_limit : Z) (task_id : string)
    (collection_status : list (string * TaskEntry.t)) (w : World) :
  let r := run_collection_task collectors platform username post_limit
             task_id collection_status w in
  (exists entry,
     dict_get task_id (fst r) = Some entry
     /\ TaskEntry.status entry <> running
     /\ TaskEntry.platform entry = platform
     /\ TaskEntry.username entry = username
     /\ (TaskEntry.status entry = completed
         <-> TaskEntry.posts_collected entry <> None)
     /\ (supported platform = false ->
         TaskEntry.status entry = failed
         /\ TaskEntry.message entry
            = TaskException (UnsupportedPlatform platform)
         /\ db (snd r) = db w)
     /\ (forall collector,
           get_collector collectors platform = inr collector ->
           let attempt := run_collection collector username post_limit w in
           TaskEntry.status entry = TaskStatus.status (fst attempt)
           /\ TaskEntry.message entry
              = TaskResult (TaskStatus.message (fst attempt))
           /\ TaskEntry.posts_collected entry
              = TaskStatus.posts_collected (fst attempt)
           /\ snd r = snd attempt
           /\ (TaskEntry.status entry = completed
               <-> CollectResult.success
                     (fst (BaseCollector.collect_all collector username
                             post_limit
                             (mkWorld (db w) (time w) (S (ticks w))
                                (calls w)))) = true)))
  /\ (forall other, other <> task_id ->
        dict_get other (fst r) = dict_get other collection_status)
  /\ grows (db w) (db (snd r)).
Proof.
  cbn zeta. unfold run_collection_task.
  destruct (supported platform) eqn:Hs.
  - destruct (get_collector_supported collectors platform Hs)
      as (collector & E & Hp).
    rewrite E.
    pose proof (collect_all_grows collector username post_limit
                  (mkWorld (db w) (time w) (S (ticks w)) (calls w))) as G.
    destruct (BaseCollector.collect_all collector username post_limit _)
      as [result w1] eqn:Er.
    cbn [snd db] in G.
    destruct (CollectResult.success result) eqn:Hsucc; cbn [fst snd db].
    + split; [|split; [|exact G]].
      * eexists. split; [apply dict_get_set_same|].
        cbn [TaskEntry.status TaskEntry.platform TaskEntry.username
             TaskEntry.posts_collected TaskEntry.message].
        split; [discriminate|]. split; [reflexivity|].
        split; [reflexivity|].
        split; [split; [discriminate|reflexivity]|].
        split; [discriminate|].
        intros c Hc. inversion Hc. subst c. cbn zeta.
        rewrite run_collection_unfold. cbn zeta. rewrite Er.
        cbn [fst snd]. rewrite Hsucc.
        cbn [fst snd TaskStatus.status TaskStatus.message
             TaskStatus.posts_collected].
        repeat split; reflexivity.
      * intros other Hne. rewrite !dict_get_set_other by exact Hne.
        reflexivity.
    + split; [|split; [|exact G]].
      * eexists. split; [apply dict_get_set_same|].
        cbn [TaskEntry.status TaskEntry.platform TaskEntry.username
             TaskEntry.posts_collected TaskEntry.message].
        split; [discriminate|]. split; [reflexivity|].
        split; [reflexivity|].
        split; [split; [discriminate|intros H; contradiction]|].
        split; [discriminate|].
        intros c Hc. inversion Hc. subst c. cbn zeta.
        rewrite run_collection_unfold. cbn zeta. rewrite Er.
        cbn [fst snd]. rewrite Hsucc.
        cbn [fst snd TaskStatus.status TaskStatus.message
             TaskStatus.posts_collected].
        repeat split; try reflexivity; discriminate.
      * intros other Hne. rewrite !dict_get_set_other by exact Hne.
        reflexivity.
  - rewrite (get_collector_unsupported collectors platform Hs).
    cbn [fst snd db]. split; [|split; [|apply grows_refl]].
    + eexists. split; [apply dict_get_set_same|].
      cbn [TaskEntry.status TaskEntry.platform TaskEntry.username
           TaskEntry.posts_collected TaskEntry.message].
      split; [discriminate|]. split; [reflexivity|]. split; [reflexivity|].
      split; [split; [discriminate|intros H; contradiction]|].
      split; [intros _; repeat split; reflexivity|].
      intros c Hc. discriminate.
    + intros other Hne. rewrite !dict_get_set_other by exact Hne.
      reflexivity.
Qed.


(** ** The configuration cache *)

Lemma dict_get_in {V : Type} (key : string) (items : list (string * V))
    (v : V) :
  dict_get key items = Some v -> In key (map fst items).
Proof.
  induction items as [|[k x] rest IH]; cbn [dict_get map fst];
    [discriminate|].
  destruct (String.eqb_spec k key) as [->|_]; [left; reflexivity|].
  intros H. right. auto.
Qed.

Lemma dict_get_not_in {V : Type} (key : string)
    (items : list (string * V)) :
  ~ In key (map fst items) -> dict_get key items = None.
Proof.
  intros H. destruct (dict_get key items) eqn:E; [|reflexivity].
  destruct H. eapply dict_get_in. exact E.
Qed.

Lemma dict_set_keys {V : Type} (key : string) (v : V)
    (items : list (string * V)) (k : string) :
  In k (map fst (dict_set key v items)) <-> k = key \/ In k (map fst items).
Proof.
  induction items as [|[k0 x] rest IH]; cbn [dict_set map fst In].
  - intuition congruence.
  - destruct (String.eqb_spec k0 key) as [->|Hne]; cbn [map fst In].
    + intuition congruence.
    + rewrite IH. intuition congruence.
Qed.

Lemma dict_set_nodup {V : Type} (key : string) (v : V)
    (items : list (string * V)) :
  NoDup (map fst items) -> NoDup (map fst (dict_set key v items)).
Proof.
  induction items as [|[k0 x] rest IH]; cbn [dict_set map fst]; intros H.
  - repeat constructor. simpl. tauto.
  - inversion H as [|? ? Hn Hnd]; subst.
    destruct (String.eqb_spec k0 key) as [->|Hne]; cbn [map fst].
    + constructor; assumption.
    + constructor; [|auto]. rewrite dict_set_keys. intuition congruence.
Qed.

Lemma dict_pop_keys {V : Type} (key : string) (items : list (string * V))
    (k : string) :
  In k (map fst (ApiConfig.dict_pop key items)) -> In k (map fst items).
Proof.
  induction items as [|[k0 x] rest IH]; cbn [ApiConfig.dict_pop map fst In];
    [tauto|].
  destruct (String.eqb k0 key); cbn [map fst In]; tauto.
Qed.

Lemma dict_pop_nodup {V : Type} (key : string)
    (items : list (string * V)) :
  NoDup (map fst items) -> NoDup (map fst (ApiConfig.dict_pop key items)).
Proof.
  induction items as [|[k0 x] rest IH]; cbn [ApiConfig.dict_pop map fst];
    intros H; [constructor|].
  inversion H as [|? ? Hn Hnd]; subst.
  destruct (String.eqb k0 key); cbn [map fst]; [exact Hnd|].
  constructor; [|auto]. intros Hin. apply Hn.
  eapply dict_pop_keys. exact Hin.
Qed.

Lemma dict_get_pop_same {V : Type} (key : string)
    (items : list (string * V)) :
  NoDup (map fst items) -> dict_get key (ApiConfig.dict_pop key items) = None.
Proof.
  induction items as [|[k0 x] rest IH];
    cbn [ApiConfig.dict_pop map fst dict_get]; intros H; [reflexivity|].
  inversion H as [|? ? Hn Hnd]; subst.
  destruct (String.eqb_spec k0 key) as [->|Hne].
  - apply dict_get_not_in. exact Hn.
  - cbn [dict_get]. destruct (String.eqb_spec k0 key); [contradiction|].
    auto.
Qed.

Lemma dict_get_pop_other {V : Type} (key key' : string)
    (items : list (string * V)) :
  key' <> key ->
  dict_get key' (ApiConfig.dict_pop key items) = dict_get key' items.
Proof.
  intros Hne. induction items as [|[k0 x] rest IH];
    cbn [ApiConfig.dict_pop dict_get]; [reflexivity|].
  destruct (String.eqb_spec k0 key) as [->|Hk].
  - destruct (String.eqb_spec key key'); [congruence|reflexivity].
  - cbn [dict_get]. destruct (String.eqb k0 key'); [reflexivity|exact IH].
Qed.

Lemma store_cache_ok (platform : string) (config : ApiConfig.Config)
    (st : ApiConfig.State) :
  ApiConfig.cache_ok st ->
  ApiConfig.cache_ok (ApiConfig.store platform config st)
  /\ dict_get platform (ApiConfig._cache (ApiConfig.store platform config st))
     = Some config
  /\ dict_get platform
       (ApiConfig._cache_time (ApiConfig.store platform config st))
     = Some (ApiConfig.now st (ApiConfig.reads st))
  /\ ApiConfig.now (ApiConfig.store platform config st) = ApiConfig.now st
  /\ ApiConfig.reads (ApiConfig.store platform config st)
     = S (ApiConfig.reads st).
Proof.
  intros (H1 & H2 & H3). unfold ApiConfig.store, ApiConfig.read_clock.
  cbn [ApiConfig._cache ApiConfig._cache_time ApiConfig.now ApiConfig.reads].
  split; [|rewrite !dict_get_set_same; repeat split; reflexivity].
  split; [apply dict_set_nodup, H1|]. split; [apply dict_set_nodup, H2|].
  cbn [ApiConfig._cache ApiConfig._cache_time].
  intros p t Hp. destruct (String.eqb_spec p platform) as [->|Hne].
  - rewrite dict_get_set_same. eauto.
  - rewrite dict_get_set_other in Hp by exact Hne.
    rewrite dict_get_set_other by exact Hne. apply (H3 p t Hp).
Qed.

(** X21 ([get_api_config], [clear_cache]): the configuration of a
    platform is served from the cache for five minutes.  A configuration
    that a call returns is in the cache afterwards, and a following call
    whose reading of the clock is less than [CACHE_TTL] after the time of
    the entry returns it again whatever the database and the environment
    then hold.  A call that finds no configuration leaves the cache as it
    was, so the next call asks again.  Without an entry for the platform,
    a row of the database is taken whatever the environment holds.
    [clear_cache] of a platform removes its entry and no other.  The two
    dictionaries stay dictionaries in which every timed key is cached. *)
Theorem api_config_cache_ttl (sources : ApiConfig.Sources)
    (platform : string) (st : ApiConfig.State) :
  ApiConfig.cache_ok st ->
  let r := ApiConfig.get_api_config sources platform st in
  ApiConfig.cache_ok (snd r)
  /\ (fst r = None ->
      ApiConfig._cache (snd r) = ApiConfig._cache st
      /\ ApiConfig._cache_time (snd r) = ApiConfig._cache_time st)
  /\ (forall c, fst r = Some c ->
        dict_get platform (ApiConfig._cache (snd r)) = Some c
        /\ exists t,
             dict_get platform (ApiConfig._cache_time (snd r)) = Some t
             /\ forall sources',
                  ApiConfig.now (snd r) (ApiConfig.reads (snd r)) - t
                  < ApiConfig.CACHE_TTL ->
                  fst (ApiConfig.get_api_config sources' platform (snd r))
                  = Some c)
  /\ (dict_get platform (ApiConfig._cache_time st) = None ->
      forall row, ApiConfig.select_row sources platform = Some row ->
        fst r = Some (ApiConfig.mkConfig (ApiConfig.row_api_key row)
                        (ApiConfig.row_api_host row)
                        (ApiConfig.row_enabled row)
                        (ApiConfig.row_notes row) ApiConfig.database))
  /\ (forall p, p <> EmptyString ->
        let st' := ApiConfig.clear_cache (Some p) st in
        ApiConfig.cache_ok st'
        /\ dict_get p (ApiConfig._cache_time st') = None
        /\ dict_get p (ApiConfig._cache st') = None
        /\ forall q, q <> p ->
             dict_get q (ApiConfig._cache st')
             = dict_get q (ApiConfig._cache st)
             /\ dict_get q (ApiConfig._cache_time st')
                = dict_get q (ApiConfig._cache_time st)).
Proof.
  intros Hok. cbn zeta.
  assert (Hhit : forall (s : ApiConfig.Sources) (st0 : ApiConfig.State) t,
            dict_get platform (ApiConfig._cache_time st0) = Some t ->
            ApiConfig.now st0 (ApiConfig.reads st0) - t
            < ApiConfig.CACHE_TTL ->
            ApiConfig.get_api_config s platform st0
            = (dict_get platform (ApiConfig._cache st0),
               ApiConfig.mkState (ApiConfig._cache st0)
                 (ApiConfig._cache_time st0) (ApiConfig.now st0)
                 (S (ApiConfig.reads st0)))).
  { intros s st0 t Ht Hlt.
    unfold ApiConfig.get_api_config, ApiConfig._is_cache_valid.
    rewrite Ht. unfold ApiConfig.read_clock.
    destruct (Z.ltb_spec (ApiConfig.now st0 (ApiConfig.reads st0) - t)
                ApiConfig.CACHE_TTL); [reflexivity|lia]. }
  assert (Hafter : forall (st1 : ApiConfig.State) c t,
            dict_get platform (ApiConfig._cache st1) = Some c ->
            dict_get platform (ApiConfig._cache_time st1) = Some t ->
            dict_get platform (ApiConfig._cache st1) = Some c
            /\ exists t0,
                 dict_get platform (ApiConfig._cache_time st1) = Some t0
                 /\ forall sources',
                      ApiConfig.now st1 (ApiConfig.reads st1) - t0
                      < ApiConfig.CACHE_TTL ->
                      fst (ApiConfig.get_api_config sources' platform st1)
                      = Some c).
  { intros st1 c t Hc Ht. split; [exact Hc|]. exists t. split; [exact Ht|].
    intros s' Hlt. rewrite (Hhit s' st1 t Ht Hlt). exact Hc. }
  (* the two ways of a call *)
  assert (Hr : (exists t st0,
                  dict_get platform (ApiConfig._cache_time st) = Some t
                  /\ ApiConfig._cache st0 = ApiConfig._cache st
                  /\ ApiConfig._cache_time st0 = ApiConfig._cache_time st
                  /\ ApiConfig.get_api_config sources platform st
                     = (dict_get platform (ApiConfig._cache st), st0))
               \/ (exists st0,
                     ApiConfig._cache st0 = ApiConfig._cache st
                     /\ ApiConfig._cache_time st0 = ApiConfig._cache_time st
                     /\ ApiConfig.get_api_config sources platform st
                        = ApiConfig.load_config sources platform st0)).
  { unfold ApiConfig.get_api_config, ApiConfig._is_cache_valid.
    destruct (dict_get platform (ApiConfig._cache_time st)) as [t|] eqn:Ht.
    - unfold ApiConfig.read_clock. destruct (_ <? _).
      + left. eexists t, _. split; [reflexivity|].
        split; [|split; [|reflexivity]]; reflexivity.
      + right. eexists. split; [|split; [|reflexivity]]; reflexivity.
    - right. exists st. auto. }
  assert (Hload :
            forall st0 : ApiConfig.State,
              ApiConfig.cache_ok st0 ->
              let r0 := ApiConfig.load_config sources platform st0 in
              ApiConfig.cache_ok (snd r0)
              /\ (fst r0 = None -> snd r0 = st0)
              /\ (forall c, fst r0 = Some c ->
                    dict_get platform (ApiConfig._cache (snd r0)) = Some c
                    /\ dict_get platform (ApiConfig._cache_time (snd r0))
                       = Some (ApiConfig.now st0 (ApiConfig.reads st0)))).
  { intros st0 Hok0. cbn zeta. unfold ApiConfig.load_config.
    destruct (ApiConfig.select_row sources platform) as [row|].
    - cbn [fst snd].
      destruct (store_cache_ok platform
                  (ApiConfig.mkConfig (ApiConfig.row_api_key row)
                     (ApiConfig.row_api_host row)
                     (ApiConfig.row_enabled row)
                     (ApiConfig.row_notes row) ApiConfig.database) Hok0)
        as (K1 & K2 & K3 & _).
      split; [exact K1|]. split; [discriminate|].
      intros c Hc. inversion Hc. subst c. auto.
    - destruct (ApiConfig.env_key_map platform) as [env_var|];
        [|cbn [fst snd]; split; [exact Hok0|split; [reflexivity|]];
          intros c Hc; discriminate].
      destruct (ApiConfig.environ sources env_var) as [key|];
        [|cbn [fst snd]; split; [exact Hok0|split; [reflexivity|]];
          intros c Hc; discriminate].
      destruct (String.eqb key EmptyString);
        [cbn [fst snd]; split; [exact Hok0|split; [reflexivity|]];
         intros c Hc; discriminate|].
      cbn [fst snd].
      destruct (store_cache_ok platform
                  (ApiConfig.mkConfig (Some key)
                     (ApiConfig.env_host_map platform) (Some true)
                     (Some "From environment variable"%string)
                     ApiConfig.env) Hok0) as (K1 & K2 & K3 & _).
      split; [exact K1|]. split; [discriminate|].
      intros c Hc. inversion Hc. subst c. auto. }
  assert (Hsame : forall st0,
            ApiConfig._cache st0 = ApiConfig._cache st ->
            ApiConfig._cache_time st0 = ApiConfig._cache_time st ->
            ApiConfig.cache_ok st0).
  { intros st0 E1 E2. unfold ApiConfig.cache_ok. rewrite E1, E2.
    exact Hok. }
  split; [|split; [|split; [|split]]].
  - destruct Hr as [(t & st0 & Ht & E1 & E2 & ->)|(st0 & E1 & E2 & ->)].
    + cbn [snd]. apply Hsame; assumption.
    + apply Hload, Hsame; assumption.
  - destruct Hr as [(t & st0 & Ht & E1 & E2 & ->)|(st0 & E1 & E2 & ->)].
    + cbn [fst snd]. auto.
    + intros Hn. destruct (Hload st0 (Hsame st0 E1 E2)) as (_ & K & _).
      cbn zeta in K. rewrite (K Hn). auto.
  - intros c.
    destruct Hr as [(t & st0 & Ht & E1 & E2 & ->)|(st0 & E1 & E2 & ->)].
    + cbn [fst snd]. intros Hc.
      apply (Hafter st0 c t); [rewrite E1; exact Hc|rewrite E2; exact Ht].
    + intros Hc. destruct (Hload st0 (Hsame st0 E1 E2)) as (_ & _ & K).
      cbn zeta in K. destruct (K c Hc) as (K1 & K2).
      eapply Hafter; eassumption.
  - intros Ht row Hrow.
    unfold ApiConfig.get_api_config, ApiConfig._is_cache_valid,
      ApiConfig.load_config.
    rewrite Ht, Hrow. reflexivity.
  - intros p Hp. cbn zeta. unfold ApiConfig.clear_cache.
    destruct (String.eqb_spec p EmptyString); [contradiction|].
    cbn [ApiConfig._cache ApiConfig._cache_time].
    destruct Hok as (H1 & H2 & H3).
    split; [|split; [apply dict_get_pop_same, H2
                    |split; [apply dict_get_pop_same, H1|]]].
    + split; [apply dict_pop_nodup, H1|].
      split; [apply dict_pop_nodup, H2|].
      cbn [ApiConfig._cache ApiConfig._cache_time]. intros q t Hq.
      destruct (String.eqb_spec q p) as [->|Hne].
      * rewrite dict_get_pop_same in Hq by exact H2. discriminate.
      * rewrite dict_get_pop_other in Hq by exact Hne.
        rewrite dict_get_pop_other by exact Hne. apply (H3 q t Hq).
    + intros q Hq. rewrite !dict_get_pop_other by exact Hq.
      split; reflexivity.
Qed.

Lemma api_config_cache_ttl_witness :
  ApiConfig.cache_ok
    (snd (ApiConfig.get_api_config sample_sources "instagram"
            initial_state))
  /\ forall sources',
       fst (ApiConfig.get_api_config sources' "instagram"
              (snd (ApiConfig.get_api_config sample_sources "instagram"
                      initial_state)))
       = Some (ApiConfig.mkConfig (Some "key-0123456789"%string)
                 (Some "instagram120.p.rapidapi.com"%string) (Some true)
                 (Some "From environment variable"%string) ApiConfig.env).
Proof.
  assert (Hok : ApiConfig.cache_ok initial_state).
  { unfold ApiConfig.cache_ok, initial_state. cbn.
    repeat split; try constructor. intros p t H. discriminate. }
  destruct (api_config_cache_ttl sample_sources "instagram" Hok)
    as (H1 & _ & H3 & _).
  split; [exact H1|]. intros sources'.
  destruct (H3 _ eq_refl) as (_ & t & Ht & Hnext).
  apply Hnext. vm_compute in Ht. inversion Ht. subst t. vm_compute.
  reflexivity.
Defined.


(** ** The Supabase store *)

Lemma hd_filter_find {A : Type} (f : A -> bool) (l : list A) :
  match filter f l with
  | [] => None
  | x :: _ => Some x
  end = find f l.
Proof.
  induction l as [|x l IH]; cbn [filter find]; [reflexivity|].
  destruct (f x); [reflexivity|exact IH].
Qed.

Lemma supabase_get_account_find (platform username : string)
    (db : Supabase.t) :
  Supabase.get_account platform username db
  = option_map Supabase._row_to_account
      (find (Supabase.account_key platform username) (Supabase.accounts db)).
Proof.
  unfold Supabase.get_account. rewrite <- hd_filter_find.
  destruct (filter _ _); reflexivity.
Qed.

(** X22 ([SupabaseDatabase.add_account], [get_account]): on the Supabase
    store [add_account] is an upsert that keeps the id.  With unique row
    ids, for a stored (platform, username) it returns the id of the stored
    account, rewrites the fields of that row and its [updated_at], keeps
    its [created_at], and leaves the number and the ids of the rows, and
    every row with another id, as they were; the account is then found
    under its key with the same id and the new fields.  For a key that is
    not stored it appends a row under the id the server issues, with
    [created_at = updated_at = now], and returns that id. *)
Theorem supabase_add_account_keeps_id (now : string)
    (account : Supabase.Account.t) (db : Supabase.t) :
  NoDup (map Supabase.AccountRow.id (Supabase.accounts db)) ->
  let platform := Supabase.Account.platform account in
  let username := Supabase.Account.username account in
  let r := Supabase.add_account now account db in
  (forall existing,
     Supabase.get_account platform username db = Some existing ->
     exists i,
       Supabase.Account.id existing = Some i
       /\ fst r = Some i
       /\ Supabase.get_account platform username (snd r)
          = Some (Supabase.Account.mk (Some i) platform username
                    (Supabase.Account.display_name account)
                    (Supabase.Account.account_id account)
                    (Supabase.Account.follower_count account)
                    (Supabase.Account.following_count account)
                    (Supabase.Account.post_count account)
                    (Supabase.Account.bio account)
                    (Supabase.Account.created_at existing) now)
       /\ map Supabase.AccountRow.id (Supabase.accounts (snd r))
          = map Supabase.AccountRow.id (Supabase.accounts db)
       /\ (forall row, In row (Supabase.accounts db) ->
                       Supabase.AccountRow.id row <> i ->
                       In row (Supabase.accounts (snd r)))
       /\ Supabase.issued (snd r) = Supabase.issued db)
  /\ (Supabase.get_account platform username db = None ->
      let i := Supabase.uuids db (Supabase.issued db) in
      fst r = Some i
      /\ Supabase.accounts (snd r)
         = Supabase.accounts db
           ++ [Supabase.AccountRow.mk i platform username
                 (Supabase.Account.display_name account)
                 (Supabase.Account.account_id account)
                 (Supabase.Account.follower_count account)
                 (Supabase.Account.following_count account)
                 (Supabase.Account.post_count account)
                 (Supabase.Account.bio account) now now]
      /\ Supabase.get_account platform username (snd r)
         = Some (Supabase.Account.mk (Some i) platform username
                   (Supabase.Account.display_name account)
                   (Supabase.Account.account_id account)
                   (Supabase.Account.follower_count account)
                   (Supabase.Account.following_count account)
                   (Supabase.Account.post_count account)
                   (Supabase.Account.bio account) now now)).
Proof.
  intros Hnd. cbn zeta. unfold Supabase.add_account. split.
  - intros existing Hget. rewrite Hget.
    rewrite supabase_get_account_find in Hget.
    destruct (find _ (Supabase.accounts db)) as [r0|] eqn:F;
      [|discriminate].
    cbn [option_map] in Hget. inversion Hget. subst existing. clear Hget.
    cbn [Supabase._row_to_account Supabase.Account.id
         Supabase.Account.created_at fst snd Supabase.accounts
         Supabase.issued].
    exists (Supabase.AccountRow.id r0). split; [reflexivity|].
    split; [reflexivity|].
    set (upd := fun r : Supabase.AccountRow.t =>
                  if String.eqb (Supabase.AccountRow.id r)
                       (Supabase.AccountRow.id r0) then _ else r).
    assert (Hid : forall r, Supabase.AccountRow.id (upd r)
                            = Supabase.AccountRow.id r).
    { intros r. unfold upd. destruct (String.eqb _ _); reflexivity. }
    split; [|split; [|split; [|reflexivity]]].
    + rewrite supabase_get_account_find.
      cbn [Supabase.accounts].
      pose proof (find_some _ _ F) as [Hin Hkey].
      revert F Hin Hnd. generalize (Supabase.accounts db).
      induction l as [|r l IH]; [discriminate|].
      cbn [find map]. intros F Hin Hnd'.
      inversion Hnd' as [|? ? Hn Hnd'']; subst.
      destruct (Supabase.account_key _ _ r) eqn:K.
      * inversion F. subst r. unfold upd. rewrite String.eqb_refl.
        unfold Supabase.account_key at 1.
        cbn [Supabase.AccountRow.platform Supabase.AccountRow.username].
        rewrite !String.eqb_refl. reflexivity.
      * assert (Hne : Supabase.AccountRow.id r
                      <> Supabase.AccountRow.id r0).
        { intros E. apply Hn. rewrite E. apply in_map.
          apply (find_some _ _ F). }
        unfold upd at 1.
        destruct (String.eqb_spec (Supabase.AccountRow.id r)
                    (Supabase.AccountRow.id r0)); [contradiction|].
        rewrite K. apply IH; [exact F|apply (find_some _ _ F)|exact Hnd''].
    + rewrite map_map. apply map_ext. exact Hid.
    + intros row Hrow Hne. apply in_map_iff. exists row.
      split; [|exact Hrow]. unfold upd.
      destruct (String.eqb_spec (Supabase.AccountRow.id row)
                  (Supabase.AccountRow.id r0)); [contradiction|reflexivity].
  - intros Hget. rewrite Hget. cbn [fst snd Supabase.accounts].
    split; [reflexivity|]. split; [reflexivity|].
    rewrite supabase_get_account_find in *. cbn [Supabase.accounts].
    destruct (find _ (Supabase.accounts db)) as [r0|] eqn:F;
      [discriminate|].
    rewrite find_app_none by exact F. cbn [find].
    unfold Supabase.account_key at 1.
    cbn [Supabase.AccountRow.platform Supabase.AccountRow.username].
    rewrite !String.eqb_refl. reflexivity.
Qed.

Lemma supabase_add_account_keeps_id_witness :
  fst (Supabase.add_account "2024-02-01T09:00:00"
         (Supabase.Account.mk None "instagram" "bob" "Bobby" EmptyString 20
            2 3 EmptyString EmptyString EmptyString) supabase_sample)
    = Some "uuid-0"%string
  /\ option_map Supabase.Account.created_at
       (Supabase.get_account "instagram" "bob"
          (snd (Supabase.add_account "2024-02-01T09:00:00"
                  (Supabase.Account.mk None "instagram" "bob" "Bobby"
                     EmptyString 20 2 3 EmptyString EmptyString EmptyString)
                  supabase_sample)))
     = Some "2024-01-01T09:00:00"%string.
Proof.
  assert (Hnd : NoDup (map Supabase.AccountRow.id
                         (Supabase.accounts supabase_sample)))
    by (vm_compute; repeat constructor; simpl; tauto).
  destruct (Supabase.get_account "instagram" "bob" supabase_sample)
    as [existing|] eqn:Hget; [|vm_compute in Hget; discriminate].
  destruct (@supabase_add_account_keeps_id "2024-02-01T09:00:00"
              (Supabase.Account.mk None "instagram" "bob" "Bobby"
                 EmptyString 20 2 3 EmptyString EmptyString EmptyString)
              supabase_sample Hnd) as [H _].
  destruct (H existing Hget) as (i & Hi & Hr & Hfound & _).
  cbn [Supabase.Account.platform Supabase.Account.username] in Hfound.
  rewrite Hfound, Hr. cbn [option_map Supabase.Account.created_at].
  vm_compute in Hget. inversion Hget. subst existing.
  cbn in Hi. inversion Hi. subst i. split; reflexivity.
Defined.

(** X23 ([SupabaseDatabase.add_post_metrics], [get_post_metrics_history],
    [get_latest_post_metrics]): a snapshot written to the Supabase store
    does not come back whole.  [add_post_metrics] stores the post id, the
    time and five counters; the snapshot that the read methods return for
    it has those, and has [plays] equal to [views] and [reach] and
    [impressions] equal to 0, whatever the written snapshot held there.
    Every snapshot the read methods return has this form, and the written
    one is returned by the history of its post for every order of equal
    keys when the limit is not below the number of the post's
    snapshots. *)
Theorem supabase_post_metrics_round_trip (order_by_desc : Sorter)
    (metrics : Supabase.PostMetrics.t) (limit : Z) (db : Supabase.t) :
  sorter_ok order_by_desc ->
  let r := Supabase.add_post_metrics metrics db in
  let back :=
    Supabase.PostMetrics.mk (Some (fst r))
      (Supabase.PostMetrics.post_id metrics)
      (Supabase.PostMetrics.collected_at metrics)
      (Supabase.PostMetrics.views metrics)
      (Supabase.PostMetrics.likes metrics)
      (Supabase.PostMetrics.comments metrics)
      (Supabase.PostMetrics.shares metrics)
      (Supabase.PostMetrics.saves metrics)
      (Supabase.PostMetrics.views metrics) 0 0 in
  (forall post_id lim d m,
     In m (Supabase.get_post_metrics_history order_by_desc post_id lim d)
     \/ Supabase.get_latest_post_metrics order_by_desc post_id d = Some m ->
     Supabase.PostMetrics.post_id m = post_id
     /\ Supabase.PostMetrics.plays m = Supabase.PostMetrics.views m
     /\ Supabase.PostMetrics.reach m = 0
     /\ Supabase.PostMetrics.impressions m = 0)
  /\ (Z.of_nat (List.length
                  (filter (fun row =>
                             String.eqb (Supabase.PostMetricsRow.post_id row)
                               (Supabase.PostMetrics.post_id metrics))
                          (Supabase.post_metrics (snd r)))) <= limit ->
      In back
        (Supabase.get_post_metrics_history order_by_desc
           (Supabase.PostMetrics.post_id metrics) limit (snd r))).
Proof.
  intros Hok. cbn zeta. split.
  - assert (Hrows : forall post_id lim d row,
              In row (Supabase.select_post_metrics order_by_desc post_id
                        lim d) ->
              Supabase.PostMetricsRow.post_id row = post_id).
    { intros post_id lim d row Hrow. unfold Supabase.select_post_metrics in Hrow.
      assert (Hin : In row (order_by_desc _
                              Supabase.PostMetricsRow.collected_at
                              (filter (fun r0 =>
                                         String.eqb
                                           (Supabase.PostMetricsRow.post_id r0)
                                           post_id)
                                      (Supabase.post_metrics d)))).
      { rewrite <- (firstn_skipn (Z.to_nat lim) _). apply in_or_app. auto. }
      apply (Permutation_in _ (proj1 (Hok _ _ _))) in Hin.
      apply filter_In in Hin. apply String.eqb_eq. tauto. }
    intros post_id lim d m [Hm|Hm].
    + unfold Supabase.get_post_metrics_history in Hm.
      apply in_map_iff in Hm. destruct Hm as (row & <- & Hrow).
      cbn [Supabase._row_to_post_metrics Supabase.PostMetrics.post_id
           Supabase.PostMetrics.plays Supabase.PostMetrics.views
           Supabase.PostMetrics.reach Supabase.PostMetrics.impressions].
      split; [apply (Hrows post_id lim d row Hrow)|auto].
    + unfold Supabase.get_latest_post_metrics in Hm.
      destruct (Supabase.select_post_metrics order_by_desc post_id 1 d)
        as [|row l] eqn:E; [discriminate|].
      inversion Hm. subst m.
      cbn [Supabase._row_to_post_metrics Supabase.PostMetrics.post_id
           Supabase.PostMetrics.plays Supabase.PostMetrics.views
           Supabase.PostMetrics.reach Supabase.PostMetrics.impressions].
      split; [|auto]. apply (Hrows post_id 1 d row). rewrite E.
      left. reflexivity.
  - intros Hlim. unfold Supabase.get_post_metrics_history,
      Supabase.select_post_metrics.
    destruct (Hok _ Supabase.PostMetricsRow.collected_at
                (filter (fun row =>
                           String.eqb (Supabase.PostMetricsRow.post_id row)
                             (Supabase.PostMetrics.post_id metrics))
                        (Supabase.post_metrics
                           (snd (Supabase.add_post_metrics metrics db)))))
      as [Hperm _].
    rewrite firstn_all2 by (rewrite (Permutation_length Hperm); lia).
    apply in_map_iff.
    eexists (Supabase.PostMetricsRow.mk _ _ _ _ _ _ _ _).
    split; [reflexivity|].
    apply (Permutation_in _ (Permutation_sym Hperm)).
    apply filter_In. unfold Supabase.add_post_metrics.
    cbn [fst snd Supabase.post_metrics Supabase.PostMetricsRow.post_id].
    split; [apply in_or_app; right; left; reflexivity|].
    apply String.eqb_refl.
Qed.

Lemma supabase_post_metrics_round_trip_witness :
  In (Supabase.PostMetrics.mk (Some "uuid-1"%string) "p" "2024-01-01" 10 1
        2 3 4 10 0 0)
     (Supabase.get_post_metrics_history sort_by_desc "p" 10
        (snd (Supabase.add_post_metrics
                (Supabase.PostMetrics.mk None "p" "2024-01-01" 10 1 2 3 4
                   777 888 999) supabase_sample))).
Proof.
  apply (@supabase_post_metrics_round_trip sort_by_desc
           (Supabase.PostMetrics.mk None "p" "2024-01-01" 10 1 2 3 4 777 888
              999) 10 supabase_sample sort_by_desc_ok).
  vm_compute. discriminate.
Defined.
